(** * Air Superiority (Airsup_v7): scoring, HUD mirror and team-switch panel

    A shallow embedding of [code/Airsup_v7.ts] and the properties of its
    score clock, perspective projection, HUD registry, objective icons,
    multi-click detector and team-switch controller.

    Conventions of the embedding.
    - A JavaScript [number] holding a counter, a score, an object id or a
      [Date.now()] stamp is a [Z]: the counters of one match stay far below
      2^53, where the arithmetic of doubles on integers is exact.  Match
      time in seconds and widget sizes are doubles, [number]: IEEE-754
      binary64 with its rounding, signed zeros, infinities and NaN.
    - The script's module-level variables and the engine state it writes
      through [mod.*] are the fields of one record, [World]; a function of the
      script is a function [Env -> ... -> World -> World], where [Env] holds
      what the engine answers when asked during that call (zone owners, clocks,
      soldier state, roster, whether a widget gets registered).
    - A player is the number [mod.GetObjId] gives for it; a null or invalid
      player reference is a player for which [isPlayerValid] answers [false].
    - A widget handle is the widget's name: the script only ever creates
      uniquely named widgets and resolves them again by name.
    - An [async] function is the step up to its [await] and the step after
      it; the world records the continuations still waiting.
    - An engine call returns normally, except inside the one [try] block of
      the script, where the engine says which call throws, if any; a call
      that throws has changed nothing. *)

From Stdlib Require Import ZArith QArith Bool List Lia.
From Stdlib Require Import Floats.SpecFloat.
From stdpp Require Import base option list gmap strings pretty.

Local Open Scope Z_scope.

(** ** Doubles *)

(** A TypeScript [number] that holds a time or a size: a binary64 float, in
    the Standard Library's specification of IEEE-754 arithmetic. *)
Definition number : Type := spec_float.

Module Double.

Definition prec : Z := 53.
Definition emax : Z := 1024.

(** The double nearest to an integer: the integer itself below 2^53. *)
Definition ofZ (z : Z) : number := binary_normalize prec emax z 0 false.

(** [a - b], [a * b], [a / b] and [-a], rounded to nearest, ties to even. *)
Definition sub : number -> number -> number := SFsub prec emax.
Definition mul : number -> number -> number := SFmul prec emax.
Definition div : number -> number -> number := SFdiv prec emax.
Definition neg : number -> number := SFopp.

(** [a > b]; false when either side is NaN. *)
Definition gtb (a b : number) : bool := SFltb b a.

(** The rational a finite double stands for. *)
Definition exact (x : number) : option Q :=
  match x with
  | S754_zero _ => Some 0%Q
  | S754_finite s m e =>
    let v := match e with
             | Zneg k => Qmake (Zpos m) (2 ^ k)
             | _ => inject_Z (Zpos m * 2 ^ e)
             end in
    Some (if s then Qopp v else v)
  | S754_infinity _ | S754_nan => None
  end.

(** A decimal literal [i.f] of the script: the double nearest to it, got as
    the correctly rounded quotient of two integers below 2^53. *)
Definition ofLiteral (n : Number.number) : option number :=
  match n with
  | Number.Decimal (Decimal.Decimal i f) =>
    let num := Z.of_int (Decimal.app_int i f) in
    let den := Nat.iter (Decimal.nb_digits f) (Z.mul 10) 1 in
    if (Z.abs num <? 2 ^ 53) && (den <? 2 ^ 53)
    then Some (div (ofZ num) (ofZ den))
    else None
  | _ => None
  end.

(** Doubles are not printed back as literals. *)
Definition toLiteral (x : number) : option Number.number := None.

(** The double [x] is finite and stands for the rational [q]. *)
Definition denotes (x : number) (q : Q) : Prop :=
  exists v, exact x = Some v /\ (v == q)%Q.

End Double.

Declare Scope number_scope.
Delimit Scope number_scope with num.
Bind Scope number_scope with number.
Bind Scope number_scope with spec_float.
Number Notation spec_float Double.ofLiteral Double.toLiteral : number_scope.
Infix "-" := Double.sub : number_scope.
Infix "*" := Double.mul : number_scope.
Infix "/" := Double.div : number_scope.
Notation "- x" := (Double.neg x) : number_scope.
Infix ">?" := Double.gtb : number_scope.

(** ** Teams *)

Module Teams.

(** [mod.Team] handles are identified by the number given to [mod.GetTeam]. *)
Definition Team := Z.

Definition GetTeam (n : Z) : Team := n.

(** [mod.Equals] on two team handles. *)
Definition Equals (a b : Team) : bool := a =? b.

(** [mod.Equals(owner, team)] where [owner] may be unset. *)
Definition ownerEquals (owner : option Team) (t : Team) : bool :=
  match owner with
  | Some o => Equals o t
  | None => false
  end.

End Teams.
Export Teams.

(** ** Widgets *)

Inductive UIButtonEvent :=
| ButtonDown | ButtonUp | FocusIn | FocusOut | HoverIn | HoverOut.

Inductive WidgetKind := Container | TextWidget | ButtonWidget.

(** [mod.Message(...)]: a blank, a string-table key, or the score key applied
    to a number. *)
Inductive Message :=
| MsgBlank
| MsgKey (key : string)
| MsgScore (value : Z).

Definition Vector : Type := number * number * number.

Definition CreateVector (x y z : number) : Vector := (x, y, z).

Record UIWidget := mkWidget {
  wKind : WidgetKind;
  wParent : option string;
  wVisible : bool;
  wSize : Vector;
  wLabel : Message;
  wButtonEnabled : bool;
  wEvents : list UIButtonEvent
}.

Definition widgetSetVisible (b : bool) (x : UIWidget) : UIWidget :=
  mkWidget (wKind x) (wParent x) b (wSize x) (wLabel x) (wButtonEnabled x) (wEvents x).

Definition widgetSetSize (v : Vector) (x : UIWidget) : UIWidget :=
  mkWidget (wKind x) (wParent x) (wVisible x) v (wLabel x) (wButtonEnabled x) (wEvents x).

Definition widgetSetLabel (m : Message) (x : UIWidget) : UIWidget :=
  mkWidget (wKind x) (wParent x) (wVisible x) (wSize x) m (wButtonEnabled x) (wEvents x).

Definition widgetSetEnabled (b : bool) (x : UIWidget) : UIWidget :=
  mkWidget (wKind x) (wParent x) (wVisible x) (wSize x) (wLabel x) b (wEvents x).

Definition widgetEnableEvent (e : UIButtonEvent) (x : UIWidget) : UIWidget :=
  mkWidget (wKind x) (wParent x) (wVisible x) (wSize x) (wLabel x) (wButtonEnabled x)
           (e :: wEvents x).

(** ** Script records *)

Record GameState := mkGameState {
  team1Score : Z;
  team2Score : Z
}.

Record PlayerHud := mkPlayerHud {
  blueScoreName : string;
  redScoreName : string;
  blueBarFillName : string;
  redBarFillName : string;
  objA_Neutral : string;
  objA_NeutralInner : string;
  objA_Friendly : string;
  objA_FriendlyInner : string;
  objA_Enemy : string;
  objA_EnemyInner : string;
  objB_Neutral : string;
  objB_NeutralInner : string;
  objB_Friendly : string;
  objB_FriendlyInner : string;
  objB_Enemy : string;
  objB_EnemyInner : string;
  objC_Neutral : string;
  objC_NeutralInner : string;
  objC_Friendly : string;
  objC_FriendlyInner : string;
  objC_Enemy : string;
  objC_EnemyInner : string
}.

Record PlayerTeamSwitchUi := mkTeamSwitchUi {
  hintTextName : string;
  panelName : string;
  panelLabelName : string;
  team1ButtonName : string;
  team2ButtonName : string;
  closeButtonName : string;
  team1TextName : string;
  team2TextName : string;
  closeTextName : string;
  panelVisible : bool;
  tapCount : Z;
  lastTapTime : number;
  interactPoint : option Z;
  panelOpenedAt : number
}.

(** One entry of [InteractMultiClickDetector.STATES]. *)
Record ClickState := mkClickState {
  lastIsInteracting : bool;
  clickCount : Z;
  sequenceStartTime : Z
}.

(** ** The world: script globals and the engine state behind [mod.*] *)

Record World := mkWorld {
  team1ScoreTimer : Z;
  team2ScoreTimer : Z;
  gameState : GameState;
  playerHudMap : gmap Z PlayerHud;
  playerTeamSwitchUiMap : gmap Z PlayerTeamSwitchUi;
  STATES : gmap Z ClickState;
  (* engine side *)
  widgets : gmap string UIWidget;
  gameModeScore : gmap Z Z;
  scoreboardHeader : option (Message * Message);
  playerTeams : gmap Z Team;
  uiInputMode : gmap Z bool;
  undeployCalls : list Z;
  undeployPending : list Z;
  interactPoints : gmap Z bool
}.

(** How far the two calls inside the [try] block of
    [removeTeamSwitchInteractPoint] get. *)
Inductive TryOutcome :=
| RunsThrough        (* neither call throws *)
| EnableThrows       (* EnableInteractPoint throws: UnspawnObject is skipped *)
| UnspawnThrows.     (* UnspawnObject throws *)

(** What the engine answers during one callback. *)
Record Env := mkEnv {
  ownerOfPoint : Z -> option Team;   (* GetCurrentOwnerTeam(GetCapturePoint n) *)
  matchTimeElapsed : number;         (* GetMatchTimeElapsed(), seconds *)
  dateNow : Z;                       (* Date.now(), milliseconds *)
  isInteracting : Z -> bool;         (* SoldierStateBool.IsInteracting *)
  isPlayerValid : Z -> bool;         (* player && IsPlayerValid(player) *)
  isLikelyDeployed : Z -> bool;      (* IsAlive || IsDead || IsManDown *)
  hasPose : Z -> bool;               (* position and facing both available *)
  spawnedObjId : Z -> Z;             (* id of the object SpawnObject returns
                                        for this player's interact point *)
  cleanupOf : Z -> TryOutcome;       (* the clean-up of this interact point *)
  allPlayers : list Z;               (* AllPlayers(), as object ids *)
  uiAccepts : string -> bool         (* does AddUI* register this name *)
}.

Section Setters.
Variable w : World.

Definition withTimers (t1 t2 : Z) : World :=
  mkWorld t1 t2 (gameState w) (playerHudMap w) (playerTeamSwitchUiMap w)
          (STATES w) (widgets w) (gameModeScore w) (scoreboardHeader w)
          (playerTeams w) (uiInputMode w) (undeployCalls w) (undeployPending w)
          (interactPoints w).

Definition withGameState (g : GameState) : World :=
  mkWorld (team1ScoreTimer w) (team2ScoreTimer w) g (playerHudMap w)
          (playerTeamSwitchUiMap w) (STATES w) (widgets w) (gameModeScore w)
          (scoreboardHeader w) (playerTeams w) (uiInputMode w) (undeployCalls w)
          (undeployPending w) (interactPoints w).

Definition withHudMap (m : gmap Z PlayerHud) : World :=
  mkWorld (team1ScoreTimer w) (team2ScoreTimer w) (gameState w) m
          (playerTeamSwitchUiMap w) (STATES w) (widgets w) (gameModeScore w)
          (scoreboardHeader w) (playerTeams w) (uiInputMode w) (undeployCalls w)
          (undeployPending w) (interactPoints w).

Definition withTeamSwitchUiMap (m : gmap Z PlayerTeamSwitchUi) : World :=
  mkWorld (team1ScoreTimer w) (team2ScoreTimer w) (gameState w) (playerHudMap w)
          m (STATES w) (widgets w) (gameModeScore w)
          (scoreboardHeader w) (playerTeams w) (uiInputMode w) (undeployCalls w)
          (undeployPending w) (interactPoints w).

Definition withSTATES (m : gmap Z ClickState) : World :=
  mkWorld (team1ScoreTimer w) (team2ScoreTimer w) (gameState w) (playerHudMap w)
          (playerTeamSwitchUiMap w) m (widgets w) (gameModeScore w)
          (scoreboardHeader w) (playerTeams w) (uiInputMode w) (undeployCalls w)
          (undeployPending w) (interactPoints w).

Definition withWidgets (m : gmap string UIWidget) : World :=
  mkWorld (team1ScoreTimer w) (team2ScoreTimer w) (gameState w) (playerHudMap w)
          (playerTeamSwitchUiMap w) (STATES w) m (gameModeScore w)
          (scoreboardHeader w) (playerTeams w) (uiInputMode w) (undeployCalls w)
          (undeployPending w) (interactPoints w).

Definition withGameModeScore (m : gmap Z Z) : World :=
  mkWorld (team1ScoreTimer w) (team2ScoreTimer w) (gameState w) (playerHudMap w)
          (playerTeamSwitchUiMap w) (STATES w) (widgets w) m
          (scoreboardHeader w) (playerTeams w) (uiInputMode w) (undeployCalls w)
          (undeployPending w) (interactPoints w).

Definition withScoreboardHeader (h : option (Message * Message)) : World :=
  mkWorld (team1ScoreTimer w) (team2ScoreTimer w) (gameState w) (playerHudMap w)
          (playerTeamSwitchUiMap w) (STATES w) (widgets w) (gameModeScore w)
          h (playerTeams w) (uiInputMode w) (undeployCalls w)
          (undeployPending w) (interactPoints w).

Definition withPlayerTeams (m : gmap Z Team) : World :=
  mkWorld (team1ScoreTimer w) (team2ScoreTimer w) (gameState w) (playerHudMap w)
          (playerTeamSwitchUiMap w) (STATES w) (widgets w) (gameModeScore w)
          (scoreboardHeader w) m (uiInputMode w) (undeployCalls w)
          (undeployPending w) (interactPoints w).

Definition withUiInputMode (m : gmap Z bool) : World :=
  mkWorld (team1ScoreTimer w) (team2ScoreTimer w) (gameState w) (playerHudMap w)
          (playerTeamSwitchUiMap w) (STATES w) (widgets w) (gameModeScore w)
          (scoreboardHeader w) (playerTeams w) m (undeployCalls w)
          (undeployPending w) (interactPoints w).

Definition withUndeploy (calls pending : list Z) : World :=
  mkWorld (team1ScoreTimer w) (team2ScoreTimer w) (gameState w) (playerHudMap w)
          (playerTeamSwitchUiMap w) (STATES w) (widgets w) (gameModeScore w)
          (scoreboardHeader w) (playerTeams w) (uiInputMode w) calls
          pending (interactPoints w).

Definition withInteractPoints (m : gmap Z bool) : World :=
  mkWorld (team1ScoreTimer w) (team2ScoreTimer w) (gameState w) (playerHudMap w)
          (playerTeamSwitchUiMap w) (STATES w) (widgets w) (gameModeScore w)
          (scoreboardHeader w) (playerTeams w) (uiInputMode w) (undeployCalls w)
          (undeployPending w) m.
End Setters.

(** ** Engine calls *)

(** [mod.FindUIWidgetWithName]: the handle when a widget of that name exists. *)
Definition FindUIWidgetWithName (w : World) (name : string) : option string :=
  match widgets w !! name with
  | Some _ => Some name
  | None => None
  end.

Definition GetUIWidgetName (handle : string) : string := handle.

Definition GetUIWidgetParent (w : World) (handle : string) : option string :=
  match widgets w !! handle with
  | Some x => wParent x
  | None => None
  end.

Definition SetUIWidgetVisible (handle : string) (b : bool) (w : World) : World :=
  withWidgets w (alter (widgetSetVisible b) handle (widgets w)).

Definition SetUIWidgetSize (handle : string) (v : Vector) (w : World) : World :=
  withWidgets w (alter (widgetSetSize v) handle (widgets w)).

Definition SetUITextLabel (handle : string) (m : Message) (w : World) : World :=
  withWidgets w (alter (widgetSetLabel m) handle (widgets w)).

Definition SetUIButtonEnabled (handle : string) (b : bool) (w : World) : World :=
  withWidgets w (alter (widgetSetEnabled b) handle (widgets w)).

Definition EnableUIButtonEvent (handle : string) (e : UIButtonEvent) (w : World) : World :=
  withWidgets w (alter (widgetEnableEvent e) handle (widgets w)).

(** [mod.GetTeam(player)]; a player the engine has no team for is on team 0,
    which is neither of the two playing teams. *)
Definition GetPlayerTeam (w : World) (player : Z) : Team :=
  default 0 (playerTeams w !! player).

Definition SetTeam (player : Z) (t : Team) (w : World) : World :=
  withPlayerTeams w (<[player := t]> (playerTeams w)).

Definition SetGameModeScore (t : Team) (score : Z) (w : World) : World :=
  withGameModeScore w (<[t := score]> (gameModeScore w)).

(** ** Team scoring *)

Definition getSecondsPerPoint (pointsHeld : Z) : Z :=
  if pointsHeld =? 3 then 1
  else if pointsHeld =? 2 then 3
  else if pointsHeld =? 1 then 6
  else 0.

(** One zone's contribution to the pair (team1PointsHeld, team2PointsHeld). *)
Definition countOwner (owner : option Team) (held : Z * Z) : Z * Z :=
  if ownerEquals owner (GetTeam 1) then (fst held + 1, snd held)
  else if ownerEquals owner (GetTeam 2) then (fst held, snd held + 1)
  else held.

Definition pointsHeld (e : Env) : Z * Z :=
  countOwner (ownerOfPoint e 102)
    (countOwner (ownerOfPoint e 101)
      (countOwner (ownerOfPoint e 100) (0, 0))).

Definition updateScoreBoardHeader (w : World) : World :=
  withScoreboardHeader w
    (Some (MsgScore (team1Score (gameState w)), MsgScore (team2Score (gameState w)))).

(** The friendly/enemy mapping of [updateAllHudScores]. *)
Definition relativeScores (playerTeam : Team) (g : GameState) : Z * Z :=
  if Equals playerTeam (GetTeam 1)
  then (team1Score g, team2Score g)
  else (team2Score g, team1Score g).

Definition MAX_SCORE : number := 100.
Definition MAX_BAR_WIDTH : number := 280.
Definition BAR_HEIGHT : number := 20.

(** [MAX_BAR_WIDTH * (score / MAX_SCORE)], as the doubles compute it. *)
Definition barWidth (score : Z) : number :=
  MAX_BAR_WIDTH * (Double.ofZ score / MAX_SCORE).

(** Body of the loop of [updateAllHudScores] for one player. *)
Definition updateHudScoresOf (player : Z) (w : World) : World :=
  match playerHudMap w !! player with
  | None => w
  | Some hud =>
    match FindUIWidgetWithName w (blueScoreName hud),
          FindUIWidgetWithName w (redScoreName hud) with
    | Some blueWidget, Some redWidget =>
      let playerTeam := GetPlayerTeam w player in
      let '(friendlyScore, enemyScore) := relativeScores playerTeam (gameState w) in
      let w1 := SetUITextLabel blueWidget (MsgScore friendlyScore) w in
      let w2 := SetUITextLabel redWidget (MsgScore enemyScore) w1 in
      let friendlyWidth := barWidth friendlyScore in
      let enemyWidth := barWidth enemyScore in
      let blueBarFill := FindUIWidgetWithName w2 (blueBarFillName hud) in
      let redBarFill := FindUIWidgetWithName w2 (redBarFillName hud) in
      let w3 := match blueBarFill with
                | Some b => SetUIWidgetSize b (CreateVector friendlyWidth BAR_HEIGHT 0) w2
                | None => w2
                end in
      match redBarFill with
      | Some r => SetUIWidgetSize r (CreateVector (- enemyWidth) BAR_HEIGHT 0) w3
      | None => w3
      end
    | _, _ => w
    end
  end.

Definition updateAllHudScores (e : Env) (w : World) : World :=
  fold_left (fun acc player => updateHudScoresOf player acc) (allPlayers e) w.

Definition updateTeamScores (e : Env) (w : World) : World :=
  let '(team1PointsHeld, team2PointsHeld) := pointsHeld e in
  let t1 := team1ScoreTimer w + 1 in
  let t2 := team2ScoreTimer w + 1 in
  let team1Rate := getSecondsPerPoint team1PointsHeld in
  let team2Rate := getSecondsPerPoint team2PointsHeld in
  let w0 := withTimers w t1 t2 in
  let '(w1, changed1) :=
    if (0 <? team1Rate) && (team1Rate <=? team1ScoreTimer w0)
    then
      let wa := withTimers w0 0 (team2ScoreTimer w0) in
      let wb := withGameState wa
                  (mkGameState (team1Score (gameState wa) + 1) (team2Score (gameState wa))) in
      (SetGameModeScore (GetTeam 1) (team1Score (gameState wb)) wb, true)
    else (w0, false) in
  let '(w2, changed2) :=
    if (0 <? team2Rate) && (team2Rate <=? team2ScoreTimer w1)
    then
      let wa := withTimers w1 (team1ScoreTimer w1) 0 in
      let wb := withGameState wa
                  (mkGameState (team1Score (gameState wa)) (team2Score (gameState wa) + 1)) in
      (SetGameModeScore (GetTeam 2) (team2Score (gameState wb)) wb, true)
    else (w1, changed1) in
  if changed2 then updateAllHudScores e (updateScoreBoardHeader w2) else w2.


(** ** HUD creation *)

(** ["PREFIX_" + id], with the number printed in decimal. *)
Definition named (prefix : string) (id : Z) : string := prefix +:+ pretty id.

(** The engine may decline to register a widget; [uiAccepts] says whether it
    does.  Position, depth, colours, alpha, fill and anchors are rendering
    details and are not kept. *)
Definition AddUIWidget (e : Env) (name : string) (x : UIWidget) (w : World) : World :=
  if uiAccepts e name then withWidgets w (<[name := x]> (widgets w)) else w.

Definition AddUIContainer (e : Env) (name : string) (size : Vector)
           (parent : string) (visible : bool) (w : World) : World :=
  AddUIWidget e name (mkWidget Container (Some parent) visible size MsgBlank false []) w.

Definition AddUIText (e : Env) (name : string) (size : Vector)
           (parent : string) (visible : bool) (m : Message) (w : World) : World :=
  AddUIWidget e name (mkWidget TextWidget (Some parent) visible size m false []) w.

Definition AddUIButton (e : Env) (name : string) (size : Vector)
           (parent : string) (visible : bool) (enabled : bool) (w : World) : World :=
  AddUIWidget e name (mkWidget ButtonWidget (Some parent) visible size MsgBlank enabled []) w.

(** The handle [mod.GetUIRoot()] returns. *)
Definition GetUIRoot : string := "UI_ROOT".

Definition OBJ_SIZE : number := 46.
Definition OBJ_INNER_SIZE : number := OBJ_SIZE - 8.
Definition OBJ_LETTER_PLATE_SIZE : number := OBJ_SIZE - 14.

Definition square (side : number) : Vector := CreateVector side side 0.

(** The record [createHUD] stores for player [id]. *)
Definition hudNames (id : Z) : PlayerHud :=
  mkPlayerHud
    (named "HUD_BLUE_SCORE_" id) (named "HUD_RED_SCORE_" id)
    (named "HUD_BLUE_BAR_FILL_" id) (named "HUD_RED_BAR_FILL_" id)
    (named "HUD_OBJ_A_NEUTRAL_" id) (named "HUD_OBJ_A_NEUTRAL_INNER_" id)
    (named "HUD_OBJ_A_FRIENDLY_" id) (named "HUD_OBJ_A_FRIENDLY_INNER_" id)
    (named "HUD_OBJ_A_ENEMY_" id) (named "HUD_OBJ_A_ENEMY_INNER_" id)
    (named "HUD_OBJ_B_NEUTRAL_" id) (named "HUD_OBJ_B_NEUTRAL_INNER_" id)
    (named "HUD_OBJ_B_FRIENDLY_" id) (named "HUD_OBJ_B_FRIENDLY_INNER_" id)
    (named "HUD_OBJ_B_ENEMY_" id) (named "HUD_OBJ_B_ENEMY_INNER_" id)
    (named "HUD_OBJ_C_NEUTRAL_" id) (named "HUD_OBJ_C_NEUTRAL_INNER_" id)
    (named "HUD_OBJ_C_FRIENDLY_" id) (named "HUD_OBJ_C_FRIENDLY_INNER_" id)
    (named "HUD_OBJ_C_ENEMY_" id) (named "HUD_OBJ_C_ENEMY_INNER_" id).

(** The static creation phase of [createHUD], in source order, under the
    resolved [root]. *)
Definition buildHudWidgets (e : Env) (id : Z) (root : string) (w : World) : World :=
  let n := hudNames id in
  let g := gameState w in
  let steps : list (World -> World) :=
    [ AddUIText e (named "HUD_BLUE_SCORE_BG_" id) (CreateVector 90 45 0) root true MsgBlank;
      AddUIText e (blueScoreName n) (CreateVector 90 45 0) root true (MsgScore (team1Score g));
      AddUIText e (named "HUD_RED_SCORE_BG_" id) (CreateVector 90 45 0) root true MsgBlank;
      AddUIText e (redScoreName n) (CreateVector 90 45 0) root true (MsgScore (team2Score g));
      AddUIText e (named "HUD_BLUE_BAR_BG_" id) (CreateVector 280 20 0) root true MsgBlank;
      AddUIText e (named "HUD_RED_BAR_BG_" id) (CreateVector 280 20 0) root true MsgBlank;
      AddUIContainer e (blueBarFillName n) (CreateVector 0 20 0) root true;
      AddUIContainer e (redBarFillName n) (CreateVector 0 20 0) root true;
      (* letter backings and letters *)
      AddUIText e (named "HUD_OBJ_LETTER_BG_A_" id) (square OBJ_LETTER_PLATE_SIZE) root true MsgBlank;
      AddUIText e (named "HUD_OBJ_LETTER_A_" id) (square OBJ_SIZE) root false (MsgKey "OBJ_A");
      AddUIText e (named "HUD_OBJ_LETTER_BG_B_" id) (square OBJ_LETTER_PLATE_SIZE) root true MsgBlank;
      AddUIText e (named "HUD_OBJ_LETTER_B_" id) (square OBJ_SIZE) root false (MsgKey "OBJ_B");
      AddUIText e (named "HUD_OBJ_LETTER_BG_C_" id) (square OBJ_LETTER_PLATE_SIZE) root true MsgBlank;
      AddUIText e (named "HUD_OBJ_LETTER_C_" id) (square OBJ_SIZE) root false (MsgKey "OBJ_C");
      (* A stack: neutral starts visible *)
      AddUIText e (objA_Neutral n) (square OBJ_SIZE) root true MsgBlank;
      AddUIText e (objA_NeutralInner n) (square OBJ_INNER_SIZE) root true MsgBlank;
      AddUIText e (objA_Friendly n) (square OBJ_SIZE) root false MsgBlank;
      AddUIText e (objA_FriendlyInner n) (square OBJ_INNER_SIZE) root false MsgBlank;
      AddUIText e (objA_Enemy n) (square OBJ_SIZE) root false MsgBlank;
      AddUIText e (objA_EnemyInner n) (square OBJ_INNER_SIZE) root false MsgBlank;
      (* B stack *)
      AddUIText e (objB_Neutral n) (square OBJ_SIZE) root true MsgBlank;
      AddUIText e (objB_NeutralInner n) (square OBJ_INNER_SIZE) root true MsgBlank;
      AddUIText e (objB_Friendly n) (square OBJ_SIZE) root false MsgBlank;
      AddUIText e (objB_FriendlyInner n) (square OBJ_INNER_SIZE) root false MsgBlank;
      AddUIText e (objB_Enemy n) (square OBJ_SIZE) root false MsgBlank;
      (* C stack (the B enemy inner plate is created in its midst) *)
      AddUIText e (objC_Neutral n) (square OBJ_SIZE) root true MsgBlank;
      AddUIText e (objC_NeutralInner n) (square OBJ_INNER_SIZE) root true MsgBlank;
      AddUIText e (objC_Friendly n) (square OBJ_SIZE) root false MsgBlank;
      AddUIText e (objB_EnemyInner n) (square OBJ_INNER_SIZE) root false MsgBlank;
      AddUIText e (objC_FriendlyInner n) (square OBJ_INNER_SIZE) root false MsgBlank;
      AddUIText e (objC_Enemy n) (square OBJ_SIZE) root false MsgBlank;
      AddUIText e (objC_EnemyInner n) (square OBJ_INNER_SIZE) root false MsgBlank;
      (* letter front pass *)
      AddUIText e (named "HUD_OBJ_LETTER_FRONT_A_" id) (square OBJ_SIZE) root true (MsgKey "OBJ_A");
      AddUIText e (named "HUD_OBJ_LETTER_FRONT_B_" id) (square OBJ_SIZE) root true (MsgKey "OBJ_B");
      AddUIText e (named "HUD_OBJ_LETTER_FRONT_C_" id) (square OBJ_SIZE) root true (MsgKey "OBJ_C") ] in
  fold_left (fun acc step => step acc) steps w.

Definition createHUD (e : Env) (player : Z) (w : World) : World :=
  let id := player in
  match playerHudMap w !! id with
  | Some _ => w
  | None =>
    let w1 := AddUIContainer e (named "HUD_ROOT_" id) (CreateVector 1200 150 0)
                             GetUIRoot true w in
    match FindUIWidgetWithName w1 (named "HUD_ROOT_" id) with
    | None => w1
    | Some root =>
      let w2 := buildHudWidgets e id root w1 in
      withHudMap w2 (<[id := hudNames id]> (playerHudMap w2))
    end
  end.

(** ** Objective icons *)

Definition updateSingleObjectiveVisibility
           (playerTeam : Team) (ownerTeam : option Team)
           (neutralName neutralInnerName friendlyName friendlyInnerName
            enemyName enemyInnerName : string) (w : World) : World :=
  match FindUIWidgetWithName w neutralName,
        FindUIWidgetWithName w neutralInnerName,
        FindUIWidgetWithName w friendlyName,
        FindUIWidgetWithName w friendlyInnerName,
        FindUIWidgetWithName w enemyName,
        FindUIWidgetWithName w enemyInnerName with
  | Some neutral, Some neutralInner, Some friendly, Some friendlyInner,
    Some enemy, Some enemyInner =>
    (* hard reset *)
    let w1 := SetUIWidgetVisible neutral false w in
    let w2 := SetUIWidgetVisible neutralInner false w1 in
    let w3 := SetUIWidgetVisible friendly false w2 in
    let w4 := SetUIWidgetVisible friendlyInner false w3 in
    let w5 := SetUIWidgetVisible enemy false w4 in
    let w6 := SetUIWidgetVisible enemyInner false w5 in
    match ownerTeam with
    | None =>
      SetUIWidgetVisible neutralInner true (SetUIWidgetVisible neutral true w6)
    | Some owner =>
      if negb (Equals owner (GetTeam 1)) && negb (Equals owner (GetTeam 2))
      then SetUIWidgetVisible neutralInner true (SetUIWidgetVisible neutral true w6)
      else if Equals playerTeam owner
      then SetUIWidgetVisible friendlyInner true (SetUIWidgetVisible friendly true w6)
      else SetUIWidgetVisible enemyInner true (SetUIWidgetVisible enemy true w6)
    end
  | _, _, _, _, _, _ => w
  end.

(** Body of the loop of [updateAllObjectiveIcons] for one player. *)
Definition updateObjectiveIconsOf (ownerA ownerB ownerC : option Team)
           (player : Z) (w : World) : World :=
  match playerHudMap w !! player with
  | None => w
  | Some hud =>
    let playerTeam := GetPlayerTeam w player in
    let wA := updateSingleObjectiveVisibility playerTeam ownerA
                (objA_Neutral hud) (objA_NeutralInner hud) (objA_Friendly hud)
                (objA_FriendlyInner hud) (objA_Enemy hud) (objA_EnemyInner hud) w in
    let wB := updateSingleObjectiveVisibility playerTeam ownerB
                (objB_Neutral hud) (objB_NeutralInner hud) (objB_Friendly hud)
                (objB_FriendlyInner hud) (objB_Enemy hud) (objB_EnemyInner hud) wA in
    updateSingleObjectiveVisibility playerTeam ownerC
      (objC_Neutral hud) (objC_NeutralInner hud) (objC_Friendly hud)
      (objC_FriendlyInner hud) (objC_Enemy hud) (objC_EnemyInner hud) wB
  end.

Definition updateAllObjectiveIcons (e : Env) (w : World) : World :=
  let ownerA := ownerOfPoint e 100 in
  let ownerB := ownerOfPoint e 101 in
  let ownerC := ownerOfPoint e 102 in
  fold_left (fun acc player => updateObjectiveIconsOf ownerA ownerB ownerC player acc)
            (allPlayers e) w.

(** One pass of the loop of [OnGameModeStarted], after its [Wait(1)]. *)
Definition matchTick (e : Env) (w : World) : World :=
  updateAllObjectiveIcons e (updateTeamScores e w).

(** ** Interact multi-click detector *)

Definition WINDOW_MS : Z := 2000.
Definition REQUIRED_CLICKS : Z := 3.

Definition setLastIsInteracting (b : bool) (st : ClickState) : ClickState :=
  mkClickState b (clickCount st) (sequenceStartTime st).

Definition setClickCount (n : Z) (st : ClickState) : ClickState :=
  mkClickState (lastIsInteracting st) n (sequenceStartTime st).

Definition setSequenceStartTime (t : Z) (st : ClickState) : ClickState :=
  mkClickState (lastIsInteracting st) (clickCount st) t.

(** [checkMultiClick] on the player's state object: the returned flag and the
    object as the call leaves it. *)
Definition detectorStep (isInteracting : bool) (now : Z) (state : ClickState)
  : bool * ClickState :=
  if Bool.eqb isInteracting (lastIsInteracting state) then (false, state)
  else
    let state1 := setLastIsInteracting isInteracting state in
    if negb isInteracting then (false, state1)
    else
      let state2 :=
        if (0 <? clickCount state1) && (WINDOW_MS <? now - sequenceStartTime state1)
        then setClickCount 0 state1
        else state1 in
      if clickCount state2 =? 0
      then (false, setClickCount 1 (setSequenceStartTime now state2))
      else
        let state3 := setClickCount (clickCount state2 + 1) state2 in
        if negb (clickCount state3 =? REQUIRED_CLICKS) then (false, state3)
        else (true, setClickCount 0 state3).

(** The state object a first poll creates. *)
Definition newClickState (isInteracting : bool) : ClickState :=
  mkClickState isInteracting 0 0.

Definition checkMultiClick (e : Env) (player : Z) (w : World) : bool * World :=
  let playerId := player in
  let isInteracting := isInteracting e player in
  let state := default (newClickState isInteracting) (STATES w !! playerId) in
  let '(fired, state') := detectorStep isInteracting (dateNow e) state in
  (fired, withSTATES w (<[playerId := state']> (STATES w))).

(** ** Team-switch panel *)

Definition TRIPLE_TAP_WINDOW_SECONDS : number := 1.25.

Definition setPanelState (visible : bool) (openedAt : number) (ui : PlayerTeamSwitchUi)
  : PlayerTeamSwitchUi :=
  mkTeamSwitchUi (hintTextName ui) (panelName ui) (panelLabelName ui)
                 (team1ButtonName ui) (team2ButtonName ui) (closeButtonName ui)
                 (team1TextName ui) (team2TextName ui) (closeTextName ui)
                 visible (tapCount ui) (lastTapTime ui) (interactPoint ui) openedAt.

Definition setTapState (count : Z) (last : number) (ui : PlayerTeamSwitchUi)
  : PlayerTeamSwitchUi :=
  mkTeamSwitchUi (hintTextName ui) (panelName ui) (panelLabelName ui)
                 (team1ButtonName ui) (team2ButtonName ui) (closeButtonName ui)
                 (team1TextName ui) (team2TextName ui) (closeTextName ui)
                 (panelVisible ui) count last (interactPoint ui) (panelOpenedAt ui).

Definition setInteractPoint (ip : option Z) (ui : PlayerTeamSwitchUi)
  : PlayerTeamSwitchUi :=
  mkTeamSwitchUi (hintTextName ui) (panelName ui) (panelLabelName ui)
                 (team1ButtonName ui) (team2ButtonName ui) (closeButtonName ui)
                 (team1TextName ui) (team2TextName ui) (closeTextName ui)
                 (panelVisible ui) (tapCount ui) (lastTapTime ui) ip (panelOpenedAt ui).

(** The record [createTeamSwitchUi] stores for player [id]. *)
Definition teamSwitchNames (id : Z) : PlayerTeamSwitchUi :=
  mkTeamSwitchUi
    (named "HUD_TEAM_SWITCH_HINT_" id) (named "HUD_TEAM_SWITCH_PANEL_" id)
    (named "HUD_TEAM_SWITCH_LABEL_" id)
    (named "HUD_TEAM_SWITCH_T1_" id) (named "HUD_TEAM_SWITCH_T2_" id)
    (named "HUD_TEAM_SWITCH_CLOSE_" id)
    (named "HUD_TEAM_SWITCH_T1_TEXT_" id) (named "HUD_TEAM_SWITCH_T2_TEXT_" id)
    (named "HUD_TEAM_SWITCH_CLOSE_TEXT_" id)
    false 0 (-1000) None (-1000).

Definition updateTeamSwitchButtonState (player : Z) (w : World) : World :=
  match playerTeamSwitchUiMap w !! player with
  | None => w
  | Some ui =>
    match FindUIWidgetWithName w (team1ButtonName ui),
          FindUIWidgetWithName w (team2ButtonName ui) with
    | Some t1Button, Some t2Button =>
      SetUIButtonEnabled t2Button true (SetUIButtonEnabled t1Button true w)
    | _, _ => w
    end
  end.

(** [if (x) f(x)] for an optional handle. *)
Definition whenFound (h : option string) (f : string -> World -> World) (w : World) : World :=
  match h with
  | Some x => f x w
  | None => w
  end.

Definition enableBothEvents (button : string) (w : World) : World :=
  EnableUIButtonEvent button ButtonUp (EnableUIButtonEvent button ButtonDown w).

Definition createTeamSwitchUi (e : Env) (player : Z) (w : World) : World :=
  let id := player in
  match playerTeamSwitchUiMap w !! id with
  | Some _ => w
  | None =>
    let n := teamSwitchNames id in
    let w1 := AddUIText e (hintTextName n) (CreateVector 440 24 0) GetUIRoot true
                        (MsgKey "TEAM_SWITCH_HINT") w in
    let w2 := AddUIContainer e (panelName n) (CreateVector 440 150 0) GetUIRoot false w1 in
    match FindUIWidgetWithName w2 (panelName n) with
    | None => w2
    | Some panel =>
      let steps : list (World -> World) :=
        [ AddUIText e (panelLabelName n) (CreateVector 300 24 0) panel false
                    (MsgKey "TEAM_SWITCH_LABEL");
          AddUIButton e (team1ButtonName n) (CreateVector 180 36 0) panel false true;
          AddUIText e (team1TextName n) (CreateVector 160 24 0) panel false
                    (MsgKey "TEAM_SWITCH_JOIN_1");
          AddUIButton e (team2ButtonName n) (CreateVector 180 36 0) panel false true;
          AddUIText e (team2TextName n) (CreateVector 160 24 0) panel false
                    (MsgKey "TEAM_SWITCH_JOIN_2");
          AddUIButton e (closeButtonName n) (CreateVector 180 34 0) panel false true;
          AddUIText e (closeTextName n) (CreateVector 160 24 0) panel false
                    (MsgKey "TEAM_SWITCH_CLOSE") ] in
      let w3 := fold_left (fun acc step => step acc) steps w2 in
      let w4 := withTeamSwitchUiMap w3 (<[id := n]> (playerTeamSwitchUiMap w3)) in
      let w5 := whenFound (FindUIWidgetWithName w4 (team1ButtonName n)) enableBothEvents w4 in
      let w6 := whenFound (FindUIWidgetWithName w4 (team2ButtonName n)) enableBothEvents w5 in
      let w7 := whenFound (FindUIWidgetWithName w4 (closeButtonName n)) enableBothEvents w6 in
      updateTeamSwitchButtonState player w7
    end
  end.

Definition nameMatches (name expected : string) : bool :=
  String.eqb name expected
  || String.eqb name (expected +:+ "_BORDER")
  || String.eqb name (expected +:+ "_LABEL").

(** The loop of [widgetOrAncestorMatchesName]; [fuel] is what is left of
    [maxDepth]. *)
Fixpoint ancestorWalk (w : World) (expectedNames : list string)
         (fuel : nat) (current : option string) : bool :=
  match fuel, current with
  | S fuel', Some c =>
    let name := GetUIWidgetName c in
    if existsb (nameMatches name) expectedNames then true
    else ancestorWalk w expectedNames fuel' (GetUIWidgetParent w c)
  | _, _ => false
  end.

Definition widgetOrAncestorMatchesName (w : World) (startWidget : string)
           (expectedNames : list string) : bool :=
  ancestorWalk w expectedNames 8 (Some startWidget).

Definition EnableUIInputMode (visible : bool) (player : Z) (w : World) : World :=
  withUiInputMode w (<[player := visible]> (uiInputMode w)).

Definition setTeamSwitchPanelVisible (e : Env) (player : Z) (visible : bool) (w : World)
  : World :=
  let id := player in
  match playerTeamSwitchUiMap w !! id with
  | None => w
  | Some ui =>
    let panel := FindUIWidgetWithName w (panelName ui) in
    let label := FindUIWidgetWithName w (panelLabelName ui) in
    let t1Button := FindUIWidgetWithName w (team1ButtonName ui) in
    let t2Button := FindUIWidgetWithName w (team2ButtonName ui) in
    let closeButton := FindUIWidgetWithName w (closeButtonName ui) in
    let t1Text := FindUIWidgetWithName w (team1TextName ui) in
    let t2Text := FindUIWidgetWithName w (team2TextName ui) in
    let closeText := FindUIWidgetWithName w (closeTextName ui) in
    let show := fun h => whenFound h (fun x => SetUIWidgetVisible x visible) in
    let w1 := show closeText (show t2Text (show t1Text (show closeButton
                (show t2Button (show t1Button (show label (show panel w))))))) in
    let ui' := setPanelState visible
                 (if visible then matchTimeElapsed e else -1000) ui in
    let w2 := withTeamSwitchUiMap w1 (<[id := ui']> (playerTeamSwitchUiMap w1)) in
    let w3 := EnableUIInputMode visible player w2 in
    if visible then
      let enable := fun h => whenFound h (fun x => SetUIButtonEnabled x true) in
      updateTeamSwitchButtonState player
        (enable closeButton (enable t2Button (enable t1Button w3)))
    else w3
  end.

Definition processInteractTap (e : Env) (player : Z) (w : World) : World :=
  match playerTeamSwitchUiMap w !! player with
  | None => w
  | Some ui =>
    let now := matchTimeElapsed e in
    let count0 := if (now - lastTapTime ui >? TRIPLE_TAP_WINDOW_SECONDS)%num
                  then 0 else tapCount ui in
    let count1 := count0 + 1 in
    if 3 <=? count1 then
      let ui' := setTapState 0 now ui in
      setTeamSwitchPanelVisible e player (negb (panelVisible ui'))
        (withTeamSwitchUiMap w (<[player := ui']> (playerTeamSwitchUiMap w)))
    else
      withTeamSwitchUiMap w (<[player := setTapState count1 now ui]> (playerTeamSwitchUiMap w))
  end.

Definition EnableInteractPoint (ip : Z) (b : bool) (w : World) : World :=
  withInteractPoints w (<[ip := b]> (interactPoints w)).

Definition UnspawnObject (ip : Z) (w : World) : World :=
  withInteractPoints w (delete ip (interactPoints w)).

Definition ensureTeamSwitchInteractPoint (e : Env) (player : Z) (w : World) : World :=
  if negb (isPlayerValid e player) then w
  else if negb (isLikelyDeployed e player) then w
  else
    match playerTeamSwitchUiMap w !! player with
    | None => w
    | Some ui =>
      match interactPoint ui with
      | Some _ => w
      | None =>
        if negb (hasPose e player) then w
        else
          let ip := spawnedObjId e player in
          let w1 := EnableInteractPoint ip true w in
          withTeamSwitchUiMap w1
            (<[player := setInteractPoint (Some ip) ui]> (playerTeamSwitchUiMap w1))
      end
    end.

(** The [try] block of [removeTeamSwitchInteractPoint]: the two calls run
    in order up to the first that throws, and the throw is swallowed. *)
Definition cleanUpInteractPoint (e : Env) (ip : Z) (w : World) : World :=
  match cleanupOf e ip with
  | RunsThrough => UnspawnObject ip (EnableInteractPoint ip false w)
  | EnableThrows => w
  | UnspawnThrows => EnableInteractPoint ip false w
  end.

(** The field is cleared after the [try] block, whatever happened in it. *)
Definition removeTeamSwitchInteractPoint (e : Env) (player : Z) (w : World) : World :=
  match playerTeamSwitchUiMap w !! player with
  | None => w
  | Some ui =>
    match interactPoint ui with
    | None => w
    | Some ip =>
      let w1 := cleanUpInteractPoint e ip w in
      withTeamSwitchUiMap w1
        (<[player := setInteractPoint None ui]> (playerTeamSwitchUiMap w1))
    end
  end.

(** [forceUndeployPlayer] up to its [await]: the first redeploy command, and
    the continuation left waiting. *)
Definition forceUndeployPlayer (e : Env) (player : Z) (w : World) : World :=
  if negb (isPlayerValid e player) then w
  else withUndeploy w (undeployCalls w ++ [player]) (undeployPending w ++ [player]).

(** Drop the first occurrence of [x], if there is one. *)
Fixpoint removeFirst (x : Z) (l : list Z) : option (list Z) :=
  match l with
  | [] => None
  | y :: rest =>
    if x =? y then Some rest
    else match removeFirst x rest with
         | Some rest' => Some (y :: rest')
         | None => None
         end
  end.

(** The continuation of a waiting [forceUndeployPlayer] of [player], run when
    its [Wait(0.05)] is over; [e] is the engine's state at that moment.
    Nothing runs when none is waiting. *)
Definition resumeForceUndeploy (e : Env) (player : Z) (w : World) : World :=
  match removeFirst player (undeployPending w) with
  | None => w
  | Some rest =>
    if negb (isPlayerValid e player) then withUndeploy w (undeployCalls w) rest
    else withUndeploy w (undeployCalls w ++ [player]) rest
  end.

Definition isButtonClick (w : World) (eventUIWidget : string)
           (button : option string) (buttonName textName : string) : bool :=
  let clickedName := GetUIWidgetName eventUIWidget in
  String.eqb clickedName buttonName
  || String.eqb clickedName textName
  || match button with
     | Some b => String.eqb eventUIWidget b
     | None => false
     end
  || widgetOrAncestorMatchesName w eventUIWidget [buttonName; textName].

Definition OnPlayerUIButtonEvent (e : Env) (eventPlayer : Z) (eventUIWidget : string)
           (eventUIButtonEvent : UIButtonEvent) (w : World) : World :=
  let isButtonUp := match eventUIButtonEvent with ButtonUp => true | _ => false end in
  let isButtonDown := match eventUIButtonEvent with ButtonDown => true | _ => false end in
  if negb isButtonUp && negb isButtonDown then w
  else
    match playerTeamSwitchUiMap w !! eventPlayer with
    | None => w
    | Some ui =>
      if negb (panelVisible ui) then w
      else
        let t1Button := FindUIWidgetWithName w (team1ButtonName ui) in
        let t2Button := FindUIWidgetWithName w (team2ButtonName ui) in
        let closeButton := FindUIWidgetWithName w (closeButtonName ui) in
        if isButtonClick w eventUIWidget closeButton (closeButtonName ui) (closeTextName ui)
        then
          if negb isButtonUp then w
          else setTeamSwitchPanelVisible e eventPlayer false w
        else if isButtonClick w eventUIWidget t1Button (team1ButtonName ui) (team1TextName ui)
        then
          if negb isButtonUp then w
          else
            forceUndeployPlayer e eventPlayer
              (setTeamSwitchPanelVisible e eventPlayer false
                (updateTeamSwitchButtonState eventPlayer
                  (SetTeam eventPlayer (GetTeam 1) w)))
        else if isButtonClick w eventUIWidget t2Button (team2ButtonName ui) (team2TextName ui)
        then
          if negb isButtonUp then w
          else
            forceUndeployPlayer e eventPlayer
              (setTeamSwitchPanelVisible e eventPlayer false
                (updateTeamSwitchButtonState eventPlayer
                  (SetTeam eventPlayer (GetTeam 2) w)))
        else w
    end.

Definition OngoingPlayer (e : Env) (eventPlayer : Z) (w : World) : World :=
  if negb (isPlayerValid e eventPlayer) then w
  else
    let '(fired, w1) := checkMultiClick e eventPlayer w in
    let w2 :=
      if fired then
        match playerTeamSwitchUiMap w1 !! eventPlayer with
        | Some ui => setTeamSwitchPanelVisible e eventPlayer (negb (panelVisible ui)) w1
        | None => w1
        end
      else w1 in
    let w3 :=
      match playerTeamSwitchUiMap w2 !! eventPlayer with
      | Some ui =>
        if panelVisible ui
           && (matchTimeElapsed e - panelOpenedAt ui >? 15)%num
        then setTeamSwitchPanelVisible e eventPlayer false w2
        else w2
      | None => w2
      end in
    if isLikelyDeployed e eventPlayer
    then ensureTeamSwitchInteractPoint e eventPlayer w3
    else removeTeamSwitchInteractPoint e eventPlayer w3.

Definition OnPlayerInteract (e : Env) (eventPlayer : Z) (eventInteractPoint : Z)
           (w : World) : World :=
  match playerTeamSwitchUiMap w !! eventPlayer with
  | None => w
  | Some ui =>
    match interactPoint ui with
    | None => w
    | Some ip =>
      if negb (eventInteractPoint =? ip) then w
      else processInteractTap e eventPlayer w
    end
  end.

(** Player initialisation as far as the HUD registry and the panel go
    ([initializePlayerState] without the scoreboard variables). *)
Definition initializePlayerState (e : Env) (player : Z) (w : World) : World :=
  ensureTeamSwitchInteractPoint e player
    (createTeamSwitchUi e player (createHUD e player w)).

Definition OnPlayerJoinGame (e : Env) (player : Z) (w : World) : World :=
  updateAllObjectiveIcons e (updateAllHudScores e (initializePlayerState e player w)).
(** ** Sample worlds and engine snapshots *)

(** The world right after the resets at the top of [OnGameModeStarted], with
    an empty UI. *)
Definition freshWorld : World :=
  mkWorld 0 0 (mkGameState 0 0) ∅ ∅ ∅ ∅ ∅ None ∅ ∅ [] [] ∅.

(** An engine snapshot with the three zones owned as given, at match time
    [t] seconds and [Date.now()] = [ms], every player valid and deployed;
    player [n]'s interact point is object [9000 + n], and no clean-up
    throws. *)
Definition snapshot (a b c : option Team) (t : number) (ms : Z) (interacting : bool)
           (players : list Z) : Env :=
  mkEnv (fun n => if n =? 100 then a else if n =? 101 then b else c)
        t ms (fun _ => interacting) (fun _ => true) (fun _ => true) (fun _ => true)
        (fun player => 9000 + player) (fun _ => RunsThrough) players (fun _ => true).

Definition zonesEnv (a b c : option Team) : Env := snapshot a b c 0 0 false [].

(** Player 7, whom the engine has put on team 1, joins an empty match in
    which the engine registers every widget. *)
Definition joinEnv : Env := snapshot None None None 0 0 false [7].

Definition joinedWorld : World :=
  OnPlayerJoinGame joinEnv 7 (SetTeam 7 (GetTeam 1) freshWorld).

(** The engine at match time [t] seconds, player 7 not pressing interact. *)
Definition atTime (t : number) : Env := snapshot None None None t 0 false [7].

(** The engine at match time [t] seconds, when it holds no player valid any
    more. *)
Definition goneAt (t : number) : Env :=
  mkEnv (fun _ => None) t 0 (fun _ => false) (fun _ => false) (fun _ => false)
        (fun _ => false) (fun player => 9000 + player) (fun _ => RunsThrough) []
        (fun _ => true).

(** Player 7's panel has been open since match time 10 s. *)
Definition panelOpenWorld : World :=
  setTeamSwitchPanelVisible (atTime 10) 7 true joinedWorld.

(** ** Views used to state the scoring properties *)

Inductive Side := Team1 | Team2.

Definition teamOfSide (s : Side) : Team :=
  match s with Team1 => GetTeam 1 | Team2 => GetTeam 2 end.

Definition otherSide (s : Side) : Side :=
  match s with Team1 => Team2 | Team2 => Team1 end.

Definition scoreOf (s : Side) (w : World) : Z :=
  match s with
  | Team1 => team1Score (gameState w)
  | Team2 => team2Score (gameState w)
  end.

Definition timerOf (s : Side) (w : World) : Z :=
  match s with
  | Team1 => team1ScoreTimer w
  | Team2 => team2ScoreTimer w
  end.

Definition heldBy (s : Side) (e : Env) : Z :=
  match s with
  | Team1 => fst (pointsHeld e)
  | Team2 => snd (pointsHeld e)
  end.

(** Successive passes of the match loop, one engine snapshot per pass. *)
Definition runTicks (es : list Env) (w : World) : World :=
  fold_left (fun acc e => matchTick e acc) es w.


(** Whether the tick awards side [s] a point. *)
Definition awards (s : Side) (e : Env) (w : World) : bool :=
  (0 <? getSecondsPerPoint (heldBy s e)) &&
  (getSecondsPerPoint (heldBy s e) <=? timerOf s w + 1).


(** ** Views used to state the HUD and panel properties *)

Definition isVisible (w : World) (name : string) : bool :=
  match widgets w !! name with
  | Some x => wVisible x
  | None => false
  end.

Definition labelOf (w : World) (name : string) : option Message :=
  wLabel <$> widgets w !! name.

(** The detector's verdict and the player's state object after one poll. *)
Definition pollFires (e : Env) (player : Z) (w : World) : bool :=
  fst (checkMultiClick e player w).

Definition pollWorld (e : Env) (player : Z) (w : World) : World :=
  snd (checkMultiClick e player w).

(** Successive polls of one player; the verdicts in order, and the world left. *)
Fixpoint runPolls (es : list Env) (player : Z) (w : World) : list bool * World :=
  match es with
  | [] => ([], w)
  | e :: rest =>
    let '(fired, w1) := checkMultiClick e player w in
    let '(out, w2) := runPolls rest player w1 in
    (fired :: out, w2)
  end.

(** A poll that reads "interact held" at [Date.now() = ms], and one that reads
    "not held". *)
Definition pressAt (ms : Z) : Env := snapshot None None None 0 ms true [].
Definition releaseAt (ms : Z) : Env := snapshot None None None 0 ms false [].

(** The three outcomes of the ownership classification, in the spec's words:
    neutral when the owner is unset or is neither playing team, friendly when
    it is the viewer's team, enemy otherwise. *)
Inductive Ownership := Neutral | Friendly | Enemy.

Definition classifyOwner (playerTeam : Team) (ownerTeam : option Team) : Ownership :=
  match ownerTeam with
  | None => Neutral
  | Some owner =>
    if decide (owner <> GetTeam 1 /\ owner <> GetTeam 2) then Neutral
    else if decide (owner = playerTeam) then Friendly
    else Enemy
  end.

(** Which of the three pairs of one stack are shown. *)
Definition pairShown (w : World) (outer inner : string) : bool :=
  isVisible w outer && isVisible w inner.

Definition pairHidden (w : World) (outer inner : string) : bool :=
  negb (isVisible w outer) && negb (isVisible w inner).

(** The detector run on one state object over a list of samples
    (held?, [Date.now()]). *)
Fixpoint runDetector (samples : list (bool * Z)) (st : ClickState)
  : list bool * ClickState :=
  match samples with
  | [] => ([], st)
  | (b, now) :: rest =>
    let '(fired, st1) := detectorStep b now st in
    let '(out, st2) := runDetector rest st1 in
    (fired :: out, st2)
  end.

Definition sampleOf (player : Z) (e : Env) : bool * Z :=
  (isInteracting e player, dateNow e).

Inductive Zone := ZoneA | ZoneB | ZoneC.

(** The six plate names of one objective stack, in the argument order of
    [updateSingleObjectiveVisibility]. *)
Definition stackOf (z : Zone) (hud : PlayerHud) : list string :=
  match z with
  | ZoneA => [objA_Neutral hud; objA_NeutralInner hud; objA_Friendly hud;
              objA_FriendlyInner hud; objA_Enemy hud; objA_EnemyInner hud]
  | ZoneB => [objB_Neutral hud; objB_NeutralInner hud; objB_Friendly hud;
              objB_FriendlyInner hud; objB_Enemy hud; objB_EnemyInner hud]
  | ZoneC => [objC_Neutral hud; objC_NeutralInner hud; objC_Friendly hud;
              objC_FriendlyInner hud; objC_Enemy hud; objC_EnemyInner hud]
  end.

(** A step that writes nothing but the engine's widget store. *)
Definition onlyWidgets (f : World -> World) : Prop :=
  forall w, f w = withWidgets w (widgets (f w)).

(** The eight widgets of a player's team-switch panel. *)
Definition panelWidgetNames (ui : PlayerTeamSwitchUi) : list string :=
  [panelName ui; panelLabelName ui; team1ButtonName ui; team2ButtonName ui;
   closeButtonName ui; team1TextName ui; team2TextName ui; closeTextName ui].

(** Whether the event widget counts as a click on the close, the team-1 or
    the team-2 button, as [OnPlayerUIButtonEvent] computes it. *)
Definition isCloseClick (w : World) (ui : PlayerTeamSwitchUi) (eventUIWidget : string) : bool :=
  isButtonClick w eventUIWidget (FindUIWidgetWithName w (closeButtonName ui))
                (closeButtonName ui) (closeTextName ui).

Definition isTeam1Click (w : World) (ui : PlayerTeamSwitchUi) (eventUIWidget : string) : bool :=
  isButtonClick w eventUIWidget (FindUIWidgetWithName w (team1ButtonName ui))
                (team1ButtonName ui) (team1TextName ui).

Definition isTeam2Click (w : World) (ui : PlayerTeamSwitchUi) (eventUIWidget : string) : bool :=
  isButtonClick w eventUIWidget (FindUIWidgetWithName w (team2ButtonName ui))
                (team2ButtonName ui) (team2TextName ui).

(** The button the handler takes the event widget for: it tries close, then
    team 1, then team 2. *)
Inductive ClickTarget := CloseButton | Team1Button | Team2Button | NoButton.

Definition clickTarget (w : World) (ui : PlayerTeamSwitchUi) (eventUIWidget : string)
  : ClickTarget :=
  if isCloseClick w ui eventUIWidget then CloseButton
  else if isTeam1Click w ui eventUIWidget then Team1Button
  else if isTeam2Click w ui eventUIWidget then Team2Button
  else NoButton.

(** The panel flag of a player's registry entry, if there is one. *)
Definition panelShownFor (w : World) (player : Z) : option bool :=
  panelVisible <$> playerTeamSwitchUiMap w !! player.


(** The "set visibility if found" steps of [setTeamSwitchPanelVisible]: the
    handles are resolved in the world [w0] of the call's start. *)
Definition setVisibleIfFound (w0 : World) (v : bool) (name : string) (w : World) : World :=
  whenFound (FindUIWidgetWithName w0 name) (fun x => SetUIWidgetVisible x v) w.

Definition setVisibleAll (w0 : World) (v : bool) (names : list string) (w : World) : World :=
  fold_left (fun acc name => setVisibleIfFound w0 v name acc) names w.

(** The [k]-th parent of a widget, if the chain is that long. *)
Fixpoint nthAncestor (w : World) (k : nat) (c : string) : option string :=
  match k with
  | O => Some c
  | S k' =>
    match GetUIWidgetParent w c with
    | Some parent => nthAncestor w k' parent
    | None => None
    end
  end.

(** The panel flag and opening time of a player's registry entry. *)
Definition panelStateOf (w : World) (player : Z) : option (bool * number) :=
  (fun ui => (panelVisible ui, panelOpenedAt ui)) <$> playerTeamSwitchUiMap w !! player.

(** The interact-point bookkeeping that ends [OngoingPlayer]. *)
Definition manageInteractPoint (e : Env) (player : Z) (w : World) : World :=
  if isLikelyDeployed e player
  then ensureTeamSwitchInteractPoint e player w
  else removeTeamSwitchInteractPoint e player w.


(** Whether the safety check of [OngoingPlayer] finds a panel opened at
    [openedAt] overdue at [now]: the difference of the two doubles, rounded,
    is above 15. *)
Definition overdue (now openedAt : number) : bool := (now - openedAt >? 15)%num.

(** What a tick without a gesture does to the panel state: an open panel
    found overdue is closed, anything else stays. *)
Definition timeoutStep (now : number) (s : option (bool * number))
  : option (bool * number) :=
  match s with
  | Some (true, openedAt) =>
    if overdue now openedAt
    then Some (false, (-1000)%num)
    else Some (true, openedAt)
  | other => other
  end.

(** ** Match start *)

(** [setUpScoreBoard] as far as the world goes: the scoreboard type, column
    names and column widths are engine settings no function of the script
    reads back; what is left is the header refresh in its midst. *)
Definition setUpScoreBoard (w : World) : World := updateScoreBoardHeader w.

Definition initializeAllCurrentPlayers (e : Env) (w : World) : World :=
  let w1 := fold_left (fun acc player => initializePlayerState e player acc)
                      (allPlayers e) w in
  updateAllObjectiveIcons e (updateAllHudScores e w1).

(** [OnGameModeStarted] up to its loop.  The capture-point settings written in
    between (objective enabled, capture and neutralisation time, multiplier)
    are engine state outside [World]. *)
Definition startOfMatch (e : Env) (w : World) : World :=
  let w1 := withTimers w 0 0 in
  let w2 := withTeamSwitchUiMap w1 ∅ in
  let w3 := withGameState w2 (mkGameState 0 0) in
  let w4 := SetGameModeScore (GetTeam 2) 0 (SetGameModeScore (GetTeam 1) 0 w3) in
  initializeAllCurrentPlayers e (updateScoreBoardHeader (setUpScoreBoard w4)).

(** [OnGameModeStarted]: the set-up, then one pass of the loop per snapshot
    [es] taken while match time remained. *)
Definition OnGameModeStarted (e : Env) (es : list Env) (w : World) : World :=
  runTicks es (startOfMatch e w).

Definition OnPlayerSwitchTeam (eventPlayer : Z) (w : World) : World :=
  updateTeamSwitchButtonState eventPlayer w.

(** ** Player statistics

    The object variables of the players and their scoreboard rows are a
    second piece of engine state, which none of the functions above touches;
    the functions that keep them are given on it alone. *)

Record Board := mkBoard {
  objectVariables : gmap (Z * Z) Z;        (* ObjectVariable(player, index) *)
  scoreboardRows : gmap Z (Z * Z * Z * Z)  (* SetScoreboardPlayerValues *)
}.

Definition playerKills : Z := 0.
Definition playerDeaths : Z := 1.
Definition playerScore : Z := 2.
Definition playerCaptures : Z := 3.

(** [mod.GetVariable]; a variable never set reads 0. *)
Definition GetVariable (b : Board) (player index : Z) : Z :=
  default 0 (objectVariables b !! (player, index)).

Definition SetVariable (player index value : Z) (b : Board) : Board :=
  mkBoard (<[(player, index) := value]> (objectVariables b)) (scoreboardRows b).

Definition SetScoreboardPlayerValues (player : Z) (row : Z * Z * Z * Z) (b : Board) : Board :=
  mkBoard (objectVariables b) (<[player := row]> (scoreboardRows b)).

Definition updatePlayerScoreBoard (player : Z) (b : Board) : Board :=
  SetScoreboardPlayerValues player
    (GetVariable b player playerScore, GetVariable b player playerKills,
     GetVariable b player playerDeaths, GetVariable b player playerCaptures) b.

(** The part of [initializePlayerState] that precedes [createHUD]. *)
Definition initializePlayerStats (player : Z) (b : Board) : Board :=
  updatePlayerScoreBoard player
    (SetVariable player playerScore 0
      (SetVariable player playerCaptures 0
        (SetVariable player playerDeaths 0
          (SetVariable player playerKills 0 b)))).

Definition awardKillAndScore (e : Env) (player : Z) (b : Board) : Board :=
  if negb (isPlayerValid e player) then b
  else
    let b1 := SetVariable player playerKills (GetVariable b player playerKills + 1) b in
    let b2 := SetVariable player playerScore (GetVariable b1 player playerScore + 100) b1 in
    updatePlayerScoreBoard player b2.

Definition OnPlayerEarnKill (e : Env) (player : Z) (b : Board) : Board :=
  awardKillAndScore e player b.

Definition OnPlayerDied (e : Env) (player : Z) (killer : option Z) (b : Board) : Board :=
  let b1 := SetVariable player playerDeaths (GetVariable b player playerDeaths + 1) b in
  let b2 := updatePlayerScoreBoard player b1 in
  match killer with
  | Some k =>
    if isPlayerValid e k && negb (k =? player) then awardKillAndScore e k b2 else b2
  | None => b2
  end.

(** Body of the loop of [OnCapturePointCaptured] for one player on the point;
    it reads the player's team in the world and, for a rewarded player,
    refreshes the objective icons. *)
Definition rewardCapture (e : Env) (currentOwner : option Team) (player : Z)
           (s : World * Board) : World * Board :=
  let '(w, b) := s in
  if ownerEquals currentOwner (GetPlayerTeam w player) then
    let b1 := SetVariable player playerCaptures (GetVariable b player playerCaptures + 1) b in
    let b2 := SetVariable player playerScore (GetVariable b1 player playerScore + 200) b1 in
    (updateAllObjectiveIcons e w, updatePlayerScoreBoard player b2)
  else (w, b).

(** [playersOnPoint] is what [mod.GetPlayersOnPoint(capturePoint)] answers. *)
Definition OnCapturePointCaptured (e : Env) (playersOnPoint : list Z) (capturePoint : Z)
           (s : World * Board) : World * Board :=
  let currentOwner := ownerOfPoint e capturePoint in
  fold_left (fun acc player => rewardCapture e currentOwner player acc) playersOnPoint s.

(** ** Further views *)

(** How many of the three zones team [t] owns. *)
Definition zonesOwnedBy (t : Team) (e : Env) : Z :=
  Z.b2z (ownerEquals (ownerOfPoint e 100) t)
  + Z.b2z (ownerEquals (ownerOfPoint e 101) t)
  + Z.b2z (ownerEquals (ownerOfPoint e 102) t).

(** The engine's team scores and the scoreboard header show the script's
    scores. *)
Definition scoresMirrored (w : World) : Prop :=
  gameModeScore w !! GetTeam 1 = Some (team1Score (gameState w)) /\
  gameModeScore w !! GetTeam 2 = Some (team2Score (gameState w)) /\
  scoreboardHeader w =
    Some (MsgScore (team1Score (gameState w)), MsgScore (team2Score (gameState w))).

(** A step that neither adds nor removes a widget. *)
Definition keepsWidgetSet (f : World -> World) : Prop :=
  forall w, dom (widgets (f w)) = dom (widgets w).

Definition sizeOf (w : World) (name : string) : option Vector :=
  wSize <$> widgets w !! name.




Definition buttonEnabled (w : World) (name : string) : bool :=
  match widgets w !! name with
  | Some x => wButtonEnabled x
  | None => false
  end.

Definition eventsOf (w : World) (name : string) : list UIButtonEvent :=
  match widgets w !! name with
  | Some x => wEvents x
  | None => []
  end.

(** What a completed gesture does to the panel state. *)
Definition toggleStep (now : number) (s : option (bool * number))
  : option (bool * number) :=
  match s with
  | Some (visible, _) => Some (negb visible, if negb visible then now else (-1000)%num)
  | None => None
  end.

(** The tap counter and last tap time of a player's registry entry. *)
Definition tapStateOf (w : World) (player : Z) : option (Z * number) :=
  (fun ui => (tapCount ui, lastTapTime ui)) <$> playerTeamSwitchUiMap w !! player.

Definition interactPointOf (w : World) (player : Z) : option (option Z) :=
  interactPoint <$> playerTeamSwitchUiMap w !! player.

(** The rising edges in a list of samples, [last] being the sample before. *)
Fixpoint risingEdges (last : bool) (samples : list (bool * Z)) : Z :=
  match samples with
  | [] => 0
  | (b, _) :: rest => Z.b2z (negb last && b) + risingEdges b rest
  end.

Definition firings (out : list bool) : Z :=
  Z.of_nat (length (List.filter (fun b : bool => b) out)).

(** The statistics of one player. *)
Definition killsOf (b : Board) (player : Z) : Z := GetVariable b player playerKills.
Definition deathsOf (b : Board) (player : Z) : Z := GetVariable b player playerDeaths.
Definition scorePointsOf (b : Board) (player : Z) : Z := GetVariable b player playerScore.
Definition capturesOf (b : Board) (player : Z) : Z := GetVariable b player playerCaptures.

(** The player's scoreboard row shows the player's four variables. *)
Definition rowShowsStats (b : Board) (player : Z) : Prop :=
  scoreboardRows b !! player =
    Some (scorePointsOf b player, killsOf b player, deathsOf b player, capturesOf b player).

Definition emptyBoard : Board := mkBoard ∅ ∅.

(** An engine that registers every widget it is asked for. *)
Definition acceptsAll (e : Env) : Prop := forall name, uiAccepts e name = true.

(** What the score clock owns: timers, scores, and their two mirrors. *)
Definition scoreView (w : World)
  : Z * Z * GameState * gmap Z Z * option (Message * Message) :=
  (team1ScoreTimer w, team2ScoreTimer w, gameState w, gameModeScore w, scoreboardHeader w).

(** A view of the world that does not look at the panel side of it: the
    widget store, the team-switch registry, the UI input mode, the interact
    points and the detector states. *)
Definition panelBlind {A} (pr : World -> A) : Prop :=
  (forall w m, pr (withWidgets w m) = pr w) /\
  (forall w m, pr (withTeamSwitchUiMap w m) = pr w) /\
  (forall w m, pr (withUiInputMode w m) = pr w) /\
  (forall w m, pr (withInteractPoints w m) = pr w) /\
  (forall w m, pr (withSTATES w m) = pr w).

(** A view that in addition does not look at the HUD registry. *)
Definition uiBlind {A} (pr : World -> A) : Prop :=
  panelBlind pr /\ (forall w m, pr (withHudMap w m) = pr w).

(** A step that leaves a view as it is. *)
Definition keeps {A} (pr : World -> A) (f : World -> World) : Prop :=
  forall w, pr (f w) = pr w.

(** Teams and redeploy commands. *)
Definition rosterView (w : World) : gmap Z Team * list Z * list Z :=
  (playerTeams w, undeployCalls w, undeployPending w).

(** A view that no widget setter and no write to the panel side changes;
    it may still see which widgets exist. *)
Definition panelTolerant {A} (pr : World -> A) : Prop :=
  (forall h b w, pr (SetUIWidgetVisible h b w) = pr w) /\
  (forall h v w, pr (SetUIWidgetSize h v w) = pr w) /\
  (forall h m w, pr (SetUITextLabel h m w) = pr w) /\
  (forall h b w, pr (SetUIButtonEnabled h b w) = pr w) /\
  (forall h ev w, pr (EnableUIButtonEvent h ev w) = pr w) /\
  (forall w m, pr (withTeamSwitchUiMap w m) = pr w) /\
  (forall w m, pr (withUiInputMode w m) = pr w) /\
  (forall w m, pr (withInteractPoints w m) = pr w) /\
  (forall w m, pr (withSTATES w m) = pr w).

(** A view that no widget setter changes. *)
Definition setterBlind {A} (pr : World -> A) : Prop :=
  (forall h b w, pr (SetUIWidgetVisible h b w) = pr w) /\
  (forall h v w, pr (SetUIWidgetSize h v w) = pr w) /\
  (forall h m w, pr (SetUITextLabel h m w) = pr w) /\
  (forall h b w, pr (SetUIButtonEnabled h b w) = pr w) /\
  (forall h ev w, pr (EnableUIButtonEvent h ev w) = pr w).

(** The cursor side of the panel: each player's UI input mode, and each
    registry entry's panel flag. *)
Definition modePair (w : World) : gmap Z bool * gmap Z bool :=
  (uiInputMode w, panelVisible <$> playerTeamSwitchUiMap w).

(** The player's UI input mode is on exactly when the player's panel is
    flagged visible. *)
Definition cursorFollowsPanel (w : World) (player : Z) : Prop :=
  default false (uiInputMode w !! player) = default false (panelShownFor w player).

(** A view that does not look at teams or redeploy commands. *)
Definition rosterBlind {A} (pr : World -> A) : Prop :=
  (forall w m, pr (withPlayerTeams w m) = pr w) /\
  (forall w a b, pr (withUndeploy w a b) = pr w).

(** A view that does not look at what the score clock owns. *)
Definition scoreBlind {A} (pr : World -> A) : Prop :=
  (forall w a b, pr (withTimers w a b) = pr w) /\
  (forall w g, pr (withGameState w g) = pr w) /\
  (forall w m, pr (withGameModeScore w m) = pr w) /\
  (forall w h, pr (withScoreboardHeader w h) = pr w).

(** The widget tree: which widgets exist, of what kind, under which parent. *)
Definition uiTree (w : World) : gmap string (WidgetKind * option string) :=
  (fun x => (wKind x, wParent x)) <$> widgets w.

(** The interact-point side: the engine's interact points, and the one each
    registry entry holds. *)
Definition pointPair (w : World) : gmap Z bool * gmap Z (option Z) :=
  (interactPoints w, interactPoint <$> playerTeamSwitchUiMap w).

(** A player's four statistics, in the order of the scoreboard columns. *)
Definition statsOf (b : Board) (player : Z) : Z * Z * Z * Z :=
  (scorePointsOf b player, killsOf b player, deathsOf b player, capturesOf b player).


(** Every HUD registry entry holds the names [createHUD] makes for its
    player. *)
Definition hudRegistryNamed (w : World) : Prop :=
  forall q hud, playerHudMap w !! q = Some hud -> hud = hudNames q.

(** What a HUD refresh reads besides the widgets. *)
Definition hudInputs (w : World) : gmap Z PlayerHud * GameState * gmap Z Team :=
  (playerHudMap w, gameState w, playerTeams w).

(** The player's two score labels show the scores from the player's side. *)
Definition labelsShowScores (w : World) (player : Z) : Prop :=
  let v := relativeScores (GetPlayerTeam w player) (gameState w) in
  labelOf w (blueScoreName (hudNames player)) = Some (MsgScore (fst v)) /\
  labelOf w (redScoreName (hudNames player)) = Some (MsgScore (snd v)).

(** A step that removes no widget. *)
Definition grows (f : World -> World) : Prop :=
  forall w x, is_Some (widgets w !! x) -> is_Some (widgets (f w) !! x).

(** The capture point behind each zone of the HUD. *)
Definition ownerOfZone (e : Env) (z : Zone) : option Team :=
  ownerOfPoint e (match z with ZoneA => 100 | ZoneB => 101 | ZoneC => 102 end).

(** The visibility of the six plates a stack should have for each outcome of
    the classification, in the order of [stackOf]. *)
Definition showing (c : Ownership) : list bool :=
  match c with
  | Neutral => [true; true; false; false; false; false]
  | Friendly => [false; false; true; true; false; false]
  | Enemy => [false; false; false; false; true; true]
  end.

(** Each of the player's three stacks shows the pair that goes with the
    zone's owner, seen from the player's team. *)
Definition iconsShowOwners (e : Env) (w : World) (player : Z) : Prop :=
  forall z, map (isVisible w) (stackOf z (hudNames player))
            = showing (classifyOwner (GetPlayerTeam w player) (ownerOfZone e z)).

(** The eighteen plates of the player's HUD are in the widget store. *)
Definition platesExist (w : World) (player : Z) : Prop :=
  forall z name, In name (stackOf z (hudNames player)) -> is_Some (widgets w !! name).

(** The refresh of one stack of a HUD entry, as [updateAllObjectiveIcons]
    calls it for zone [z]. *)
Definition refreshStack (playerTeam : Team) (ownerTeam : option Team) (z : Zone)
           (hud : PlayerHud) (w : World) : World :=
  match z with
  | ZoneA => updateSingleObjectiveVisibility playerTeam ownerTeam
               (objA_Neutral hud) (objA_NeutralInner hud) (objA_Friendly hud)
               (objA_FriendlyInner hud) (objA_Enemy hud) (objA_EnemyInner hud) w
  | ZoneB => updateSingleObjectiveVisibility playerTeam ownerTeam
               (objB_Neutral hud) (objB_NeutralInner hud) (objB_Friendly hud)
               (objB_FriendlyInner hud) (objB_Enemy hud) (objB_EnemyInner hud) w
  | ZoneC => updateSingleObjectiveVisibility playerTeam ownerTeam
               (objC_Neutral hud) (objC_NeutralInner hud) (objC_Friendly hud)
               (objC_FriendlyInner hud) (objC_Enemy hud) (objC_EnemyInner hud) w
  end.

(** What the widgets say: the label and the size of each. *)
Definition textView (w : World) : gmap string (Message * Vector) :=
  (fun x => (wLabel x, wSize x)) <$> widgets w.


(** * Properties *)

(** ** The literals of the script *)

(** The whole and the short decimal literals the script uses stand for
    themselves: 1.25 is a double, and so is every integer in sight.  The
    literals 0.3, 15.3, 0.1, 1.35 and 2.8 of the examples further down are
    not doubles and stand for their nearest neighbours. *)
Lemma literals_denote :
  Double.denotes 0 0 /\ Double.denotes 15 15 /\ Double.denotes 1.25 (5 # 4) /\
  Double.denotes (-1000) (-1000) /\ Double.denotes 20 20 /\
  Double.denotes 100 100 /\ Double.denotes 280 280 /\
  ~ Double.denotes 0.3 (3 # 10) /\ ~ Double.denotes 15.3 (153 # 10) /\
  ~ Double.denotes 2.8 (14 # 5).
Proof.
  repeat split;
    try (eexists; split; [reflexivity | vm_compute; reflexivity]);
    intros (v & Hv & Hq); vm_compute in Hv; injection Hv as <-;
    vm_compute in Hq; discriminate.
Qed.

(** ** Widget store: supporting lemmas *)

Lemma FindUIWidgetWithName_Some w name h :
  FindUIWidgetWithName w name = Some h -> h = name /\ is_Some (widgets w !! name).
Proof.
  unfold FindUIWidgetWithName. destruct (widgets w !! name) eqn:E; [|discriminate].
  intros [= <-]. split; [reflexivity | eauto].
Qed.

Lemma FindUIWidgetWithName_found w name :
  is_Some (widgets w !! name) -> FindUIWidgetWithName w name = Some name.
Proof.
  intros [x Hx]. unfold FindUIWidgetWithName. rewrite Hx. reflexivity.
Qed.

Lemma FindUIWidgetWithName_is_Some w name :
  is_Some (FindUIWidgetWithName w name) <-> is_Some (widgets w !! name).
Proof.
  unfold FindUIWidgetWithName. destruct (widgets w !! name); split; intros [? ?]; eauto; discriminate.
Qed.

Lemma SetUIWidgetVisible_exists h b w name :
  is_Some (widgets (SetUIWidgetVisible h b w) !! name) <-> is_Some (widgets w !! name).
Proof.
  unfold SetUIWidgetVisible. cbn [widgets withWidgets].
  rewrite lookup_alter_is_Some. reflexivity.
Qed.

Lemma isVisible_set_eq h b w :
  is_Some (widgets w !! h) -> isVisible (SetUIWidgetVisible h b w) h = b.
Proof.
  intros [x Hx]. unfold isVisible, SetUIWidgetVisible. cbn [widgets withWidgets].
  rewrite lookup_alter_eq, Hx. reflexivity.
Qed.

Lemma isVisible_set_ne h b w name :
  h <> name -> isVisible (SetUIWidgetVisible h b w) name = isVisible w name.
Proof.
  intros Hne. unfold isVisible, SetUIWidgetVisible. cbn [widgets withWidgets].
  rewrite lookup_alter_ne by exact Hne. reflexivity.
Qed.


(** Steps that write nothing but the widget store. *)

Lemma withWidgets_same w : withWidgets w (widgets w) = w.
Proof. destruct w; reflexivity. Qed.

Lemma onlyWidgets_id : onlyWidgets (fun w => w).
Proof. intros w. symmetry. apply withWidgets_same. Qed.

Lemma onlyWidgets_compose f g :
  onlyWidgets f -> onlyWidgets g -> onlyWidgets (fun w => g (f w)).
Proof.
  intros Hf Hg w. rewrite (Hg (f w)). rewrite (Hf w) at 1. reflexivity.
Qed.

Lemma onlyWidgets_withWidgets (m : World -> gmap string UIWidget) :
  onlyWidgets (fun w => withWidgets w (m w)).
Proof. intros w. reflexivity. Qed.

Lemma AddUIWidget_onlyWidgets e name x : onlyWidgets (AddUIWidget e name x).
Proof.
  intros w. unfold AddUIWidget. destruct (uiAccepts e name).
  - reflexivity.
  - symmetry. apply withWidgets_same.
Qed.

Lemma AddUIText_onlyWidgets e name size parent visible m :
  onlyWidgets (AddUIText e name size parent visible m).
Proof. apply AddUIWidget_onlyWidgets. Qed.

Lemma AddUIContainer_onlyWidgets e name size parent visible :
  onlyWidgets (AddUIContainer e name size parent visible).
Proof. apply AddUIWidget_onlyWidgets. Qed.

Lemma AddUIButton_onlyWidgets e name size parent visible enabled :
  onlyWidgets (AddUIButton e name size parent visible enabled).
Proof. apply AddUIWidget_onlyWidgets. Qed.

Lemma onlyWidgets_steps (steps : list (World -> World)) :
  Forall onlyWidgets steps ->
  onlyWidgets (fun w => fold_left (fun acc step => step acc) steps w).
Proof.
  induction 1 as [|f steps Hf _ IH].
  - apply onlyWidgets_id.
  - simpl. apply (onlyWidgets_compose f _ Hf IH).
Qed.

Lemma whenFound_onlyWidgets h f :
  (forall x, onlyWidgets (f x)) -> onlyWidgets (whenFound h f).
Proof.
  intros Hf. unfold whenFound. destruct h as [x|]; [apply Hf | apply onlyWidgets_id].
Qed.

Lemma SetUIWidgetVisible_onlyWidgets h b : onlyWidgets (SetUIWidgetVisible h b).
Proof. intros w. reflexivity. Qed.

Lemma SetUIButtonEnabled_onlyWidgets h b : onlyWidgets (SetUIButtonEnabled h b).
Proof. intros w. reflexivity. Qed.

Lemma SetUITextLabel_onlyWidgets h m : onlyWidgets (SetUITextLabel h m).
Proof. intros w. reflexivity. Qed.

Lemma SetUIWidgetSize_onlyWidgets h v : onlyWidgets (SetUIWidgetSize h v).
Proof. intros w. reflexivity. Qed.

Lemma onlyWidgets_fold {A} (step : A -> World -> World) (l : list A) :
  (forall a, onlyWidgets (step a)) ->
  onlyWidgets (fun w => fold_left (fun acc a => step a acc) l w).
Proof.
  intros Hstep. induction l as [|a l IH].
  - apply onlyWidgets_id.
  - simpl. apply (onlyWidgets_compose (step a) _ (Hstep a) IH).
Qed.

Lemma updateHudScoresOf_onlyWidgets p : onlyWidgets (updateHudScoresOf p).
Proof.
  intros w. unfold updateHudScoresOf.
  destruct (playerHudMap w !! p) as [hud|]; [|symmetry; apply withWidgets_same].
  destruct (FindUIWidgetWithName w (blueScoreName hud)); [|symmetry; apply withWidgets_same].
  destruct (FindUIWidgetWithName w (redScoreName hud)); [|symmetry; apply withWidgets_same].
  destruct (relativeScores _ _) as [f en]. cbv zeta.
  repeat match goal with
         | |- context [match ?x with Some _ => _ | None => _ end] => destruct x
         end; reflexivity.
Qed.

Lemma updateAllHudScores_onlyWidgets e : onlyWidgets (updateAllHudScores e).
Proof.
  unfold updateAllHudScores.
  apply (onlyWidgets_fold updateHudScoresOf). apply updateHudScoresOf_onlyWidgets.
Qed.

Lemma updateSingleObjectiveVisibility_onlyWidgets pt ot n ni f fi en eni :
  onlyWidgets (updateSingleObjectiveVisibility pt ot n ni f fi en eni).
Proof.
  intros w. unfold updateSingleObjectiveVisibility.
  repeat match goal with
         | |- context [match FindUIWidgetWithName ?a ?b with Some _ => _ | None => _ end] =>
           destruct (FindUIWidgetWithName a b); [|symmetry; apply withWidgets_same]
         end.
  cbv zeta. destruct ot as [o|]; [|reflexivity].
  destruct (negb _ && negb _); [reflexivity|].
  destruct (Equals pt o); reflexivity.
Qed.

Lemma updateObjectiveIconsOf_onlyWidgets a b c p :
  onlyWidgets (updateObjectiveIconsOf a b c p).
Proof.
  intros w. unfold updateObjectiveIconsOf.
  destruct (playerHudMap w !! p) as [hud|]; [|symmetry; apply withWidgets_same].
  cbv zeta.
  apply (onlyWidgets_compose _ _
           (onlyWidgets_compose _ _
              (updateSingleObjectiveVisibility_onlyWidgets _ _ _ _ _ _ _ _)
              (updateSingleObjectiveVisibility_onlyWidgets _ _ _ _ _ _ _ _))
           (updateSingleObjectiveVisibility_onlyWidgets _ _ _ _ _ _ _ _)).
Qed.

Lemma updateAllObjectiveIcons_onlyWidgets e : onlyWidgets (updateAllObjectiveIcons e).
Proof.
  unfold updateAllObjectiveIcons. cbv zeta.
  apply (onlyWidgets_fold (updateObjectiveIconsOf _ _ _)).
  apply updateObjectiveIconsOf_onlyWidgets.
Qed.
(** ** Teams *)

Lemma Equals_true a b : Equals a b = true <-> a = b.
Proof. unfold Equals. apply Z.eqb_eq. Qed.

Lemma Equals_false a b : Equals a b = false <-> a <> b.
Proof. unfold Equals. apply Z.eqb_neq. Qed.

Lemma Equals_refl a : Equals a a = true.
Proof. apply Equals_true. reflexivity. Qed.

Lemma ownerEquals_true o t : ownerEquals o t = true <-> o = Some t.
Proof.
  destruct o as [x|]; simpl.
  - rewrite Equals_true. split; congruence.
  - split; discriminate.
Qed.


(** ** Scoring: supporting lemmas *)

Lemma countOwner_bounds o h :
  0 <= fst h -> 0 <= snd h ->
  0 <= fst (countOwner o h) /\ 0 <= snd (countOwner o h) /\
  fst (countOwner o h) + snd (countOwner o h) <= fst h + snd h + 1.
Proof.
  intros. unfold countOwner.
  destruct (ownerEquals o (GetTeam 1)); [simpl; lia|].
  destruct (ownerEquals o (GetTeam 2)); simpl; lia.
Qed.

Lemma pointsHeld_bounds e :
  0 <= fst (pointsHeld e) /\ 0 <= snd (pointsHeld e) /\
  fst (pointsHeld e) + snd (pointsHeld e) <= 3.
Proof.
  unfold pointsHeld.
  pose proof (countOwner_bounds (ownerOfPoint e 100) (0, 0)) as H0.
  simpl in H0. specialize (H0 ltac:(lia) ltac:(lia)). destruct H0 as (?&?&?).
  pose proof (countOwner_bounds (ownerOfPoint e 101) _ H H0) as (?&?&?).
  pose proof (countOwner_bounds (ownerOfPoint e 102) _ H2 H3) as (?&?&?).
  lia.
Qed.

Lemma heldBy_range s e : 0 <= heldBy s e <= 3.
Proof. pose proof (pointsHeld_bounds e). destruct s; simpl; lia. Qed.

Lemma getSecondsPerPoint_cases h :
  0 <= h <= 3 ->
  (h = 0 /\ getSecondsPerPoint h = 0) \/ (h = 1 /\ getSecondsPerPoint h = 6) \/
  (h = 2 /\ getSecondsPerPoint h = 3) \/ (h = 3 /\ getSecondsPerPoint h = 1).
Proof.
  intros Hh.
  assert (h = 0 \/ h = 1 \/ h = 2 \/ h = 3) as [-> | [-> | [-> | ->] ] ] by lia;
    cbv; intuition congruence.
Qed.

Lemma getSecondsPerPoint_pos h : 0 < h <= 3 -> 0 < getSecondsPerPoint h.
Proof.
  intros Hh.
  destruct (getSecondsPerPoint_cases h) as [ [? ?] | [ [? ->] | [ [? ->] | [? ->] ] ] ]; lia.
Qed.

(** What one tick does to one side's score and timer. *)
Lemma updateTeamScores_side s e w :
  scoreOf s (updateTeamScores e w) =
    (if awards s e w then scoreOf s w + 1 else scoreOf s w) /\
  timerOf s (updateTeamScores e w) =
    (if awards s e w then 0 else timerOf s w + 1).
Proof.
  unfold awards, heldBy, updateTeamScores.
  destruct (pointsHeld e) as [h1 h2]. cbn [fst snd].
  cbv zeta.
  cbn [team1ScoreTimer team2ScoreTimer withTimers].
  destruct ((0 <? getSecondsPerPoint h1) && (getSecondsPerPoint h1 <=? team1ScoreTimer w + 1)) eqn:A1;
  cbn [team1ScoreTimer team2ScoreTimer withTimers withGameState SetGameModeScore
       withGameModeScore gameState team1Score team2Score];
  destruct ((0 <? getSecondsPerPoint h2) && (getSecondsPerPoint h2 <=? team2ScoreTimer w + 1)) eqn:A2;
  cbn [team1ScoreTimer team2ScoreTimer withTimers withGameState SetGameModeScore
       withGameModeScore gameState team1Score team2Score];
  try match goal with
      | |- context [updateAllHudScores ?e ?x] =>
        rewrite (updateAllHudScores_onlyWidgets e x)
      end;
  destruct s; simpl; rewrite ?A1, ?A2; split; reflexivity.
Qed.

(** The icon refresh that ends a pass of the match loop touches neither
    score nor timer. *)
Lemma matchTick_side s e w :
  scoreOf s (matchTick e w) = scoreOf s (updateTeamScores e w) /\
  timerOf s (matchTick e w) = timerOf s (updateTeamScores e w).
Proof.
  unfold matchTick. rewrite (updateAllObjectiveIcons_onlyWidgets e _).
  destruct s; split; reflexivity.
Qed.

Lemma awards_held_zero s e w : heldBy s e = 0 -> awards s e w = false.
Proof. intros H. unfold awards. rewrite H. reflexivity. Qed.

Lemma awards_true_iff s e w :
  awards s e w = true <->
  0 < heldBy s e /\ getSecondsPerPoint (heldBy s e) <= timerOf s w + 1.
Proof.
  unfold awards. rewrite andb_true_iff, Z.ltb_lt, Z.leb_le.
  pose proof (heldBy_range s e) as Hr.
  split; intros [H1 H2]; split; try assumption.
  - destruct (Z.eq_dec (heldBy s e) 0) as [E|E]; [|lia].
    rewrite E in H1. change (getSecondsPerPoint 0) with 0 in H1. lia.
  - apply getSecondsPerPoint_pos. lia.
Qed.

(** Ticks during which side [s] holds no zone: the timer just counts. *)
Lemma runTicks_idle s es :
  Forall (fun e => heldBy s e = 0) es ->
  forall w,
    scoreOf s (runTicks es w) = scoreOf s w /\
    timerOf s (runTicks es w) = timerOf s w + Z.of_nat (length es).
Proof.
  induction 1 as [|e es He _ IH]; intros w.
  - simpl. split; [reflexivity | lia].
  - change (runTicks (e :: es) w) with (runTicks es (matchTick e w)).
    destruct (IH (matchTick e w)) as [IHs IHt].
    destruct (updateTeamScores_side s e w) as [Hs Ht].
    destruct (matchTick_side s e w) as [Ms Mt]. rewrite <- Ms in Hs. rewrite <- Mt in Ht.
    rewrite (awards_held_zero s e w He) in Hs, Ht.
    rewrite IHs, IHt, Hs, Ht. cbn [length]. split; [reflexivity | lia].
Qed.

(** Ticks during which side [s] holds [h > 0] zones throughout. *)
Lemma runTicks_hold s h es :
  0 < h ->
  Forall (fun e => heldBy s e = h) es ->
  forall w,
    0 <= timerOf s w < getSecondsPerPoint h ->
    scoreOf s (runTicks es w) =
      scoreOf s w + (timerOf s w + Z.of_nat (length es)) / getSecondsPerPoint h /\
    timerOf s (runTicks es w) =
      (timerOf s w + Z.of_nat (length es)) mod getSecondsPerPoint h.
Proof.
  intros Hh. set (c := getSecondsPerPoint h).
  induction 1 as [|e es He _ IH]; intros w Ht.
  - simpl. rewrite Z.add_0_r, Z.div_small, Z.mod_small by lia. lia.
  - change (runTicks (e :: es) w) with (runTicks es (matchTick e w)).
    destruct (updateTeamScores_side s e w) as [Hs Hti].
    destruct (matchTick_side s e w) as [Ms Mt]. rewrite <- Ms in Hs. rewrite <- Mt in Hti.
    assert (Haw : awards s e w = (c <=? timerOf s w + 1)).
    { unfold awards. rewrite He. fold c.
      replace (0 <? c) with true by (symmetry; apply Z.ltb_lt; lia). reflexivity. }
    rewrite Haw in Hs, Hti.
    replace (timerOf s w + Z.of_nat (length (e :: es)))
      with (timerOf s w + 1 + Z.of_nat (length es)) by (cbn [length]; lia).
    destruct (Z.leb_spec c (timerOf s w + 1)) as [Hle|Hlt].
    + assert (Heq : timerOf s w + 1 = c) by lia.
      destruct (IH (matchTick e w)) as [IHs IHt]; [rewrite Hti; lia|].
      rewrite IHs, IHt, Hs, Hti, Heq, Z.add_0_l.
      replace (c + Z.of_nat (length es)) with (Z.of_nat (length es) + 1 * c) by lia.
      rewrite Z.div_add, Z.mod_add by lia. lia.
    + destruct (IH (matchTick e w)) as [IHs IHt]; [rewrite Hti; lia|].
      rewrite IHs, IHt, Hs, Hti. split; reflexivity.
Qed.


(** ** Scoring: the claims *)

(** C1. On a tick where a side holds [h > 0] zones and its timer reaches
    [getSecondsPerPoint h], its score grows by exactly 1 and its timer is 0
    after the tick; a tick changes a score by nothing else than such an award;
    hence from timer 0, [n] ticks of holding [h] zones yield
    [n / cadence h] points and leave the timer at [n mod cadence h]: one point
    every [cadence h] ticks, timer 0 right after each. *)
Theorem score_awarded_at_cadence :
  (forall s e w,
      0 < heldBy s e ->
      getSecondsPerPoint (heldBy s e) <= timerOf s w + 1 ->
      scoreOf s (updateTeamScores e w) = scoreOf s w + 1 /\
      timerOf s (updateTeamScores e w) = 0) /\
  (forall s e w,
      scoreOf s (updateTeamScores e w) <> scoreOf s w ->
      scoreOf s (updateTeamScores e w) = scoreOf s w + 1 /\
      timerOf s (updateTeamScores e w) = 0) /\
  (forall s h es w,
      0 < h ->
      Forall (fun e => heldBy s e = h) es ->
      timerOf s w = 0 ->
      scoreOf s (runTicks es w) =
        scoreOf s w + Z.of_nat (length es) / getSecondsPerPoint h /\
      timerOf s (runTicks es w) = Z.of_nat (length es) mod getSecondsPerPoint h).
Proof.
  split; [|split].
  - intros s e w Hh Hc.
    destruct (updateTeamScores_side s e w) as [Hs Ht].
    assert (Ha : awards s e w = true) by (apply awards_true_iff; split; assumption).
    rewrite Ha in Hs, Ht. split; assumption.
  - intros s e w Hne.
    destruct (updateTeamScores_side s e w) as [Hs Ht].
    destruct (awards s e w); [split; assumption | congruence].
  - intros s h es w Hh Hall Ht0.
    destruct es as [|e0 es'].
    + simpl. rewrite Ht0, Zdiv_0_l, Zmod_0_l. lia.
    + assert (Hr : 0 < h <= 3).
      { inversion Hall as [|? ? He0 _]; subst. pose proof (heldBy_range s e0). lia. }
      pose proof (getSecondsPerPoint_pos h Hr) as Hc.
      destruct (runTicks_hold s h (e0 :: es') Hh Hall w) as [Hs Ht]; [lia|].
      rewrite Hs, Ht, Ht0, Z.add_0_l. split; reflexivity.
Qed.

(** Team 2 holds exactly zone B: nothing for five ticks, a point on the sixth. *)
Lemma score_awarded_at_cadence_witness :
  let e := zonesEnv None (Some 2) None in
  scoreOf Team2 (runTicks [e; e; e; e; e] freshWorld) = 0 /\
  scoreOf Team2 (runTicks [e; e; e; e; e; e] freshWorld) = 1 /\
  timerOf Team2 (runTicks [e; e; e; e; e; e] freshWorld) = 0.
Proof.
  intros e.
  destruct score_awarded_at_cadence as (_ & _ & Hrun).
  destruct (Hrun Team2 1 [e; e; e; e; e] freshWorld) as [H5 _];
    [lia | repeat constructor | reflexivity |].
  destruct (Hrun Team2 1 [e; e; e; e; e; e] freshWorld) as [H6 T6];
    [lia | repeat constructor | reflexivity |].
  rewrite H5, H6, T6. repeat split.
Defined.

(** C2. The cadence table: 3 zones give 1 second per point, 2 give 3 (within
    3..5), 1 gives 6 (within 6..10), 0 gives 0, which means no scoring; and a
    tick on which a side holds no zone leaves that side's score as it was. *)
Theorem cadence_table_and_idle_score :
  getSecondsPerPoint 3 = 1 /\
  getSecondsPerPoint 2 = 3 /\ 3 <= getSecondsPerPoint 2 <= 5 /\
  getSecondsPerPoint 1 = 6 /\ 6 <= getSecondsPerPoint 1 <= 10 /\
  getSecondsPerPoint 0 = 0 /\
  (forall s e w,
      heldBy s e = 0 ->
      scoreOf s (updateTeamScores e w) = scoreOf s w).
Proof.
  split; [reflexivity|]. split; [reflexivity|].
  split; [cbv; split; discriminate|]. split; [reflexivity|].
  split; [cbv; split; discriminate|]. split; [reflexivity|].
  intros s e w H0.
  destruct (updateTeamScores_side s e w) as [Hs _].
  rewrite (awards_held_zero s e w H0) in Hs. exact Hs.
Qed.

(** All zones with team 1, team 2 long overdue: team 2 still gets nothing. *)
Lemma cadence_table_and_idle_score_witness :
  let e := zonesEnv (Some 1) (Some 1) (Some 1) in
  let w := withTimers freshWorld 0 50 in
  scoreOf Team2 (updateTeamScores e w) = scoreOf Team2 w.
Proof.
  intros e w.
  destruct cadence_table_and_idle_score as (_ & _ & _ & _ & _ & _ & Hidle).
  apply (Hidle Team2 e w). reflexivity.
Defined.

(** C3. A tick on which a side holds no zone adds 1 to its timer and never
    puts it back to 0; on any tick the timer either grows by 1 or is put to 0
    together with an award; so after [idle] ticks without a zone the side
    resumes from its carried-over count: the first tick with [h > 0] zones
    awards at once when the carried count has reached the cadence, and
    otherwise goes on counting from it. *)
Theorem timer_survives_idle_ticks :
  (forall s e w,
      heldBy s e = 0 ->
      timerOf s (updateTeamScores e w) = timerOf s w + 1) /\
  (forall s e w,
      (timerOf s (updateTeamScores e w) = timerOf s w + 1 /\
       scoreOf s (updateTeamScores e w) = scoreOf s w) \/
      (timerOf s (updateTeamScores e w) = 0 /\
       scoreOf s (updateTeamScores e w) = scoreOf s w + 1)) /\
  (forall s idle e w,
      Forall (fun e' => heldBy s e' = 0) idle ->
      0 < heldBy s e ->
      let carried := timerOf s w + Z.of_nat (length idle) in
      let w' := runTicks idle w in
      timerOf s w' = carried /\
      scoreOf s w' = scoreOf s w /\
      (getSecondsPerPoint (heldBy s e) <= carried + 1 ->
       scoreOf s (updateTeamScores e w') = scoreOf s w + 1 /\
       timerOf s (updateTeamScores e w') = 0) /\
      (carried + 1 < getSecondsPerPoint (heldBy s e) ->
       scoreOf s (updateTeamScores e w') = scoreOf s w /\
       timerOf s (updateTeamScores e w') = carried + 1)).
Proof.
  split; [|split].
  - intros s e w H0.
    destruct (updateTeamScores_side s e w) as [_ Ht].
    rewrite (awards_held_zero s e w H0) in Ht. exact Ht.
  - intros s e w.
    destruct (updateTeamScores_side s e w) as [Hs Ht].
    destruct (awards s e w); [right | left]; split; assumption.
  - intros s idle e w Hidle Hh carried w'.
    destruct (runTicks_idle s idle Hidle w) as [Hs Ht].
    fold w' in Hs, Ht. fold carried in Ht.
    destruct (updateTeamScores_side s e w') as [Hs' Ht'].
    repeat split; try assumption.
    + assert (Ha : awards s e w' = true) by (apply awards_true_iff; split; lia).
      rewrite Ha in Hs'. lia.
    + assert (Ha : awards s e w' = true) by (apply awards_true_iff; split; lia).
      rewrite Ha in Ht'. lia.
    + assert (Ha : awards s e w' = false).
      { destruct (awards s e w') eqn:A; [|reflexivity].
        apply awards_true_iff in A. lia. }
      rewrite Ha in Hs'. lia.
    + assert (Ha : awards s e w' = false).
      { destruct (awards s e w') eqn:A; [|reflexivity].
        apply awards_true_iff in A. lia. }
      rewrite Ha in Ht'. lia.
Qed.

(** Team 2 loses its zone for five ticks, then retakes one: the very next
    tick scores, from the carried count 5 and not from 0. *)
Lemma timer_survives_idle_ticks_witness :
  let idle := zonesEnv None None None in
  let retake := zonesEnv None (Some 2) None in
  let w' := runTicks [idle; idle; idle; idle; idle] freshWorld in
  timerOf Team2 w' = 5 /\
  scoreOf Team2 (updateTeamScores retake w') = 1 /\
  timerOf Team2 (updateTeamScores retake w') = 0.
Proof.
  intros idle retake w'.
  destruct timer_survives_idle_ticks as (_ & _ & Hcarry).
  destruct (Hcarry Team2 [idle; idle; idle; idle; idle] retake freshWorld)
    as (Ht & _ & Haward & _);
    [repeat constructor | reflexivity |].
  split; [exact Ht|].
  apply Haward. vm_compute. discriminate.
Defined.


(** ** The perspective projection *)

Lemma labelOf_setSize h v w name :
  labelOf (SetUIWidgetSize h v w) name = labelOf w name.
Proof.
  unfold labelOf, SetUIWidgetSize. cbn [widgets withWidgets].
  rewrite lookup_alter. destruct (decide (h = name)) as [->|Hne]; [|reflexivity].
  destruct (widgets w !! name); reflexivity.
Qed.

Lemma labelOf_setLabel_eq h m w :
  is_Some (widgets w !! h) -> labelOf (SetUITextLabel h m w) h = Some m.
Proof.
  intros [x Hx]. unfold labelOf, SetUITextLabel. cbn [widgets withWidgets].
  rewrite lookup_alter_eq, Hx. reflexivity.
Qed.

Lemma labelOf_setLabel_ne h m w name :
  h <> name -> labelOf (SetUITextLabel h m w) name = labelOf w name.
Proof.
  intros Hne. unfold labelOf, SetUITextLabel. cbn [widgets withWidgets].
  rewrite lookup_alter_ne by exact Hne. reflexivity.
Qed.

Lemma SetUITextLabel_exists h m w name :
  is_Some (widgets (SetUITextLabel h m w) !! name) <-> is_Some (widgets w !! name).
Proof.
  unfold SetUITextLabel. cbn [widgets withWidgets].
  rewrite lookup_alter_is_Some. reflexivity.
Qed.

(** The two score labels of a player's HUD after the player's pass of
    [updateAllHudScores]. *)
Lemma updateHudScoresOf_labels p w hud :
  playerHudMap w !! p = Some hud ->
  is_Some (widgets w !! blueScoreName hud) ->
  is_Some (widgets w !! redScoreName hud) ->
  blueScoreName hud <> redScoreName hud ->
  let v := relativeScores (GetPlayerTeam w p) (gameState w) in
  labelOf (updateHudScoresOf p w) (blueScoreName hud) = Some (MsgScore (fst v)) /\
  labelOf (updateHudScoresOf p w) (redScoreName hud) = Some (MsgScore (snd v)).
Proof.
  intros Hhud Hb Hr Hne v. subst v.
  unfold updateHudScoresOf. rewrite Hhud.
  rewrite !(FindUIWidgetWithName_found w (blueScoreName hud)) by exact Hb.
  rewrite !(FindUIWidgetWithName_found w (redScoreName hud)) by exact Hr.
  destruct (relativeScores (GetPlayerTeam w p) (gameState w)) as [f en].
  cbv zeta. cbn [fst snd].
  set (w2 := SetUITextLabel (redScoreName hud) (MsgScore en)
               (SetUITextLabel (blueScoreName hud) (MsgScore f) w)).
  assert (H1 : labelOf w2 (blueScoreName hud) = Some (MsgScore f)).
  { unfold w2. rewrite labelOf_setLabel_ne by congruence.
    apply labelOf_setLabel_eq. eauto. }
  assert (H2 : labelOf w2 (redScoreName hud) = Some (MsgScore en)).
  { unfold w2. apply labelOf_setLabel_eq. apply SetUITextLabel_exists. eauto. }
  destruct (FindUIWidgetWithName w2 (blueBarFillName hud));
    destruct (FindUIWidgetWithName w2 (redBarFillName hud));
    rewrite ?labelOf_setSize; split; assumption.
Qed.

(** C4. A viewer on team 1 sees (team 1 score, team 2 score), a viewer on
    team 2 sees the swap; the view from the other side is always the swap of
    one's own, and projecting team 2's view once more from team 2 gives the
    absolute pair back.  These are the numbers the player's two score labels
    show after the player's pass of the HUD update: friendly on the blue label,
    enemy on the red one. *)
Theorem perspective_projection_self_inverse (s1 s2 : Z) :
  let g := mkGameState s1 s2 in
  relativeScores (GetTeam 1) g = (s1, s2) /\
  relativeScores (GetTeam 2) g = (s2, s1) /\
  (forall s, relativeScores (teamOfSide (otherSide s)) g =
             (snd (relativeScores (teamOfSide s) g),
              fst (relativeScores (teamOfSide s) g))) /\
  (forall s, let v := relativeScores (teamOfSide s) g in
             relativeScores (teamOfSide s) (mkGameState (fst v) (snd v)) = (s1, s2)) /\
  (forall p w hud,
      gameState w = g ->
      playerHudMap w !! p = Some hud ->
      is_Some (widgets w !! blueScoreName hud) ->
      is_Some (widgets w !! redScoreName hud) ->
      blueScoreName hud <> redScoreName hud ->
      let v := relativeScores (GetPlayerTeam w p) g in
      labelOf (updateHudScoresOf p w) (blueScoreName hud) = Some (MsgScore (fst v)) /\
      labelOf (updateHudScoresOf p w) (redScoreName hud) = Some (MsgScore (snd v))).
Proof.
  cbv zeta.
  split; [reflexivity|]. split; [reflexivity|].
  split; [intros []; reflexivity|]. split; [intros []; reflexivity|].
  intros p w hud Hg Hhud Hb Hr Hne. rewrite <- Hg.
  apply updateHudScoresOf_labels; assumption.
Qed.

(** Score 3 : 5.  Player 7, on team 1, reads 3 on the blue label and 5 on the
    red one; moved to team 2, the same player reads 5 and 3. *)
Lemma perspective_projection_self_inverse_witness :
  let w1 := withGameState joinedWorld (mkGameState 3 5) in
  let w2 := SetTeam 7 (GetTeam 2) w1 in
  let hud := hudNames 7 in
  (labelOf (updateHudScoresOf 7 w1) (blueScoreName hud) = Some (MsgScore 3) /\
   labelOf (updateHudScoresOf 7 w1) (redScoreName hud) = Some (MsgScore 5)) /\
  (labelOf (updateHudScoresOf 7 w2) (blueScoreName hud) = Some (MsgScore 5) /\
   labelOf (updateHudScoresOf 7 w2) (redScoreName hud) = Some (MsgScore 3)).
Proof.
  intros w1 w2 hud.
  destruct (perspective_projection_self_inverse 3 5) as (_ & _ & _ & _ & Hhud).
  split.
  - apply (Hhud 7 w1 hud); try reflexivity; try (vm_compute; eauto).
    vm_compute. discriminate.
  - apply (Hhud 7 w2 hud); try reflexivity; try (vm_compute; eauto).
    vm_compute. discriminate.
Defined.


(** ** The multi-click detector *)

Lemma checkMultiClick_state e p w :
  let st0 := default (newClickState (isInteracting e p)) (STATES w !! p) in
  pollFires e p w = fst (detectorStep (isInteracting e p) (dateNow e) st0) /\
  STATES (pollWorld e p w) !! p =
    Some (snd (detectorStep (isInteracting e p) (dateNow e) st0)).
Proof.
  unfold pollFires, pollWorld, checkMultiClick. cbv zeta.
  destruct (detectorStep _ _ _) as [fired st']. simpl.
  split; [reflexivity | apply lookup_insert_eq].
Qed.

Lemma checkMultiClick_others e p q w :
  p <> q -> STATES (pollWorld e p w) !! q = STATES w !! q.
Proof.
  intros Hne. unfold pollWorld, checkMultiClick. cbv zeta.
  destruct (detectorStep _ _ _) as [fired st']. simpl.
  apply lookup_insert_ne. exact Hne.
Qed.

(** An unchanged sample leaves the state object alone. *)
Lemma detectorStep_unchanged b now st :
  b = lastIsInteracting st -> detectorStep b now st = (false, st).
Proof.
  intros ->. unfold detectorStep. rewrite Bool.eqb_reflx. reflexivity.
Qed.

(** A falling edge only records the new sample. *)
Lemma detectorStep_falling now st :
  lastIsInteracting st = true ->
  detectorStep false now st = (false, setLastIsInteracting false st).
Proof.
  intros H. unfold detectorStep. rewrite H. reflexivity.
Qed.

(** The three cases of a rising edge. *)
Lemma detectorStep_rising now st :
  lastIsInteracting st = false ->
  detectorStep true now st =
    if (clickCount st =? 0)
       || ((0 <? clickCount st) && (WINDOW_MS <? now - sequenceStartTime st))
    then (false, mkClickState true 1 now)
    else if clickCount st =? 2
    then (true, mkClickState true 0 (sequenceStartTime st))
    else (false, mkClickState true (clickCount st + 1) (sequenceStartTime st)).
Proof.
  intros H. unfold detectorStep. rewrite H.
  destruct st as [l c t]. simpl in *. subst l.
  unfold REQUIRED_CLICKS.
  destruct (Z.ltb_spec 0 c) as [Hc|Hc];
    destruct (Z.ltb_spec WINDOW_MS (now - t)) as [Hw|Hw]; simpl.
  - replace (c =? 0) with false by (symmetry; apply Z.eqb_neq; lia). reflexivity.
  - destruct (Z.eqb_spec c 0) as [E|E]; [lia|]. simpl.
    destruct (Z.eqb_spec (c + 1) 3) as [E3|E3];
      destruct (Z.eqb_spec c 2) as [E2|E2]; try lia; reflexivity.
  - destruct (Z.eqb_spec c 0) as [E|E]; [reflexivity|]. simpl.
    destruct (Z.eqb_spec (c + 1) 3) as [E3|E3];
      destruct (Z.eqb_spec c 2) as [E2|E2]; try lia; reflexivity.
  - destruct (Z.eqb_spec c 0) as [E|E]; [reflexivity|]. simpl.
    destruct (Z.eqb_spec (c + 1) 3) as [E3|E3];
      destruct (Z.eqb_spec c 2) as [E2|E2]; try lia; reflexivity.
Qed.

(** The detector fires exactly on a rising edge that is the third press of a
    sequence still inside its window. *)
Lemma detectorStep_fires_iff b now st :
  fst (detectorStep b now st) = true <->
  lastIsInteracting st = false /\ b = true /\
  clickCount st = 2 /\ now - sequenceStartTime st <= WINDOW_MS.
Proof.
  destruct (Bool.bool_dec b (lastIsInteracting st)) as [E|E].
  - rewrite (detectorStep_unchanged b now st E). simpl.
    split; [discriminate|]. intros (H1 & H2 & _). congruence.
  - destruct b.
    + assert (Hl : lastIsInteracting st = false)
        by (destruct (lastIsInteracting st); congruence).
      rewrite (detectorStep_rising now st Hl).
      destruct (Z.eqb_spec (clickCount st) 0) as [E0|E0]; simpl.
      { split; [discriminate|]. intros (_ & _ & H2 & _). lia. }
      destruct (Z.ltb_spec 0 (clickCount st)) as [Hc|Hc];
        destruct (Z.ltb_spec WINDOW_MS (now - sequenceStartTime st)) as [Hw|Hw]; simpl;
        destruct (Z.eqb_spec (clickCount st) 2) as [E2|E2]; simpl;
        split; try discriminate; try (intros (_ & _ & ? & ?); lia);
        intros _; repeat split; try assumption; lia.
    + assert (Hl : lastIsInteracting st = true)
        by (destruct (lastIsInteracting st); congruence).
      rewrite (detectorStep_falling now st Hl). simpl.
      split; [discriminate|]. intros (_ & H & _). discriminate.
Qed.

Lemma runPolls_runDetector es p : forall w st,
  STATES w !! p = Some st ->
  fst (runPolls es p w) = fst (runDetector (map (sampleOf p) es) st) /\
  STATES (snd (runPolls es p w)) !! p = Some (snd (runDetector (map (sampleOf p) es) st)).
Proof.
  induction es as [|e es IH]; intros w st Hst.
  - simpl. split; [reflexivity | exact Hst].
  - cbn [runPolls map runDetector]. unfold sampleOf at 1 3.
    destruct (checkMultiClick_state e p w) as [Hf Hs].
    unfold pollFires, pollWorld in Hf, Hs. rewrite Hst in Hf, Hs. simpl in Hf, Hs.
    destruct (checkMultiClick e p w) as [fired w1]. simpl in Hf, Hs.
    destruct (detectorStep (isInteracting e p) (dateNow e) st) as [fired' st1].
    simpl in Hf, Hs. subst fired'.
    destruct (IH w1 st1 Hs) as [IHf IHs].
    destruct (runPolls es p w1) as [out w2].
    destruct (runDetector (map (sampleOf p) es) st1) as [out' st2].
    simpl in *. subst out'. split; [reflexivity | exact IHs].
Qed.

Lemma runDetector_cons b now rest st :
  runDetector ((b, now) :: rest) st =
  (fst (detectorStep b now st) :: fst (runDetector rest (snd (detectorStep b now st))),
   snd (runDetector rest (snd (detectorStep b now st)))).
Proof.
  cbn [runDetector].
  destruct (detectorStep b now st) as [fired st1]. cbn [fst snd].
  destruct (runDetector rest st1) as [out st2]. reflexivity.
Qed.

Lemma detectorStep_release r c s :
  detectorStep false r (mkClickState true c s) = (false, mkClickState false c s).
Proof. reflexivity. Qed.

Lemma detectorStep_press_first t s :
  detectorStep true t (mkClickState false 0 s) = (false, mkClickState true 1 t).
Proof. reflexivity. Qed.

Lemma detectorStep_press_second t s :
  t - s <= WINDOW_MS ->
  detectorStep true t (mkClickState false 1 s) = (false, mkClickState true 2 s).
Proof.
  intros H. rewrite detectorStep_rising by reflexivity.
  cbn [clickCount sequenceStartTime].
  replace (WINDOW_MS <? t - s) with false by (symmetry; apply Z.ltb_ge; lia).
  reflexivity.
Qed.

Lemma detectorStep_press_third t s :
  t - s <= WINDOW_MS ->
  detectorStep true t (mkClickState false 2 s) = (true, mkClickState true 0 s).
Proof.
  intros H. rewrite detectorStep_rising by reflexivity.
  cbn [clickCount sequenceStartTime].
  replace (WINDOW_MS <? t - s) with false by (symmetry; apply Z.ltb_ge; lia).
  reflexivity.
Qed.

(** Three presses inside the window, then a fourth. *)
Lemma runDetector_triple_then_fourth st t0 r0 t1 r1 t2 r2 t3 :
  lastIsInteracting st = false ->
  clickCount st = 0 ->
  t1 - t0 <= WINDOW_MS ->
  t2 - t0 <= WINDOW_MS ->
  runDetector [(true, t0); (false, r0); (true, t1); (false, r1);
               (true, t2); (false, r2); (true, t3)] st =
  ([false; false; false; false; true; false; false], mkClickState true 1 t3).
Proof.
  intros Hl Hc H1 H2.
  destruct st as [l c s]. simpl in Hl, Hc. subst l c.
  rewrite runDetector_cons, detectorStep_press_first. cbn [fst snd].
  rewrite runDetector_cons, detectorStep_release. cbn [fst snd].
  rewrite runDetector_cons, (detectorStep_press_second t1 t0 H1). cbn [fst snd].
  rewrite runDetector_cons, detectorStep_release. cbn [fst snd].
  rewrite runDetector_cons, (detectorStep_press_third t2 t0 H2). cbn [fst snd].
  rewrite runDetector_cons, detectorStep_release. cbn [fst snd].
  rewrite runDetector_cons, detectorStep_press_first. cbn [fst snd].
  reflexivity.
Qed.

(** Two presses inside the window, then a third after the window of the
    first has elapsed. *)
Lemma runDetector_third_too_late st t0 r0 t1 r1 t2 :
  lastIsInteracting st = false ->
  clickCount st = 0 ->
  t1 - t0 <= WINDOW_MS ->
  WINDOW_MS < t2 - t0 ->
  runDetector [(true, t0); (false, r0); (true, t1); (false, r1); (true, t2)] st =
  ([false; false; false; false; false], mkClickState true 1 t2).
Proof.
  intros Hl Hc H1 H2.
  destruct st as [l c s]. simpl in Hl, Hc. subst l c.
  rewrite runDetector_cons, detectorStep_press_first. cbn [fst snd].
  rewrite runDetector_cons, detectorStep_release. cbn [fst snd].
  rewrite runDetector_cons, (detectorStep_press_second t1 t0 H1). cbn [fst snd].
  rewrite runDetector_cons, detectorStep_release. cbn [fst snd].
  rewrite runDetector_cons, detectorStep_rising by reflexivity.
  cbn [clickCount sequenceStartTime fst snd].
  replace (WINDOW_MS <? t2 - t0) with true by (symmetry; apply Z.ltb_lt; exact H2).
  reflexivity.
Qed.

(** C5. [checkMultiClick] answers "gesture completed" exactly on a rising
    edge that is the third press of a sequence whose first press is at most
    2000 ms old, and then puts the click count back to 0; the first press of
    a sequence answers "no event" and starts the count at 1; a rising edge
    more than 2000 ms after the first press of its sequence restarts the
    count at 1; unchanged samples and falling edges answer "no event".
    Three presses of which the third comes at most 2000 ms after the first
    fire on the third, and a fourth press then starts a fresh sequence at
    count 1; when the third press comes more than 2000 ms after the first,
    nothing fires and that press is the first of a new sequence. *)
Theorem multi_click_detector :
  (forall e p w,
      STATES w !! p = None ->
      pollFires e p w = false /\
      STATES (pollWorld e p w) !! p = Some (newClickState (isInteracting e p))) /\
  (forall e p w st,
      STATES w !! p = Some st ->
      let b := isInteracting e p in
      let now := dateNow e in
      exists st',
        STATES (pollWorld e p w) !! p = Some st' /\
        (pollFires e p w = true <->
         lastIsInteracting st = false /\ b = true /\
         clickCount st = 2 /\ now - sequenceStartTime st <= 2000) /\
        (pollFires e p w = true -> clickCount st' = 0) /\
        (b = lastIsInteracting st -> pollFires e p w = false /\ st' = st) /\
        (b = false ->
         pollFires e p w = false /\
         clickCount st' = clickCount st /\
         sequenceStartTime st' = sequenceStartTime st) /\
        (lastIsInteracting st = false -> b = true -> clickCount st = 0 ->
         pollFires e p w = false /\ clickCount st' = 1 /\ sequenceStartTime st' = now) /\
        (lastIsInteracting st = false -> b = true -> 0 < clickCount st ->
         2000 < now - sequenceStartTime st ->
         pollFires e p w = false /\ clickCount st' = 1 /\ sequenceStartTime st' = now) /\
        (lastIsInteracting st = false -> b = true -> clickCount st = 1 ->
         now - sequenceStartTime st <= 2000 ->
         pollFires e p w = false /\ clickCount st' = 2 /\
         sequenceStartTime st' = sequenceStartTime st)) /\
  (forall p w st t0 r0 t1 r1 t2 r2 t3,
      STATES w !! p = Some st ->
      lastIsInteracting st = false ->
      clickCount st = 0 ->
      t1 - t0 <= 2000 ->
      t2 - t0 <= 2000 ->
      let run := runPolls [pressAt t0; releaseAt r0; pressAt t1; releaseAt r1;
                           pressAt t2; releaseAt r2; pressAt t3] p w in
      fst run = [false; false; false; false; true; false; false] /\
      STATES (snd run) !! p = Some (mkClickState true 1 t3)) /\
  (forall p w st t0 r0 t1 r1 t2,
      STATES w !! p = Some st ->
      lastIsInteracting st = false ->
      clickCount st = 0 ->
      t1 - t0 <= 2000 ->
      2000 < t2 - t0 ->
      let run := runPolls [pressAt t0; releaseAt r0; pressAt t1; releaseAt r1;
                           pressAt t2] p w in
      fst run = [false; false; false; false; false] /\
      STATES (snd run) !! p = Some (mkClickState true 1 t2)).
Proof.
  change 2000 with WINDOW_MS.
  split; [|split; [|split]].
  - intros e p w Hnone.
    destruct (checkMultiClick_state e p w) as [Hf Hs].
    rewrite Hnone in Hf, Hs. simpl in Hf, Hs.
    rewrite detectorStep_unchanged in Hf, Hs by reflexivity.
    split; assumption.
  - intros e p w st Hst b now.
    destruct (checkMultiClick_state e p w) as [Hf Hs].
    rewrite Hst in Hf, Hs. simpl in Hf, Hs. fold b now in Hf, Hs.
    exists (snd (detectorStep b now st)).
    split; [exact Hs|]. rewrite Hf. clear Hf Hs.
    split; [apply detectorStep_fires_iff|].
    split.
    { intros Hfire. apply detectorStep_fires_iff in Hfire.
      destruct Hfire as (Hl & Hb & Hc & Hw). rewrite Hb.
      rewrite (detectorStep_rising now st Hl), Hc.
      replace (WINDOW_MS <? now - sequenceStartTime st) with false
        by (symmetry; apply Z.ltb_ge; lia).
      reflexivity. }
    split.
    { intros Hb. rewrite (detectorStep_unchanged b now st Hb). split; reflexivity. }
    split.
    { intros Hb. rewrite Hb.
      destruct (lastIsInteracting st) eqn:Hl.
      - rewrite (detectorStep_falling now st Hl). repeat split.
      - rewrite detectorStep_unchanged by (symmetry; exact Hl). repeat split. }
    split.
    { intros Hl Hb Hc. rewrite Hb, (detectorStep_rising now st Hl), Hc.
      repeat split. }
    split.
    { intros Hl Hb Hc Hw. rewrite Hb, (detectorStep_rising now st Hl).
      replace (clickCount st =? 0) with false by (symmetry; apply Z.eqb_neq; lia).
      replace (0 <? clickCount st) with true by (symmetry; apply Z.ltb_lt; lia).
      replace (WINDOW_MS <? now - sequenceStartTime st) with true
        by (symmetry; apply Z.ltb_lt; lia).
      repeat split. }
    { intros Hl Hb Hc Hw. rewrite Hb, (detectorStep_rising now st Hl), Hc.
      replace (WINDOW_MS <? now - sequenceStartTime st) with false
        by (symmetry; apply Z.ltb_ge; lia).
      repeat split. }
  - intros p w st t0 r0 t1 r1 t2 r2 t3 Hst Hl Hc H1 H2 run.
    destruct (runPolls_runDetector
                [pressAt t0; releaseAt r0; pressAt t1; releaseAt r1;
                 pressAt t2; releaseAt r2; pressAt t3] p w st Hst) as [Hf Hs].
    fold run in Hf, Hs.
    change (map (sampleOf p) _)
      with [(true, t0); (false, r0); (true, t1); (false, r1);
            (true, t2); (false, r2); (true, t3)] in Hf, Hs.
    rewrite (runDetector_triple_then_fourth st t0 r0 t1 r1 t2 r2 t3 Hl Hc H1 H2) in Hf, Hs.
    split; assumption.
  - intros p w st t0 r0 t1 r1 t2 Hst Hl Hc H1 H2 run.
    destruct (runPolls_runDetector
                [pressAt t0; releaseAt r0; pressAt t1; releaseAt r1; pressAt t2]
                p w st Hst) as [Hf Hs].
    fold run in Hf, Hs.
    change (map (sampleOf p) _)
      with [(true, t0); (false, r0); (true, t1); (false, r1); (true, t2)] in Hf, Hs.
    rewrite (runDetector_third_too_late st t0 r0 t1 r1 t2 Hl Hc H1 H2) in Hf, Hs.
    split; assumption.
Qed.

(** Presses at 0, 500 and 2000 ms complete the gesture on the third, the
    third being exactly 2000 ms after the first, and a fourth press at
    2100 ms starts over.  With the third press at 2001 ms instead, though
    only 101 ms after the second, nothing fires and the count restarts at 1
    from that press. *)
Lemma multi_click_detector_witness :
  let w := pollWorld (releaseAt 0) 7 freshWorld in
  fst (runPolls [pressAt 0; releaseAt 100; pressAt 500; releaseAt 600;
                 pressAt 2000; releaseAt 2050; pressAt 2100] 7 w)
  = [false; false; false; false; true; false; false] /\
  fst (runPolls [pressAt 0; releaseAt 100; pressAt 1900; releaseAt 1950;
                 pressAt 2001] 7 w)
  = [false; false; false; false; false] /\
  STATES (snd (runPolls [pressAt 0; releaseAt 100; pressAt 1900; releaseAt 1950;
                         pressAt 2001] 7 w)) !! 7
  = Some (mkClickState true 1 2001).
Proof.
  intros w.
  destruct multi_click_detector as (_ & _ & Hrun & Hlate).
  destruct (Hrun 7 w (mkClickState false 0 0) 0 100 500 600 2000 2050 2100)
    as [Hf _];
    [ reflexivity | reflexivity | reflexivity
    | vm_compute; discriminate | vm_compute; discriminate | ].
  destruct (Hlate 7 w (mkClickState false 0 0) 0 100 1900 1950 2001)
    as [Hg Hs];
    [ reflexivity | reflexivity | reflexivity
    | vm_compute; discriminate | reflexivity | ].
  split; [exact Hf | split; [exact Hg | exact Hs]].
Defined.

(** ** Objective icons *)

Lemma classifyOwner_cases playerTeam ownerTeam :
  (classifyOwner playerTeam ownerTeam = Neutral <->
   ownerTeam = None \/
   exists o, ownerTeam = Some o /\ o <> GetTeam 1 /\ o <> GetTeam 2) /\
  (classifyOwner playerTeam ownerTeam = Friendly <->
   exists o, ownerTeam = Some o /\ (o = GetTeam 1 \/ o = GetTeam 2) /\ o = playerTeam) /\
  (classifyOwner playerTeam ownerTeam = Enemy <->
   exists o, ownerTeam = Some o /\ (o = GetTeam 1 \/ o = GetTeam 2) /\ o <> playerTeam).
Proof.
  unfold classifyOwner, GetTeam.
  destruct ownerTeam as [o|].
  - destruct (decide (o <> 1 /\ o <> 2)) as [Hn|Hn].
    + repeat split; try discriminate.
      * intros _. right. exists o. tauto.
      * intros (o' & [= <-] & Hk & _). lia.
      * intros (o' & [= <-] & Hk & _). lia.
    + assert (Hk : o = 1 \/ o = 2) by lia.
      destruct (decide (o = playerTeam)) as [He|He].
      * repeat split; try discriminate.
        -- intros [H|(o' & [= <-] & H1 & H2)]; [discriminate | lia].
        -- intros _. exists o. tauto.
        -- intros (o' & [= <-] & _ & Hne). congruence.
      * repeat split; try discriminate.
        -- intros [H|(o' & [= <-] & H1 & H2)]; [discriminate | lia].
        -- intros (o' & [= <-] & _ & Heq). congruence.
        -- intros _. exists o. tauto.
  - repeat split; try discriminate.
    + intros _. left. reflexivity.
    + intros (o' & H & _). discriminate.
    + intros (o' & H & _). discriminate.
Qed.

(** Reads the visibility of each plate off a chain of [SetUIWidgetVisible]
    over distinct, existing names. *)
Ltac read_plates :=
  repeat split;
  repeat first
    [ rewrite isVisible_set_eq by (rewrite ?SetUIWidgetVisible_exists; assumption)
    | rewrite isVisible_set_ne by congruence ];
  reflexivity.

(** The visibility of the six plates after a refresh in which all six
    resolve. *)
Lemma updateSingleObjectiveVisibility_plates
      playerTeam ownerTeam n ni f fi en eni w :
  NoDup [n; ni; f; fi; en; eni] ->
  Forall (fun x => is_Some (FindUIWidgetWithName w x)) [n; ni; f; fi; en; eni] ->
  let w' := updateSingleObjectiveVisibility playerTeam ownerTeam n ni f fi en eni w in
  let c := classifyOwner playerTeam ownerTeam in
  isVisible w' n = (if c is Neutral then true else false) /\
  isVisible w' ni = (if c is Neutral then true else false) /\
  isVisible w' f = (if c is Friendly then true else false) /\
  isVisible w' fi = (if c is Friendly then true else false) /\
  isVisible w' en = (if c is Enemy then true else false) /\
  isVisible w' eni = (if c is Enemy then true else false).
Proof.
  intros Hnd Hall w' c. subst w' c.
  repeat match goal with
         | H : Forall _ (_ :: _) |- _ =>
           let Hx := fresh "Hx" in
           inversion H as [|? ? Hx ?]; subst; clear H;
           apply FindUIWidgetWithName_is_Some in Hx
         end.
  assert (Hne : n <> ni /\ n <> f /\ n <> fi /\ n <> en /\ n <> eni /\
               ni <> f /\ ni <> fi /\ ni <> en /\ ni <> eni /\
               f <> fi /\ f <> en /\ f <> eni /\
               fi <> en /\ fi <> eni /\ en <> eni).
  { repeat match goal with
           | H : NoDup (_ :: _) |- _ => inversion H; subst; clear H
           end.
    repeat split; intros ->; set_solver. }
  destruct Hne as (?&?&?&?&?&?&?&?&?&?&?&?&?&?&?).
  unfold updateSingleObjectiveVisibility.
  rewrite !FindUIWidgetWithName_found by assumption.
  cbv zeta.
  unfold classifyOwner, Equals, GetTeam.
  destruct ownerTeam as [o|].
  - destruct (decide (o <> 1 /\ o <> 2)) as [Hn|Hn].
    + replace (negb (o =? 1) && negb (o =? 2)) with true
        by (symmetry; apply andb_true_iff; split; apply negb_true_iff, Z.eqb_neq; tauto).
      read_plates.
    + replace (negb (o =? 1) && negb (o =? 2)) with false
        by (symmetry; apply andb_false_iff;
            destruct (Z.eqb_spec o 1); destruct (Z.eqb_spec o 2); simpl; tauto).
      destruct (decide (o = playerTeam)) as [He|He].
      * replace (playerTeam =? o) with true by (symmetry; apply Z.eqb_eq; congruence).
        read_plates.
      * replace (playerTeam =? o) with false by (symmetry; apply Z.eqb_neq; congruence).
        read_plates.
  - read_plates.
Qed.

Lemma string_length_app (a b : string) :
  String.length (a +:+ b) = (String.length a + String.length b)%nat.
Proof. induction a as [|c a IH]; [reflexivity|]. 
  change (S (String.length (a +:+ b)) = S (String.length a + String.length b)). rewrite IH; reflexivity. Qed.

Lemma string_app_inv_tail (a b s : string) : a +:+ s = b +:+ s -> a = b.
Proof.
  revert b. induction a as [|c a IH]; intros [|d b] H.
  - reflexivity.
  - apply (f_equal String.length) in H.
    rewrite !string_length_app in H. simpl in H. lia.
  - apply (f_equal String.length) in H.
    rewrite !string_length_app in H. simpl in H. lia.
  - change (String c (a +:+ s) = String d (b +:+ s)) in H.
    injection H as -> H. f_equal. apply IH. exact H.
Qed.

Lemma named_prefix_inj p1 p2 id : named p1 id = named p2 id -> p1 = p2.
Proof. unfold named. apply string_app_inv_tail. Qed.

Lemma named_prefix_ne p1 p2 id : String.eqb p1 p2 = false -> named p1 id <> named p2 id.
Proof.
  intros Hne Heq. apply named_prefix_inj in Heq.
  apply String.eqb_neq in Hne. contradiction.
Qed.

(** The six plates of a stack built by [createHUD] are six different names. *)
Lemma hudNames_stack_NoDup z id : NoDup (stackOf z (hudNames id)).
Proof.
  destruct z; cbn [stackOf hudNames objA_Neutral objA_NeutralInner objA_Friendly
                   objA_FriendlyInner objA_Enemy objA_EnemyInner
                   objB_Neutral objB_NeutralInner objB_Friendly
                   objB_FriendlyInner objB_Enemy objB_EnemyInner
                   objC_Neutral objC_NeutralInner objC_Friendly
                   objC_FriendlyInner objC_Enemy objC_EnemyInner];
    repeat (apply NoDup_cons; split;
            [ rewrite ?not_elem_of_cons; repeat split;
              try (apply named_prefix_ne; reflexivity); apply not_elem_of_nil | ]);
    apply NoDup_nil_2.
Qed.

(** C6. After a refresh of one objective stack in which all six plates
    resolve, exactly one of the three outer/inner pairs is visible and the
    other two are invisible.  The neutral pair is the visible one exactly when
    the owner is unset or is neither playing team; otherwise the friendly pair
    exactly when the owner is the viewer's team, and the enemy pair exactly
    when it is not.  For a viewer on one of the two playing teams the friendly
    pair is shown exactly when the owner is the viewer's team. *)
Theorem objective_stack_shows_one_pair
        (playerTeam : Team) (ownerTeam : option Team)
        (n ni f fi en eni : string) (w : World) :
  NoDup [n; ni; f; fi; en; eni] ->
  Forall (fun x => is_Some (FindUIWidgetWithName w x)) [n; ni; f; fi; en; eni] ->
  let w' := updateSingleObjectiveVisibility playerTeam ownerTeam n ni f fi en eni w in
  ((pairShown w' n ni && pairHidden w' f fi && pairHidden w' en eni)
   || (pairHidden w' n ni && pairShown w' f fi && pairHidden w' en eni)
   || (pairHidden w' n ni && pairHidden w' f fi && pairShown w' en eni)) = true /\
  (pairShown w' n ni = true <->
   ownerTeam = None \/
   exists o, ownerTeam = Some o /\ o <> GetTeam 1 /\ o <> GetTeam 2) /\
  (pairShown w' f fi = true <->
   exists o, ownerTeam = Some o /\ (o = GetTeam 1 \/ o = GetTeam 2) /\ o = playerTeam) /\
  (pairShown w' en eni = true <->
   exists o, ownerTeam = Some o /\ (o = GetTeam 1 \/ o = GetTeam 2) /\ o <> playerTeam) /\
  (playerTeam = GetTeam 1 \/ playerTeam = GetTeam 2 ->
   (pairShown w' f fi = true <-> ownerTeam = Some playerTeam)).
Proof.
  intros Hnd Hall w'.
  destruct (updateSingleObjectiveVisibility_plates
              playerTeam ownerTeam n ni f fi en eni w Hnd Hall)
    as (Vn & Vni & Vf & Vfi & Ven & Veni).
  fold w' in Vn, Vni, Vf, Vfi, Ven, Veni.
  destruct (classifyOwner_cases playerTeam ownerTeam) as (CN & CF & CE).
  unfold pairShown, pairHidden.
  rewrite Vn, Vni, Vf, Vfi, Ven, Veni.
  assert (HF : classifyOwner playerTeam ownerTeam = Friendly <->
               (if classifyOwner playerTeam ownerTeam is Friendly then true else false)
               && (if classifyOwner playerTeam ownerTeam is Friendly then true else false)
               = true)
    by (destruct (classifyOwner playerTeam ownerTeam); simpl; split; congruence).
  assert (HN : classifyOwner playerTeam ownerTeam = Neutral <->
               (if classifyOwner playerTeam ownerTeam is Neutral then true else false)
               && (if classifyOwner playerTeam ownerTeam is Neutral then true else false)
               = true)
    by (destruct (classifyOwner playerTeam ownerTeam); simpl; split; congruence).
  assert (HE : classifyOwner playerTeam ownerTeam = Enemy <->
               (if classifyOwner playerTeam ownerTeam is Enemy then true else false)
               && (if classifyOwner playerTeam ownerTeam is Enemy then true else false)
               = true)
    by (destruct (classifyOwner playerTeam ownerTeam); simpl; split; congruence).
  split; [destruct (classifyOwner playerTeam ownerTeam); reflexivity|].
  split; [rewrite <- HN; exact CN|].
  split; [rewrite <- HF; exact CF|].
  split; [rewrite <- HE; exact CE|].
  intros Hteam. rewrite <- HF, CF. split.
  - intros (o & -> & _ & ->). reflexivity.
  - intros ->. exists playerTeam. tauto.
Qed.

(** Player 7, on team 1, looks at zone A held by team 2: the enemy pair. *)
Lemma objective_stack_shows_one_pair_witness :
  let hud := hudNames 7 in
  let w' := updateSingleObjectiveVisibility (GetTeam 1) (Some (GetTeam 2))
              (objA_Neutral hud) (objA_NeutralInner hud) (objA_Friendly hud)
              (objA_FriendlyInner hud) (objA_Enemy hud) (objA_EnemyInner hud)
              joinedWorld in
  pairShown w' (objA_Enemy hud) (objA_EnemyInner hud) = true.
Proof.
  intros hud w'.
  destruct (objective_stack_shows_one_pair (GetTeam 1) (Some (GetTeam 2))
              (objA_Neutral hud) (objA_NeutralInner hud) (objA_Friendly hud)
              (objA_FriendlyInner hud) (objA_Enemy hud) (objA_EnemyInner hud)
              joinedWorld) as (_ & _ & _ & He & _).
  - exact (hudNames_stack_NoDup ZoneA 7).
  - repeat constructor; vm_compute; eauto.
  - apply He. exists (GetTeam 2). repeat split; [right; reflexivity | discriminate].
Defined.

(** ** The HUD registry *)

Lemma buildHudWidgets_onlyWidgets e id root : onlyWidgets (buildHudWidgets e id root).
Proof.
  intros w. unfold buildHudWidgets. cbv zeta.
  apply (onlyWidgets_steps _).
  repeat (apply Forall_cons; split;
          [first [apply AddUIText_onlyWidgets | apply AddUIContainer_onlyWidgets]|]).
  apply Forall_nil_2.
Qed.

Lemma onlyWidgets_hudMap f w : onlyWidgets f -> playerHudMap (f w) = playerHudMap w.
Proof. intros Hf. rewrite (Hf w). reflexivity. Qed.

(** With an entry in the registry, [createHUD] returns at its guard. *)
Lemma createHUD_existing e p w :
  is_Some (playerHudMap w !! p) -> createHUD e p w = w.
Proof. intros [h Hh]. unfold createHUD. rewrite Hh. reflexivity. Qed.

(** Without one, the build runs as soon as the root container resolves. *)
Lemma createHUD_stores e p w :
  playerHudMap w !! p = None ->
  uiAccepts e (named "HUD_ROOT_" p) = true \/
  is_Some (widgets w !! named "HUD_ROOT_" p) ->
  playerHudMap (createHUD e p w) !! p = Some (hudNames p).
Proof.
  intros Hnone Hroot. unfold createHUD. rewrite Hnone. cbv zeta.
  rewrite FindUIWidgetWithName_found.
  - cbn [playerHudMap withHudMap]. apply lookup_insert_eq.
  - unfold AddUIContainer, AddUIWidget.
    destruct (uiAccepts e (named "HUD_ROOT_" p)) eqn:Ha.
    + cbn [widgets withWidgets]. rewrite lookup_insert_eq. eauto.
    + destruct Hroot as [?|?]; [discriminate | assumption].
Qed.

(** An entry, once stored, is neither replaced nor removed. *)
Lemma createHUD_keeps e p q w h :
  playerHudMap w !! q = Some h -> playerHudMap (createHUD e p w) !! q = Some h.
Proof.
  intros Hq. unfold createHUD.
  destruct (playerHudMap w !! p) eqn:Hp; [exact Hq|]. cbv zeta.
  assert (Hne : p <> q) by congruence.
  destruct (FindUIWidgetWithName _ _) as [root|].
  - cbn [playerHudMap withHudMap].
    rewrite lookup_insert_ne by exact Hne.
    rewrite (onlyWidgets_hudMap _ _ (buildHudWidgets_onlyWidgets e p root)).
    rewrite (onlyWidgets_hudMap _ _ (AddUIContainer_onlyWidgets e _ _ _ _)).
    exact Hq.
  - rewrite (onlyWidgets_hudMap _ _ (AddUIContainer_onlyWidgets e _ _ _ _)).
    exact Hq.
Qed.

Lemma createHUD_others e p q w :
  q <> p -> playerHudMap (createHUD e p w) !! q = playerHudMap w !! q.
Proof.
  intros Hne. unfold createHUD.
  destruct (playerHudMap w !! p) eqn:Hp; [reflexivity|]. cbv zeta.
  destruct (FindUIWidgetWithName _ _) as [root|].
  - cbn [playerHudMap withHudMap].
    rewrite lookup_insert_ne by congruence.
    rewrite (onlyWidgets_hudMap _ _ (buildHudWidgets_onlyWidgets e p root)).
    rewrite (onlyWidgets_hudMap _ _ (AddUIContainer_onlyWidgets e _ _ _ _)).
    reflexivity.
  - rewrite (onlyWidgets_hudMap _ _ (AddUIContainer_onlyWidgets e _ _ _ _)).
    reflexivity.
Qed.

Lemma EnableUIButtonEvent_onlyWidgets h ev : onlyWidgets (EnableUIButtonEvent h ev).
Proof. intros w. reflexivity. Qed.

Lemma enableBothEvents_onlyWidgets h : onlyWidgets (enableBothEvents h).
Proof. intros w. reflexivity. Qed.

Lemma updateTeamSwitchButtonState_onlyWidgets p :
  onlyWidgets (updateTeamSwitchButtonState p).
Proof.
  intros w. unfold updateTeamSwitchButtonState.
  destruct (playerTeamSwitchUiMap w !! p) as [ui|]; [|symmetry; apply withWidgets_same].
  destruct (FindUIWidgetWithName w (team1ButtonName ui)); [|symmetry; apply withWidgets_same].
  destruct (FindUIWidgetWithName w (team2ButtonName ui)); [|symmetry; apply withWidgets_same].
  reflexivity.
Qed.

(** The other halves of player initialisation do not write the HUD registry. *)
Lemma createTeamSwitchUi_hudMap e p w :
  playerHudMap (createTeamSwitchUi e p w) = playerHudMap w.
Proof.
  unfold createTeamSwitchUi.
  destruct (playerTeamSwitchUiMap w !! p); [reflexivity|]. cbv zeta.
  set (w2 := AddUIContainer e _ _ _ _ (AddUIText e _ _ _ _ _ w)).
  assert (H2 : playerHudMap w2 = playerHudMap w).
  { unfold w2.
    rewrite (onlyWidgets_hudMap _ _ (AddUIContainer_onlyWidgets e _ _ _ _)).
    apply (onlyWidgets_hudMap _ _ (AddUIText_onlyWidgets e _ _ _ _ _)). }
  destruct (FindUIWidgetWithName w2 _) as [panel|]; [|exact H2].
  rewrite (onlyWidgets_hudMap _ _ (updateTeamSwitchButtonState_onlyWidgets p)).
  rewrite !(onlyWidgets_hudMap _ _ (whenFound_onlyWidgets _ _ enableBothEvents_onlyWidgets)).
  cbn [playerHudMap withTeamSwitchUiMap].
  match goal with
  | |- playerHudMap (fold_left _ ?steps w2) = _ =>
    rewrite (onlyWidgets_hudMap _ w2 (onlyWidgets_steps steps
      ltac:(repeat (apply Forall_cons; split;
                    [first [apply AddUIText_onlyWidgets | apply AddUIButton_onlyWidgets]|]);
            apply Forall_nil_2)))
  end.
  exact H2.
Qed.

Lemma ensureTeamSwitchInteractPoint_hudMap e p w :
  playerHudMap (ensureTeamSwitchInteractPoint e p w) = playerHudMap w.
Proof.
  unfold ensureTeamSwitchInteractPoint.
  repeat match goal with
         | |- context [if ?c then _ else _] => destruct c
         | |- context [match ?x with Some _ => _ | None => _ end] => destruct x
         end; reflexivity.
Qed.

(** A join keeps every entry the registry already holds. *)
Lemma OnPlayerJoinGame_keeps e p q w h :
  playerHudMap w !! q = Some h ->
  playerHudMap (OnPlayerJoinGame e p w) !! q = Some h.
Proof.
  intros Hq. unfold OnPlayerJoinGame, initializePlayerState.
  rewrite (onlyWidgets_hudMap _ _ (updateAllObjectiveIcons_onlyWidgets e)).
  rewrite (onlyWidgets_hudMap _ _ (updateAllHudScores_onlyWidgets e)).
  rewrite ensureTeamSwitchInteractPoint_hudMap, createTeamSwitchUi_hudMap.
  apply createHUD_keeps. exact Hq.
Qed.

(** Two calls in a row, the engine answering alike, do what one does. *)
Lemma createHUD_twice e p w : createHUD e p (createHUD e p w) = createHUD e p w.
Proof.
  destruct (playerHudMap w !! p) as [h|] eqn:Hp.
  - rewrite !(createHUD_existing e p w) by eauto. reflexivity.
  - destruct (uiAccepts e (named "HUD_ROOT_" p)) eqn:Hacc.
    + apply createHUD_existing.
      rewrite (createHUD_stores e p w Hp); [eauto | left; exact Hacc].
    + destruct (widgets w !! named "HUD_ROOT_" p) as [x|] eqn:Hroot.
      * apply createHUD_existing.
        rewrite (createHUD_stores e p w Hp); [eauto | right; eauto].
      * assert (Hfail : createHUD e p w = w).
        { unfold createHUD. rewrite Hp. cbv zeta.
          unfold AddUIContainer, AddUIWidget. rewrite Hacc.
          unfold FindUIWidgetWithName. rewrite Hroot. reflexivity. }
        rewrite !Hfail. reflexivity.
Qed.

(** C7. [createHUD] is idempotent: calling it twice does what calling it
    once does.  A call for a player who has an entry in [playerHudMap] changes
    nothing at all: no widget is created and the stored names stay as they
    are.  So once a first call has stored the player's entry, which it does
    whenever its root container resolves, a second or any later call is a
    no-op, whatever the engine would answer then.  No
    call replaces or removes an entry, of this player or another, and neither
    does a later join, the one entry point that reaches [createHUD]. *)
Theorem hud_creation_idempotent :
  (forall e p w, createHUD e p (createHUD e p w) = createHUD e p w) /\
  (forall e p w, is_Some (playerHudMap w !! p) -> createHUD e p w = w) /\
  (forall e1 e2 p w,
      is_Some (playerHudMap (createHUD e1 p w) !! p) ->
      createHUD e2 p (createHUD e1 p w) = createHUD e1 p w) /\
  (forall e1 p w,
      playerHudMap w !! p = None ->
      uiAccepts e1 (named "HUD_ROOT_" p) = true ->
      playerHudMap (createHUD e1 p w) !! p = Some (hudNames p)) /\
  (forall e1 e2 e3 p w,
      uiAccepts e1 (named "HUD_ROOT_" p) = true ->
      createHUD e2 p (createHUD e1 p w) = createHUD e1 p w /\
      createHUD e3 p (createHUD e2 p (createHUD e1 p w)) = createHUD e1 p w) /\
  (forall e p q w h,
      playerHudMap w !! q = Some h ->
      playerHudMap (createHUD e p w) !! q = Some h /\
      playerHudMap (OnPlayerJoinGame e p w) !! q = Some h).
Proof.
  split; [|split; [|split; [|split; [|split]]]].
  - apply createHUD_twice.
  - intros e p w. apply createHUD_existing.
  - intros e1 e2 p w. apply createHUD_existing.
  - intros e1 p w Hnone Hacc. apply createHUD_stores; [exact Hnone | left; exact Hacc].
  - intros e1 e2 e3 p w Hacc.
    assert (Hs : is_Some (playerHudMap (createHUD e1 p w) !! p)).
    { destruct (playerHudMap w !! p) as [h|] eqn:Hp.
      - rewrite (createHUD_keeps e1 p p w h Hp). eauto.
      - rewrite (createHUD_stores e1 p w Hp); [eauto | left; exact Hacc]. }
    rewrite (createHUD_existing e2 p _ Hs).
    split; [reflexivity | apply createHUD_existing; exact Hs].
  - intros e p q w h Hq.
    split; [apply createHUD_keeps | apply OnPlayerJoinGame_keeps]; exact Hq.
Qed.

(** Player 7 joins; the second [createHUD] for player 7 leaves the world as
    the first one made it, and the stored names are those of the first. *)
Lemma hud_creation_idempotent_witness :
  createHUD joinEnv 7 (createHUD joinEnv 7 freshWorld) = createHUD joinEnv 7 freshWorld /\
  playerHudMap (createHUD joinEnv 7 freshWorld) !! 7 = Some (hudNames 7).
Proof.
  destruct hud_creation_idempotent as (_ & _ & Hsecond & Hstore & _).
  assert (Hs : playerHudMap (createHUD joinEnv 7 freshWorld) !! 7 = Some (hudNames 7))
    by (apply Hstore; reflexivity).
  split; [|exact Hs].
  apply Hsecond. rewrite Hs. eauto.
Defined.

(** ** The team-switch panel: supporting lemmas *)


(** Hiding never makes a widget visible. *)
Lemma isVisible_hide_stays h w name :
  isVisible w name = false -> isVisible (SetUIWidgetVisible h false w) name = false.
Proof.
  intros H. unfold isVisible, SetUIWidgetVisible in *. cbn [widgets withWidgets].
  rewrite lookup_alter. destruct (decide (h = name)) as [->|Hne].
  - destruct (widgets w !! name); reflexivity.
  - exact H.
Qed.

Lemma isVisible_hide_self h w : isVisible (SetUIWidgetVisible h false w) h = false.
Proof.
  unfold isVisible, SetUIWidgetVisible. cbn [widgets withWidgets].
  rewrite lookup_alter_eq. destruct (widgets w !! h); reflexivity.
Qed.

Lemma isVisible_missing w name : widgets w !! name = None -> isVisible w name = false.
Proof. intros H. unfold isVisible. rewrite H. reflexivity. Qed.

Lemma setVisibleIfFound_onlyWidgets w0 v name : onlyWidgets (setVisibleIfFound w0 v name).
Proof.
  unfold setVisibleIfFound. apply whenFound_onlyWidgets.
  intros x. apply SetUIWidgetVisible_onlyWidgets.
Qed.

Lemma setVisibleAll_onlyWidgets w0 v names : onlyWidgets (setVisibleAll w0 v names).
Proof.
  induction names as [|n names IH].
  - apply onlyWidgets_id.
  - exact (onlyWidgets_compose _ _ (setVisibleIfFound_onlyWidgets w0 v n) IH).
Qed.

Lemma setVisibleIfFound_exists w0 v name w other :
  is_Some (widgets (setVisibleIfFound w0 v name w) !! other) <-> is_Some (widgets w !! other).
Proof.
  unfold setVisibleIfFound, whenFound.
  destruct (FindUIWidgetWithName w0 name) as [x|];
    [apply SetUIWidgetVisible_exists | reflexivity].
Qed.

Lemma hideIfFound_stays w0 name w other :
  isVisible w other = false ->
  isVisible (setVisibleIfFound w0 false name w) other = false.
Proof.
  intros H. unfold setVisibleIfFound, whenFound.
  destruct (FindUIWidgetWithName w0 name); [apply isVisible_hide_stays|]; exact H.
Qed.

Lemma hideIfFound_self w0 name w :
  (is_Some (widgets w !! name) -> is_Some (widgets w0 !! name)) ->
  isVisible (setVisibleIfFound w0 false name w) name = false.
Proof.
  intros Hex. unfold setVisibleIfFound, whenFound, FindUIWidgetWithName.
  destruct (widgets w0 !! name) eqn:E.
  - apply isVisible_hide_self.
  - apply isVisible_missing. destruct (widgets w !! name) eqn:E'; [|reflexivity].
    destruct Hex as [? ?]; [eauto | discriminate].
Qed.

Lemma hideAll_stays w0 names : forall w other,
  isVisible w other = false ->
  isVisible (setVisibleAll w0 false names w) other = false.
Proof.
  induction names as [|n names IH]; intros w other H; simpl.
  - exact H.
  - apply IH. apply hideIfFound_stays. exact H.
Qed.

Lemma hideAll_invisible w0 names : forall w name,
  (forall x, is_Some (widgets w !! x) -> is_Some (widgets w0 !! x)) ->
  In name names ->
  isVisible (setVisibleAll w0 false names w) name = false.
Proof.
  induction names as [|n names IH]; intros w name Hex Hin; simpl in *.
  - contradiction.
  - destruct (decide (n = name)) as [->|Hne].
    + apply hideAll_stays. apply hideIfFound_self. apply Hex.
    + destruct Hin as [?|Hin]; [contradiction|].
      apply IH; [|exact Hin].
      intros x Hx. apply Hex. apply setVisibleIfFound_exists in Hx. exact Hx.
Qed.

(** What [setTeamSwitchPanelVisible] does for a player with a registry entry:
    the entry's panel state, the input mode, the eight widgets; nothing else
    but the widget store changes. *)
Lemma setTeamSwitchPanelVisible_fields e p v w ui :
  playerTeamSwitchUiMap w !! p = Some ui ->
  let w' := setTeamSwitchPanelVisible e p v w in
  playerTeamSwitchUiMap w' =
    <[p := setPanelState v (if v then matchTimeElapsed e else (-1000)%num) ui]>
      (playerTeamSwitchUiMap w) /\
  uiInputMode w' = <[p := v]> (uiInputMode w) /\
  playerTeams w' = playerTeams w /\
  undeployCalls w' = undeployCalls w /\
  undeployPending w' = undeployPending w /\
  STATES w' = STATES w /\
  playerHudMap w' = playerHudMap w /\
  interactPoints w' = interactPoints w /\
  (v = false ->
   widgets w' = widgets (setVisibleAll w false (panelWidgetNames ui) w)).
Proof.
  intros Hui w'. subst w'. unfold setTeamSwitchPanelVisible. rewrite Hui. cbv zeta.
  change (whenFound (FindUIWidgetWithName w (closeTextName ui))
            (fun x => SetUIWidgetVisible x v) _)
    with (setVisibleAll w v (panelWidgetNames ui) w).
  pose proof (setVisibleAll_onlyWidgets w v (panelWidgetNames ui) w) as Hw1.
  remember (setVisibleAll w v (panelWidgetNames ui) w) as w1 eqn:Ew1.
  destruct v.
  - match goal with
    | |- context [updateTeamSwitchButtonState p ?x] =>
      rewrite (updateTeamSwitchButtonState_onlyWidgets p x);
      assert (Hx : x = withWidgets
                         (EnableUIInputMode true p
                            (withTeamSwitchUiMap w1
                               (<[p := setPanelState true (matchTimeElapsed e) ui]>
                                  (playerTeamSwitchUiMap w1))))
                         (widgets x))
        by (apply (onlyWidgets_compose _ _
                     (onlyWidgets_compose _ _
                        (whenFound_onlyWidgets _ _ (fun y => SetUIButtonEnabled_onlyWidgets y true))
                        (whenFound_onlyWidgets _ _ (fun y => SetUIButtonEnabled_onlyWidgets y true)))
                     (whenFound_onlyWidgets _ _ (fun y => SetUIButtonEnabled_onlyWidgets y true))));
      rewrite Hx
    end.
    cbn. rewrite Hw1. cbn. repeat split. discriminate.
  - cbn. rewrite Hw1. cbn. repeat split.
    intros _. rewrite Ew1. reflexivity.
Qed.

Lemma isVisible_ext a b name : widgets a = widgets b -> isVisible a name = isVisible b name.
Proof. intros H. unfold isVisible. rewrite H. reflexivity. Qed.

(** Hiding the panel of a player with a registry entry. *)
Lemma setTeamSwitchPanelVisible_hides e p w ui :
  playerTeamSwitchUiMap w !! p = Some ui ->
  let w' := setTeamSwitchPanelVisible e p false w in
  panelShownFor w' p = Some false /\
  uiInputMode w' !! p = Some false /\
  (forall name, In name (panelWidgetNames ui) -> isVisible w' name = false).
Proof.
  intros Hui w'.
  destruct (setTeamSwitchPanelVisible_fields e p false w ui Hui)
    as (Hmap & Hmode & _ & _ & _ & _ & _ & _ & Hwid).
  fold w' in Hmap, Hmode, Hwid.
  split; [|split].
  - unfold panelShownFor. rewrite Hmap, lookup_insert_eq. reflexivity.
  - rewrite Hmode. apply lookup_insert_eq.
  - intros name Hin.
    rewrite (isVisible_ext w' _ name (Hwid eq_refl)).
    apply hideAll_invisible; [tauto | exact Hin].
Qed.

(** ** Button events *)

Lemma OnPlayerUIButtonEvent_down e p widget w :
  OnPlayerUIButtonEvent e p widget ButtonDown w = w.
Proof.
  unfold OnPlayerUIButtonEvent. cbn [negb andb].
  destruct (playerTeamSwitchUiMap w !! p) as [ui|]; [|reflexivity].
  destruct (panelVisible ui); [|reflexivity]. cbn [negb].
  repeat match goal with
         | |- context [if ?c then _ else _] => destruct c
         end; reflexivity.
Qed.

Lemma OnPlayerUIButtonEvent_team2_release e p widget w ui :
  playerTeamSwitchUiMap w !! p = Some ui ->
  panelVisible ui = true ->
  isCloseClick w ui widget = false ->
  isTeam1Click w ui widget = false ->
  isTeam2Click w ui widget = true ->
  OnPlayerUIButtonEvent e p widget ButtonUp w =
  forceUndeployPlayer e p
    (setTeamSwitchPanelVisible e p false
       (updateTeamSwitchButtonState p (SetTeam p (GetTeam 2) w))).
Proof.
  intros Hui Hvis Hc H1 H2.
  unfold isCloseClick in Hc. unfold isTeam1Click in H1. unfold isTeam2Click in H2.
  unfold OnPlayerUIButtonEvent. cbn [negb andb].
  rewrite Hui, Hvis. cbn [negb]. cbv zeta.
  rewrite Hc, H1, H2. reflexivity.
Qed.

(** The ancestor walk finds a matching name up to seven parents above the
    event widget. *)
Lemma ancestorWalk_finds w expected : forall k fuel c a,
  nthAncestor w k c = Some a ->
  existsb (nameMatches a) expected = true ->
  (k < fuel)%nat ->
  ancestorWalk w expected fuel (Some c) = true.
Proof.
  induction k as [|k IH]; intros fuel c a Hn Hm Hk.
  - simpl in Hn. injection Hn as ->.
    destruct fuel as [|fuel]; [lia|]. simpl. unfold GetUIWidgetName. rewrite Hm. reflexivity.
  - destruct fuel as [|fuel]; [lia|]. simpl in *.
    destruct (existsb (nameMatches (GetUIWidgetName c)) expected); [reflexivity|].
    destruct (GetUIWidgetParent w c) as [parent|]; [|discriminate].
    apply (IH fuel parent a Hn Hm). lia.
Qed.

Lemma nameMatches_refl name : nameMatches name name = true.
Proof. unfold nameMatches. rewrite String.eqb_refl. reflexivity. Qed.

(** A widget is a team-2 click when it is the team-2 button itself, or has
    the button or its text among its ancestors, up to the eighth level of the
    walk. *)
Lemma isTeam2Click_ancestor w ui widget k :
  (k < 8)%nat ->
  nthAncestor w k widget = Some (team2ButtonName ui) \/
  nthAncestor w k widget = Some (team2TextName ui) ->
  isTeam2Click w ui widget = true.
Proof.
  intros Hk Hn. unfold isTeam2Click, isButtonClick.
  apply orb_true_iff. right. unfold widgetOrAncestorMatchesName.
  destruct Hn as [Hn|Hn].
  - apply (ancestorWalk_finds w _ k 8 widget _ Hn); [|exact Hk].
    simpl. rewrite nameMatches_refl. reflexivity.
  - apply (ancestorWalk_finds w _ k 8 widget _ Hn); [|exact Hk].
    simpl. rewrite nameMatches_refl. apply orb_true_iff. right. reflexivity.
Qed.

Lemma forceUndeployPlayer_fields e p w :
  playerTeamSwitchUiMap (forceUndeployPlayer e p w) = playerTeamSwitchUiMap w /\
  playerTeams (forceUndeployPlayer e p w) = playerTeams w /\
  widgets (forceUndeployPlayer e p w) = widgets w /\
  uiInputMode (forceUndeployPlayer e p w) = uiInputMode w.
Proof.
  unfold forceUndeployPlayer. destruct (isPlayerValid e p); repeat split.
Qed.

Lemma removeFirst_app_last p l : is_Some (removeFirst p (l ++ [p])).
Proof.
  induction l as [|y l IH]; simpl.
  - rewrite Z.eqb_refl. eauto.
  - destruct (p =? y); [eauto|]. destruct IH as [r ->]. eauto.
Qed.

Lemma clickTarget_team2 w ui widget :
  clickTarget w ui widget = Team2Button <->
  isCloseClick w ui widget = false /\ isTeam1Click w ui widget = false /\
  isTeam2Click w ui widget = true.
Proof.
  unfold clickTarget.
  destruct (isCloseClick w ui widget), (isTeam1Click w ui widget),
    (isTeam2Click w ui widget); split; try discriminate; try tauto;
    intros (? & ? & ?); discriminate.
Qed.

Lemma removeFirst_app_last_length p l rest :
  removeFirst p (l ++ [p]) = Some rest -> length rest = length l.
Proof.
  revert rest. induction l as [|y l IH]; intros rest Hrest; simpl in Hrest.
  - rewrite Z.eqb_refl in Hrest. injection Hrest as <-. reflexivity.
  - destruct (p =? y).
    + injection Hrest as <-. rewrite length_app. simpl. lia.
    + destruct (removeFirst p (l ++ [p])) as [r|] eqn:Hr; [|discriminate].
      injection Hrest as <-. simpl. rewrite (IH r eq_refl). reflexivity.
Qed.

(** C8, as amended.  With the panel visible, a [ButtonUp] event whose widget
    the handler takes for the team-2 button (the button or its text, directly
    or among the ancestors the eight-level walk reaches) puts the player on
    team 2 and hides the panel.  The forced redeploy is guarded twice: for a
    player the engine holds valid at the event, [UndeployPlayer] is issued at
    once and one continuation is left waiting; when its 0.05 s wait is over,
    the continuation issues the command once more if the player is still
    valid, and nothing if not.  So the command is issued twice for a player
    valid at both moments, once for a player valid only at the event, and not
    at all for a player not valid at the event.  A [ButtonDown] event on the
    same widget changes nothing. *)
Theorem team2_release_switches_and_redeploys
        (e : Env) (p : Z) (widget : string) (w : World) (ui : PlayerTeamSwitchUi) :
  playerTeamSwitchUiMap w !! p = Some ui ->
  panelVisible ui = true ->
  clickTarget w ui widget = Team2Button ->
  let w' := OnPlayerUIButtonEvent e p widget ButtonUp w in
  GetPlayerTeam w' p = GetTeam 2 /\
  panelShownFor w' p = Some false /\
  (forall name, In name (panelWidgetNames ui) -> isVisible w' name = false) /\
  uiInputMode w' !! p = Some false /\
  (isPlayerValid e p = true ->
   undeployCalls w' = undeployCalls w ++ [p] /\
   undeployPending w' = undeployPending w ++ [p] /\
   forall e',
     undeployCalls (resumeForceUndeploy e' p w')
     = undeployCalls w ++ (if isPlayerValid e' p then [p; p] else [p]) /\
     length (undeployPending (resumeForceUndeploy e' p w'))
     = length (undeployPending w)) /\
  (isPlayerValid e p = false ->
   undeployCalls w' = undeployCalls w /\
   undeployPending w' = undeployPending w) /\
  OnPlayerUIButtonEvent e p widget ButtonDown w = w /\
  (forall k widget',
      (k < 8)%nat ->
      nthAncestor w k widget' = Some (team2ButtonName ui) \/
      nthAncestor w k widget' = Some (team2TextName ui) ->
      isTeam2Click w ui widget' = true).
Proof.
  intros Hui Hvis Htarget w'.
  apply clickTarget_team2 in Htarget. destruct Htarget as (Hc & H1 & H2).
  subst w'. rewrite (OnPlayerUIButtonEvent_team2_release e p widget w ui Hui Hvis Hc H1 H2).
  set (wA := SetTeam p (GetTeam 2) w).
  set (wB := updateTeamSwitchButtonState p wA).
  assert (HB : wB = withWidgets wA (widgets wB))
    by apply updateTeamSwitchButtonState_onlyWidgets.
  assert (HuiB : playerTeamSwitchUiMap wB !! p = Some ui)
    by (rewrite HB; exact Hui).
  destruct (setTeamSwitchPanelVisible_fields e p false wB ui HuiB)
    as (Hmap & Hmode & Hteams & Hcalls & Hpending & _).
  destruct (setTeamSwitchPanelVisible_hides e p wB ui HuiB) as (Hshown & Hinput & Hhid).
  set (wC := setTeamSwitchPanelVisible e p false wB) in *.
  destruct (forceUndeployPlayer_fields e p wC) as (Fmap & Fteams & Fwid & Fmode).
  assert (HcallsC : undeployCalls wC = undeployCalls w)
    by (rewrite Hcalls, HB; reflexivity).
  assert (HpendC : undeployPending wC = undeployPending w)
    by (rewrite Hpending, HB; reflexivity).
  split; [|split; [|split; [|split; [|split; [|split; [|split]]]]]].
  - unfold GetPlayerTeam. rewrite Fteams, Hteams, HB. cbn.
    rewrite lookup_insert_eq. reflexivity.
  - unfold panelShownFor. rewrite Fmap. exact Hshown.
  - intros name Hin. rewrite (isVisible_ext _ wC _ Fwid). apply Hhid. exact Hin.
  - rewrite Fmode. exact Hinput.
  - intros Hvalid.
    assert (Hfu : forceUndeployPlayer e p wC =
                  withUndeploy wC (undeployCalls w ++ [p]) (undeployPending w ++ [p])).
    { unfold forceUndeployPlayer. rewrite Hvalid, HcallsC, HpendC. reflexivity. }
    rewrite Hfu. split; [reflexivity|]. split; [reflexivity|].
    intros e'. unfold resumeForceUndeploy.
    cbn [undeployPending undeployCalls withUndeploy].
    destruct (removeFirst_app_last p (undeployPending w)) as [rest Hrest].
    rewrite Hrest.
    pose proof (removeFirst_app_last_length p _ rest Hrest) as Hlen.
    destruct (isPlayerValid e' p); cbn [negb undeployPending undeployCalls withUndeploy].
    + rewrite <- app_assoc. split; [reflexivity | exact Hlen].
    + split; [reflexivity | exact Hlen].
  - intros Hinvalid. unfold forceUndeployPlayer. rewrite Hinvalid. cbn [negb].
    split; [exact HcallsC | exact HpendC].
  - apply OnPlayerUIButtonEvent_down.
  - intros k widget' Hk Hn. exact (isTeam2Click_ancestor w ui widget' k Hk Hn).
Qed.

(** Player 7, on team 1, releases the team-2 button of the open panel and is
    still in the match when the wait is over: two redeploy commands. *)
Lemma team2_release_switches_and_redeploys_witness :
  let w' := OnPlayerUIButtonEvent (atTime 12) 7 (named "HUD_TEAM_SWITCH_T2_" 7)
                                  ButtonUp panelOpenWorld in
  GetPlayerTeam panelOpenWorld 7 = GetTeam 1 /\
  GetPlayerTeam w' 7 = GetTeam 2 /\
  panelShownFor w' 7 = Some false /\
  undeployCalls (resumeForceUndeploy (atTime 12) 7 w') = [7; 7].
Proof.
  intros w'.
  pose (ui := setPanelState true 10 (setInteractPoint (Some 9007) (teamSwitchNames 7))).
  assert (Hui : playerTeamSwitchUiMap panelOpenWorld !! 7 = Some ui)
    by (vm_compute; reflexivity).
  assert (Ht2 : clickTarget panelOpenWorld ui (named "HUD_TEAM_SWITCH_T2_" 7) = Team2Button)
    by (vm_compute; reflexivity).
  destruct (team2_release_switches_and_redeploys
              (atTime 12) 7 (named "HUD_TEAM_SWITCH_T2_" 7)
              panelOpenWorld ui Hui eq_refl Ht2)
    as (Ht & Hs & _ & _ & Hredeploy & _).
  destruct (Hredeploy eq_refl) as (_ & _ & Hresume).
  destruct (Hresume (atTime 12)) as (Hcalls & _).
  split; [vm_compute; reflexivity|]. split; [exact Ht|]. split; [exact Hs|].
  transitivity (undeployCalls panelOpenWorld ++ [7; 7]);
    [exact Hcalls | vm_compute; reflexivity].
Defined.

(** C8 as the claim states it fails.  Player 7 releases the team-2 button of
    the open panel and has left the match when the 0.05 s wait of the
    redeploy is over: the player is put on team 2 and the panel is hidden,
    but the redeploy command is issued once.  When the engine does not hold
    the player valid at the event itself, it is not issued at all.  So "twice"
    does not hold of every team-2 release with the panel visible. *)
Lemma team2_release_may_redeploy_once :
  let t2 := named "HUD_TEAM_SWITCH_T2_" 7 in
  let w1 := OnPlayerUIButtonEvent (atTime 12) 7 t2 ButtonUp panelOpenWorld in
  let w0 := OnPlayerUIButtonEvent (goneAt 12) 7 t2 ButtonUp panelOpenWorld in
  (panelShownFor panelOpenWorld 7 = Some true /\
   undeployCalls panelOpenWorld = []) /\
  (GetPlayerTeam w1 7 = GetTeam 2 /\
   panelShownFor w1 7 = Some false /\
   undeployCalls (resumeForceUndeploy (goneAt 12) 7 w1) = [7] /\
   undeployPending (resumeForceUndeploy (goneAt 12) 7 w1) = []) /\
  (GetPlayerTeam w0 7 = GetTeam 2 /\
   panelShownFor w0 7 = Some false /\
   undeployCalls w0 = [] /\
   undeployPending w0 = []) /\
  ~ (forall (e e' : Env) (p : Z) (widget : string) (w : World) (ui : PlayerTeamSwitchUi),
        playerTeamSwitchUiMap w !! p = Some ui ->
        panelVisible ui = true ->
        clickTarget w ui widget = Team2Button ->
        undeployCalls
          (resumeForceUndeploy e' p (OnPlayerUIButtonEvent e p widget ButtonUp w))
        = undeployCalls w ++ [p; p]).
Proof.
  intros t2 w1 w0.
  assert (Honce : undeployCalls (resumeForceUndeploy (goneAt 12) 7 w1) = [7])
    by (vm_compute; reflexivity).
  split; [split; vm_compute; reflexivity|].
  split; [repeat split; vm_compute; reflexivity|].
  split; [repeat split; vm_compute; reflexivity|].
  intros Hclaim.
  pose (ui := setPanelState true 10 (setInteractPoint (Some 9007) (teamSwitchNames 7))).
  specialize (Hclaim (atTime 12) (goneAt 12) 7 t2 panelOpenWorld ui).
  fold w1 in Hclaim. rewrite Honce in Hclaim.
  assert (H : [7] = undeployCalls panelOpenWorld ++ [7; 7]).
  { apply Hclaim; vm_compute; reflexivity. }
  vm_compute in H. discriminate.
Qed.

(** C10. For a player whose panel is not visible, or who has no team-switch
    registry entry, a UI button event of any kind on any widget returns at the
    guard: the world is left exactly as it was, so the player's team, the
    redeploy commands issued and waiting, and the panel flag are unchanged. *)
Theorem button_event_ignored_while_panel_hidden
        (e : Env) (p : Z) (widget : string) (ev : UIButtonEvent) (w : World) :
  panelShownFor w p <> Some true ->
  let w' := OnPlayerUIButtonEvent e p widget ev w in
  w' = w /\
  GetPlayerTeam w' p = GetPlayerTeam w p /\
  undeployCalls w' = undeployCalls w /\
  undeployPending w' = undeployPending w /\
  panelShownFor w' p = panelShownFor w p /\
  widgets w' = widgets w.
Proof.
  intros Hhidden w'.
  assert (Hw : w' = w).
  { subst w'. unfold OnPlayerUIButtonEvent.
    destruct (negb _ && negb _); [reflexivity|].
    unfold panelShownFor in Hhidden.
    destruct (playerTeamSwitchUiMap w !! p) as [ui|]; [|reflexivity].
    destruct (panelVisible ui) eqn:Hv; [|reflexivity].
    exfalso. apply Hhidden. simpl. rewrite Hv. reflexivity. }
  rewrite Hw. repeat split.
Qed.

(** Player 7 has joined but not opened the panel; a release on the team-2
    button does nothing. *)
Lemma button_event_ignored_while_panel_hidden_witness :
  OnPlayerUIButtonEvent (atTime 12) 7 (named "HUD_TEAM_SWITCH_T2_" 7) ButtonUp joinedWorld
  = joinedWorld.
Proof.
  apply (button_event_ignored_while_panel_hidden
           (atTime 12) 7 (named "HUD_TEAM_SWITCH_T2_" 7) ButtonUp joinedWorld).
  vm_compute. discriminate.
Defined.

(** ** The per-player tick *)

(** A double minus itself is zero, or NaN when it is not finite. *)
Lemma sub_self x : (x - x)%num = S754_zero false \/ (x - x)%num = S754_nan.
Proof.
  destruct x as [[]|[]| |s m e];
    try (left; reflexivity); try (right; reflexivity).
  left. unfold Double.sub, SFsub.
  match goal with
  | |- binary_normalize _ _ ?d _ _ = _ =>
    assert (Hd : d = 0) by apply Z.sub_diag; rewrite Hd
  end.
  reflexivity.
Qed.

(** A panel opened in this very tick is not overdue. *)
Lemma overdue_self now : (now - now >? 15)%num = false.
Proof. destruct (sub_self now) as [-> | ->]; reflexivity. Qed.

Lemma checkMultiClick_frame e p w :
  pollWorld e p w = withSTATES w (STATES (pollWorld e p w)).
Proof.
  unfold pollWorld, checkMultiClick. cbv zeta.
  destruct (detectorStep _ _ _) as [fired st']. reflexivity.
Qed.

Lemma panelStateOf_entry w p ui :
  playerTeamSwitchUiMap w !! p = Some ui ->
  panelStateOf w p = Some (panelVisible ui, panelOpenedAt ui).
Proof. intros H. unfold panelStateOf. rewrite H. reflexivity. Qed.


(** The clean-up writes nothing but the engine's interact points. *)
Lemma cleanUpInteractPoint_frame e ip w :
  cleanUpInteractPoint e ip w
  = withInteractPoints w (interactPoints (cleanUpInteractPoint e ip w)).
Proof.
  unfold cleanUpInteractPoint. destruct (cleanupOf e ip); destruct w; reflexivity.
Qed.

(** The interact-point bookkeeping leaves the panel state, the widgets and the
    input mode alone. *)
Lemma manageInteractPoint_frame e p w :
  panelStateOf (manageInteractPoint e p w) p = panelStateOf w p /\
  widgets (manageInteractPoint e p w) = widgets w /\
  uiInputMode (manageInteractPoint e p w) = uiInputMode w /\
  STATES (manageInteractPoint e p w) = STATES w.
Proof.
  unfold manageInteractPoint, ensureTeamSwitchInteractPoint,
    removeTeamSwitchInteractPoint, panelStateOf.
  destruct (isLikelyDeployed e p); cbn [negb].
  - destruct (isPlayerValid e p); cbn [negb]; [|repeat split].
    destruct (playerTeamSwitchUiMap w !! p) as [ui|] eqn:Hui; [|rewrite Hui; repeat split].
    destruct (interactPoint ui); [rewrite Hui; repeat split|].
    destruct (hasPose e p); cbn [negb]; [|rewrite Hui; repeat split].
    cbn. rewrite lookup_insert_eq. repeat split.
  - destruct (playerTeamSwitchUiMap w !! p) as [ui|] eqn:Hui; [|rewrite Hui; repeat split].
    destruct (interactPoint ui) as [ip|]; [|rewrite Hui; repeat split].
    rewrite cleanUpInteractPoint_frame. cbn. rewrite lookup_insert_eq. repeat split.
Qed.

(** [OngoingPlayer] for a valid player, phase by phase. *)
Lemma OngoingPlayer_valid e p w :
  isPlayerValid e p = true ->
  OngoingPlayer e p w =
  let w1 := pollWorld e p w in
  let w2 :=
    if pollFires e p w then
      match playerTeamSwitchUiMap w1 !! p with
      | Some ui => setTeamSwitchPanelVisible e p (negb (panelVisible ui)) w1
      | None => w1
      end
    else w1 in
  let w3 :=
    match playerTeamSwitchUiMap w2 !! p with
    | Some ui =>
      if panelVisible ui
         && (matchTimeElapsed e - panelOpenedAt ui >? 15)%num
      then setTeamSwitchPanelVisible e p false w2
      else w2
    | None => w2
    end in
  manageInteractPoint e p w3.
Proof.
  intros Hv. unfold OngoingPlayer, pollWorld, pollFires, manageInteractPoint.
  rewrite Hv. cbn [negb].
  destruct (checkMultiClick e p w) as [fired w1]. reflexivity.
Qed.










(** * Further properties

    ** What each function leaves alone *)

Lemma keeps_id {A} (pr : World -> A) : keeps pr (fun w => w).
Proof. intros w. reflexivity. Qed.

Lemma keeps_compose {A} (pr : World -> A) f g :
  keeps pr f -> keeps pr g -> keeps pr (fun w => g (f w)).
Proof. intros Hf Hg w. rewrite (Hg (f w)). apply Hf. Qed.

Lemma keeps_fold {A B} (pr : World -> A) (step : B -> World -> World) (l : list B) :
  (forall b, keeps pr (step b)) ->
  keeps pr (fun w => fold_left (fun acc b => step b acc) l w).
Proof.
  intros Hstep. induction l as [|b l IH]; intros w; [reflexivity|].
  simpl. rewrite IH. apply Hstep.
Qed.

Lemma whenFound_keeps {A} (pr : World -> A) h f :
  (forall x, keeps pr (f x)) -> keeps pr (whenFound h f).
Proof. intros Hf w. unfold whenFound. destruct h; [apply Hf | reflexivity]. Qed.

Lemma keeps_onlyWidgets {A} (pr : World -> A) f :
  (forall w m, pr (withWidgets w m) = pr w) -> onlyWidgets f -> keeps pr f.
Proof. intros Hw Hf w. rewrite (Hf w). apply Hw. Qed.

Lemma panelBlind_tolerant {A} (pr : World -> A) : panelBlind pr -> panelTolerant pr.
Proof.
  intros (Hw & Hu & Hm & Hi & Hs).
  repeat split; try assumption; intros; apply Hw.
Qed.

Lemma tolerant_setters {A} (pr : World -> A) : panelTolerant pr -> setterBlind pr.
Proof. intros (H1 & H2 & H3 & H4 & H5 & _). repeat split; assumption. Qed.

Lemma map_fmap_alter_same {B C} (g : B -> C) (f : B -> B) (h : string) (m : gmap string B) :
  (forall x, g (f x) = g x) -> g <$> alter f h m = g <$> m.
Proof.
  intros Hg. apply map_eq. intros i. rewrite !lookup_fmap, lookup_alter.
  destruct (decide (h = i)) as [->|]; [|reflexivity].
  destruct (m !! i); simpl; [rewrite Hg|]; reflexivity.
Qed.

Lemma uiTree_tolerant : panelTolerant uiTree.
Proof.
  unfold uiTree.
  repeat split; try reflexivity; intros; cbn [widgets withWidgets SetUIWidgetVisible
    SetUIWidgetSize SetUITextLabel SetUIButtonEnabled EnableUIButtonEvent];
    apply map_fmap_alter_same; reflexivity.
Qed.

Lemma uiTree_rosterBlind : rosterBlind uiTree.
Proof. repeat split. Qed.

Lemma uiTree_scoreBlind : scoreBlind uiTree.
Proof. repeat split. Qed.

Lemma scoreView_rosterBlind : rosterBlind scoreView.
Proof. repeat split. Qed.

Lemma playerHudMap_rosterBlind : rosterBlind playerHudMap.
Proof. repeat split. Qed.

Lemma playerHudMap_scoreBlind : scoreBlind playerHudMap.
Proof. repeat split. Qed.

Lemma rosterView_scoreBlind : scoreBlind rosterView.
Proof. repeat split. Qed.

Lemma updateTeamSwitchButtonState_keeps {A} (pr : World -> A) p :
  setterBlind pr -> keeps pr (updateTeamSwitchButtonState p).
Proof.
  intros (_ & _ & _ & He & _) w. unfold updateTeamSwitchButtonState.
  destruct (playerTeamSwitchUiMap w !! p) as [ui|]; [|reflexivity].
  destruct (FindUIWidgetWithName w (team1ButtonName ui)); [|reflexivity].
  destruct (FindUIWidgetWithName w (team2ButtonName ui)); [|reflexivity].
  rewrite !He. reflexivity.
Qed.

Lemma setVisibleAll_keeps {A} (pr : World -> A) w0 v names :
  setterBlind pr -> keeps pr (setVisibleAll w0 v names).
Proof.
  intros (Hv & _). unfold setVisibleAll.
  apply (keeps_fold pr (setVisibleIfFound w0 v)).
  intros name w. unfold setVisibleIfFound.
  apply whenFound_keeps. intros x w'. apply Hv.
Qed.

Lemma scoreView_uiBlind : uiBlind scoreView.
Proof. repeat split. Qed.

Lemma rosterView_uiBlind : uiBlind rosterView.
Proof. repeat split. Qed.

Lemma playerHudMap_panelBlind : panelBlind playerHudMap.
Proof. repeat split. Qed.

Lemma setTeamSwitchPanelVisible_keeps {A} (pr : World -> A) e p v :
  panelTolerant pr -> keeps pr (setTeamSwitchPanelVisible e p v).
Proof.
  intros Hb w. pose proof Hb as (_ & _ & _ & He & _ & Hu & Hm & _ & _).
  unfold setTeamSwitchPanelVisible.
  destruct (playerTeamSwitchUiMap w !! p) as [ui|]; [|reflexivity]. cbv zeta.
  change (whenFound (FindUIWidgetWithName w (closeTextName ui))
            (fun x => SetUIWidgetVisible x v) _)
    with (setVisibleAll w v (panelWidgetNames ui) w).
  assert (H1 : pr (setVisibleAll w v (panelWidgetNames ui) w) = pr w)
    by apply (setVisibleAll_keeps pr w v _ (tolerant_setters pr Hb)).
  destruct v.
  - rewrite (updateTeamSwitchButtonState_keeps pr p (tolerant_setters pr Hb)).
    rewrite !(whenFound_keeps pr _ _ (fun y w' => He y true w')).
    unfold EnableUIInputMode. rewrite Hm, Hu. exact H1.
  - unfold EnableUIInputMode. rewrite Hm, Hu. exact H1.
Qed.

Lemma pollWorld_keeps {A} (pr : World -> A) e p :
  panelTolerant pr -> keeps pr (pollWorld e p).
Proof.
  intros (_ & _ & _ & _ & _ & _ & _ & _ & Hs) w. rewrite checkMultiClick_frame. apply Hs.
Qed.

Lemma ensureTeamSwitchInteractPoint_keeps {A} (pr : World -> A) e p :
  panelTolerant pr -> keeps pr (ensureTeamSwitchInteractPoint e p).
Proof.
  intros (_ & _ & _ & _ & _ & Hu & _ & Hi & _) w. unfold ensureTeamSwitchInteractPoint.
  destruct (negb (isPlayerValid e p)); [reflexivity|].
  destruct (negb (isLikelyDeployed e p)); [reflexivity|].
  destruct (playerTeamSwitchUiMap w !! p) as [ui|]; [|reflexivity].
  destruct (interactPoint ui); [reflexivity|].
  destruct (negb (hasPose e p)); [reflexivity|].
  cbv zeta. unfold EnableInteractPoint. rewrite Hu, Hi. reflexivity.
Qed.

Lemma removeTeamSwitchInteractPoint_keeps {A} (pr : World -> A) e p :
  panelTolerant pr -> keeps pr (removeTeamSwitchInteractPoint e p).
Proof.
  intros (_ & _ & _ & _ & _ & Hu & _ & Hi & _) w. unfold removeTeamSwitchInteractPoint.
  destruct (playerTeamSwitchUiMap w !! p) as [ui|]; [|reflexivity].
  destruct (interactPoint ui) as [ip|]; [|reflexivity].
  cbv zeta. rewrite Hu, cleanUpInteractPoint_frame, Hi. reflexivity.
Qed.

Lemma manageInteractPoint_keeps {A} (pr : World -> A) e p :
  panelTolerant pr -> keeps pr (manageInteractPoint e p).
Proof.
  intros Hb w. unfold manageInteractPoint. destruct (isLikelyDeployed e p).
  - apply ensureTeamSwitchInteractPoint_keeps, Hb.
  - apply removeTeamSwitchInteractPoint_keeps, Hb.
Qed.

Lemma OngoingPlayer_keeps {A} (pr : World -> A) e p :
  panelTolerant pr -> keeps pr (OngoingPlayer e p).
Proof.
  intros Hb w.
  destruct (isPlayerValid e p) eqn:Hv.
  - rewrite (OngoingPlayer_valid e p w Hv). cbv zeta.
    rewrite manageInteractPoint_keeps by exact Hb.
    assert (H2 : forall x, pr x = pr w ->
                 pr (match playerTeamSwitchUiMap x !! p with
                     | Some ui =>
                       if panelVisible ui
                          && (matchTimeElapsed e - panelOpenedAt ui >? 15)%num
                       then setTeamSwitchPanelVisible e p false x
                       else x
                     | None => x
                     end) = pr w).
    { intros x Hx. destruct (playerTeamSwitchUiMap x !! p) as [ui|]; [|exact Hx].
      destruct (_ && _); [|exact Hx].
      rewrite setTeamSwitchPanelVisible_keeps by exact Hb. exact Hx. }
    apply H2.
    destruct (pollFires e p w); [|apply pollWorld_keeps, Hb].
    destruct (playerTeamSwitchUiMap (pollWorld e p w) !! p) as [ui|];
      [|apply pollWorld_keeps, Hb].
    rewrite setTeamSwitchPanelVisible_keeps by exact Hb. apply pollWorld_keeps, Hb.
  - unfold OngoingPlayer. rewrite Hv. reflexivity.
Qed.

Lemma createHUD_keeps_of {A} (pr : World -> A) e p :
  (forall w m, pr (withWidgets w m) = pr w) ->
  (forall w m, pr (withHudMap w m) = pr w) ->
  keeps pr (createHUD e p).
Proof.
  intros Hb Hh w. unfold createHUD.
  destruct (playerHudMap w !! p); [reflexivity|]. cbv zeta.
  assert (H1 : pr (AddUIContainer e (named "HUD_ROOT_" p) (CreateVector 1200 150 0)
                                  GetUIRoot true w) = pr w)
    by apply (keeps_onlyWidgets pr _ Hb (AddUIContainer_onlyWidgets e _ _ _ _)).
  destruct (FindUIWidgetWithName _ _) as [root|]; [|exact H1].
  rewrite Hh.
  rewrite (keeps_onlyWidgets pr _ Hb (buildHudWidgets_onlyWidgets e p root)).
  exact H1.
Qed.

Lemma createHUD_keeps_view {A} (pr : World -> A) e p :
  uiBlind pr -> keeps pr (createHUD e p).
Proof. intros ((Hw & _) & Hh). apply createHUD_keeps_of; assumption. Qed.

Lemma createTeamSwitchUi_keeps_of {A} (pr : World -> A) e p :
  (forall w m, pr (withWidgets w m) = pr w) ->
  (forall w m, pr (withTeamSwitchUiMap w m) = pr w) ->
  keeps pr (createTeamSwitchUi e p).
Proof.
  intros Hb Hu w.
  unfold createTeamSwitchUi.
  destruct (playerTeamSwitchUiMap w !! p); [reflexivity|]. cbv zeta.
  set (w2 := AddUIContainer e _ _ _ _ (AddUIText e _ _ _ _ _ w)).
  assert (H2 : pr w2 = pr w).
  { unfold w2.
    rewrite (keeps_onlyWidgets pr _ Hb (AddUIContainer_onlyWidgets e _ _ _ _)).
    apply (keeps_onlyWidgets pr _ Hb (AddUIText_onlyWidgets e _ _ _ _ _)). }
  destruct (FindUIWidgetWithName w2 _) as [panel|]; [|exact H2].
  rewrite (keeps_onlyWidgets pr _ Hb (updateTeamSwitchButtonState_onlyWidgets p)).
  rewrite !(keeps_onlyWidgets pr _ Hb (whenFound_onlyWidgets _ _ enableBothEvents_onlyWidgets)).
  rewrite Hu.
  match goal with
  | |- pr (fold_left _ ?steps w2) = _ =>
    rewrite (keeps_onlyWidgets pr _ Hb (onlyWidgets_steps steps
      ltac:(repeat (apply Forall_cons; split;
                    [first [apply AddUIText_onlyWidgets | apply AddUIButton_onlyWidgets]|]);
            apply Forall_nil_2)))
  end.
  exact H2.
Qed.

Lemma createTeamSwitchUi_keeps {A} (pr : World -> A) e p :
  panelBlind pr -> keeps pr (createTeamSwitchUi e p).
Proof. intros (Hw & Hu & _). apply createTeamSwitchUi_keeps_of; assumption. Qed.

Lemma initializePlayerState_keeps {A} (pr : World -> A) e p :
  uiBlind pr -> keeps pr (initializePlayerState e p).
Proof.
  intros Hu w. pose proof Hu as (Hb & _). unfold initializePlayerState.
  rewrite ensureTeamSwitchInteractPoint_keeps by (apply panelBlind_tolerant, Hb).
  rewrite createTeamSwitchUi_keeps by exact Hb.
  apply createHUD_keeps_view, Hu.
Qed.

Lemma initializeAllCurrentPlayers_keeps {A} (pr : World -> A) e :
  uiBlind pr -> keeps pr (initializeAllCurrentPlayers e).
Proof.
  intros Hu w. pose proof Hu as (Hb & _). unfold initializeAllCurrentPlayers. cbv zeta.
  rewrite (keeps_onlyWidgets pr _ (proj1 Hb) (updateAllObjectiveIcons_onlyWidgets e)).
  rewrite (keeps_onlyWidgets pr _ (proj1 Hb) (updateAllHudScores_onlyWidgets e)).
  apply (keeps_fold pr (initializePlayerState e)).
  intros p. apply initializePlayerState_keeps, Hu.
Qed.

Lemma OnPlayerJoinGame_keeps_view {A} (pr : World -> A) e p :
  uiBlind pr -> keeps pr (OnPlayerJoinGame e p).
Proof.
  intros Hu w. pose proof Hu as (Hb & _). unfold OnPlayerJoinGame.
  rewrite (keeps_onlyWidgets pr _ (proj1 Hb) (updateAllObjectiveIcons_onlyWidgets e)).
  rewrite (keeps_onlyWidgets pr _ (proj1 Hb) (updateAllHudScores_onlyWidgets e)).
  apply initializePlayerState_keeps, Hu.
Qed.

Lemma updateHudScoresOf_keeps {A} (pr : World -> A) p :
  setterBlind pr -> keeps pr (updateHudScoresOf p).
Proof.
  intros (_ & Hz & Hl & _) w. unfold updateHudScoresOf.
  destruct (playerHudMap w !! p) as [hud|]; [|reflexivity].
  destruct (FindUIWidgetWithName w (blueScoreName hud)); [|reflexivity].
  destruct (FindUIWidgetWithName w (redScoreName hud)); [|reflexivity].
  destruct (relativeScores _ _) as [fs es]. cbv zeta.
  repeat match goal with
         | |- context [match ?x with Some _ => _ | None => _ end] => destruct x
         end;
    rewrite ?Hz, ?Hl; reflexivity.
Qed.

Lemma updateAllHudScores_keeps {A} (pr : World -> A) e :
  setterBlind pr -> keeps pr (updateAllHudScores e).
Proof.
  intros Hb. unfold updateAllHudScores.
  apply (keeps_fold pr updateHudScoresOf). intros p. apply updateHudScoresOf_keeps, Hb.
Qed.

Lemma updateSingleObjectiveVisibility_keeps {A} (pr : World -> A) pt ot n ni f fi en eni :
  setterBlind pr -> keeps pr (updateSingleObjectiveVisibility pt ot n ni f fi en eni).
Proof.
  intros (Hv & _) w. unfold updateSingleObjectiveVisibility.
  repeat match goal with
         | |- context [match FindUIWidgetWithName ?a ?b with Some _ => _ | None => _ end] =>
           destruct (FindUIWidgetWithName a b)
         end; try reflexivity.
  cbv zeta. destruct ot as [o|].
  - destruct (_ && _); [|destruct (Equals pt o)]; rewrite !Hv; reflexivity.
  - rewrite !Hv; reflexivity.
Qed.

Lemma updateObjectiveIconsOf_keeps {A} (pr : World -> A) a b c p :
  setterBlind pr -> keeps pr (updateObjectiveIconsOf a b c p).
Proof.
  intros Hb w. unfold updateObjectiveIconsOf.
  destruct (playerHudMap w !! p) as [hud|]; [|reflexivity]. cbv zeta.
  rewrite !updateSingleObjectiveVisibility_keeps by exact Hb. reflexivity.
Qed.

Lemma updateAllObjectiveIcons_keeps {A} (pr : World -> A) e :
  setterBlind pr -> keeps pr (updateAllObjectiveIcons e).
Proof.
  intros Hb. unfold updateAllObjectiveIcons. cbv zeta.
  apply (keeps_fold pr (updateObjectiveIconsOf _ _ _)).
  intros p. apply updateObjectiveIconsOf_keeps, Hb.
Qed.

Lemma updateTeamScores_keeps {A} (pr : World -> A) e :
  setterBlind pr -> scoreBlind pr -> keeps pr (updateTeamScores e).
Proof.
  intros Hb (Ht & Hg & Hm & Hh) w. unfold updateTeamScores.
  destruct (pointsHeld e) as [h1 h2]. cbv zeta.
  unfold SetGameModeScore, updateScoreBoardHeader.
  destruct (_ && _); destruct (_ && _);
    rewrite ?updateAllHudScores_keeps by exact Hb;
    rewrite ?Hh, ?Hm, ?Hg, ?Ht, ?Hm, ?Hg, ?Ht; try reflexivity; apply Ht.
Qed.

Lemma matchTick_keeps {A} (pr : World -> A) e :
  setterBlind pr -> scoreBlind pr -> keeps pr (matchTick e).
Proof.
  intros Hb Hs w. unfold matchTick.
  rewrite updateAllObjectiveIcons_keeps by exact Hb.
  apply updateTeamScores_keeps; assumption.
Qed.

Lemma runTicks_keeps {A} (pr : World -> A) es :
  setterBlind pr -> scoreBlind pr -> keeps pr (runTicks es).
Proof.
  intros Hb Hs. unfold runTicks.
  apply (keeps_fold pr matchTick). intros e. apply matchTick_keeps; assumption.
Qed.

Lemma forceUndeployPlayer_keeps {A} (pr : World -> A) e p :
  rosterBlind pr -> keeps pr (forceUndeployPlayer e p).
Proof.
  intros (_ & Hu) w. unfold forceUndeployPlayer.
  destruct (negb _); [reflexivity | apply Hu].
Qed.

Lemma resumeForceUndeploy_keeps {A} (pr : World -> A) e p :
  rosterBlind pr -> keeps pr (resumeForceUndeploy e p).
Proof.
  intros (_ & Hu) w. unfold resumeForceUndeploy.
  destruct (removeFirst _ _); [|reflexivity].
  destruct (negb _); apply Hu.
Qed.

Lemma OnPlayerUIButtonEvent_keeps {A} (pr : World -> A) e p widget ev :
  panelTolerant pr -> rosterBlind pr -> keeps pr (OnPlayerUIButtonEvent e p widget ev).
Proof.
  intros Hb Hr w. pose proof Hr as (Ht & _).
  assert (Hsw : forall t, pr (forceUndeployPlayer e p
                 (setTeamSwitchPanelVisible e p false
                   (updateTeamSwitchButtonState p (SetTeam p t w)))) = pr w).
  { intros t. rewrite forceUndeployPlayer_keeps by exact Hr.
    rewrite setTeamSwitchPanelVisible_keeps by exact Hb.
    rewrite updateTeamSwitchButtonState_keeps by exact (tolerant_setters pr Hb).
    apply Ht. }
  unfold OnPlayerUIButtonEvent. cbv zeta.
  destruct (_ && _); [reflexivity|].
  destruct (playerTeamSwitchUiMap w !! p) as [ui|]; [|reflexivity].
  destruct (negb (panelVisible ui)); [reflexivity|].
  destruct (isButtonClick _ _ _ _ _).
  { destruct (negb _); [reflexivity|]. apply setTeamSwitchPanelVisible_keeps, Hb. }
  destruct (isButtonClick _ _ _ _ _).
  { destruct (negb _); [reflexivity|]. apply Hsw. }
  destruct (isButtonClick _ _ _ _ _); [|reflexivity].
  destruct (negb _); [reflexivity|]. apply Hsw.
Qed.

Lemma processInteractTap_keeps {A} (pr : World -> A) e p :
  panelTolerant pr -> keeps pr (processInteractTap e p).
Proof.
  intros Hb w. pose proof Hb as (_ & _ & _ & _ & _ & Hu & _).
  unfold processInteractTap.
  destruct (playerTeamSwitchUiMap w !! p) as [ui|]; [|reflexivity]. cbv zeta.
  destruct (3 <=? _); [|apply Hu].
  rewrite setTeamSwitchPanelVisible_keeps by exact Hb. apply Hu.
Qed.

Lemma OnPlayerInteract_keeps {A} (pr : World -> A) e p ip :
  panelTolerant pr -> keeps pr (OnPlayerInteract e p ip).
Proof.
  intros Hb w. unfold OnPlayerInteract.
  destruct (playerTeamSwitchUiMap w !! p) as [ui|]; [|reflexivity].
  destruct (interactPoint ui); [|reflexivity].
  destruct (negb _); [reflexivity|]. apply processInteractTap_keeps, Hb.
Qed.

(** ** The objective tally and the score clock *)

(** X1. The tally inside [updateTeamScores] counts, for each of the two
    teams, the zones among A, B, C whose owner is that team; a zone whose
    owner is unset or is another team counts for neither, so the two counts
    are non-negative and sum to at most 3. *)
Theorem objective_tally_counts_owned_zones (e : Env) :
  fst (pointsHeld e) = zonesOwnedBy (GetTeam 1) e /\
  snd (pointsHeld e) = zonesOwnedBy (GetTeam 2) e /\
  0 <= fst (pointsHeld e) /\ 0 <= snd (pointsHeld e) /\
  fst (pointsHeld e) + snd (pointsHeld e) <= 3 /\
  fst (pointsHeld e) + snd (pointsHeld e)
  = 3 - Z.b2z (negb (ownerEquals (ownerOfPoint e 100) (GetTeam 1)
                     || ownerEquals (ownerOfPoint e 100) (GetTeam 2)))
      - Z.b2z (negb (ownerEquals (ownerOfPoint e 101) (GetTeam 1)
                     || ownerEquals (ownerOfPoint e 101) (GetTeam 2)))
      - Z.b2z (negb (ownerEquals (ownerOfPoint e 102) (GetTeam 1)
                     || ownerEquals (ownerOfPoint e 102) (GetTeam 2))).
Proof.
  unfold pointsHeld, zonesOwnedBy, countOwner.
  assert (Hex : forall o, ownerEquals o (GetTeam 1) = true ->
                          ownerEquals o (GetTeam 2) = false).
  { intros o H. apply ownerEquals_true in H. subst o. reflexivity. }
  destruct (ownerEquals (ownerOfPoint e 100) (GetTeam 1)) eqn:A1;
    [rewrite (Hex _ A1) | destruct (ownerEquals (ownerOfPoint e 100) (GetTeam 2))];
    (destruct (ownerEquals (ownerOfPoint e 101) (GetTeam 1)) eqn:B1;
     [rewrite (Hex _ B1) | destruct (ownerEquals (ownerOfPoint e 101) (GetTeam 2))]);
    (destruct (ownerEquals (ownerOfPoint e 102) (GetTeam 1)) eqn:C1;
     [rewrite (Hex _ C1) | destruct (ownerEquals (ownerOfPoint e 102) (GetTeam 2))]);
    cbn; repeat split; lia.
Qed.

(** X2. Scores never go down: over any number of passes of the match loop a
    side's score grows by at least 0 and at most one point per pass, and a
    timer that starts non-negative stays non-negative and grows by at most 1
    per pass. *)
Theorem scores_never_decrease (s : Side) (es : list Env) (w : World) :
  scoreOf s w <= scoreOf s (runTicks es w) <= scoreOf s w + Z.of_nat (length es) /\
  (0 <= timerOf s w ->
   0 <= timerOf s (runTicks es w) <= timerOf s w + Z.of_nat (length es)).
Proof.
  revert w. induction es as [|e es IH]; intros w.
  - simpl. lia.
  - change (runTicks (e :: es) w) with (runTicks es (matchTick e w)).
    destruct (IH (matchTick e w)) as [IHs IHt].
    destruct (updateTeamScores_side s e w) as [Hs Ht].
    destruct (matchTick_side s e w) as [Ms Mt]. rewrite <- Ms in Hs. rewrite <- Mt in Ht.
    cbn [length]. rewrite Nat2Z.inj_succ.
    destruct (awards s e w).
    + split; [lia|]. intros H0. rewrite Ht in IHt. lia.
    + split; [lia|]. intros H0. rewrite Ht in IHt. lia.
Qed.

Lemma scores_never_decrease_witness :
  let e := zonesEnv (Some 1) (Some 1) (Some 2) in
  0 <= timerOf Team2 (runTicks [e; e; e; e] freshWorld) <= 4.
Proof.
  intros e.
  destruct (scores_never_decrease Team2 [e; e; e; e] freshWorld) as [_ Ht].
  apply Ht. reflexivity.
Defined.

Lemma onlyWidgets_scoreView f w : onlyWidgets f -> scoreView (f w) = scoreView w.
Proof. intros Hf. rewrite (Hf w). reflexivity. Qed.

Lemma scoresMirrored_scoreView a b :
  scoreView a = scoreView b -> scoresMirrored a -> scoresMirrored b.
Proof.
  unfold scoreView, scoresMirrored. intros [= _ _ Hg Hm Hh]. rewrite Hg, Hm, Hh. tauto.
Qed.

Lemma updateTeamScores_mirrored e w :
  scoresMirrored w -> scoresMirrored (updateTeamScores e w).
Proof.
  intros (M1 & M2 & Mh). unfold updateTeamScores.
  destruct (pointsHeld e) as [h1 h2]. cbv zeta.
  cbn [team1ScoreTimer team2ScoreTimer withTimers].
  destruct ((0 <? getSecondsPerPoint h1) && (getSecondsPerPoint h1 <=? team1ScoreTimer w + 1));
  cbn [team1ScoreTimer team2ScoreTimer withTimers withGameState SetGameModeScore
       withGameModeScore gameState team1Score team2Score];
  destruct ((0 <? getSecondsPerPoint h2) && (getSecondsPerPoint h2 <=? team2ScoreTimer w + 1));
  cbn [team1ScoreTimer team2ScoreTimer withTimers withGameState SetGameModeScore
       withGameModeScore gameState team1Score team2Score];
  try match goal with
      | |- scoresMirrored (updateAllHudScores ?e ?x) =>
        apply (scoresMirrored_scoreView x);
          [symmetry; apply onlyWidgets_scoreView, updateAllHudScores_onlyWidgets|]
      end;
  unfold scoresMirrored, GetTeam in *; cbn;
  repeat split;
  rewrite ?lookup_insert_eq, ?(lookup_insert_ne _ 2 1), ?(lookup_insert_ne _ 1 2),
    ?lookup_insert_eq by lia;
  assumption || reflexivity.
Qed.

(** X3. The engine's team scores and the scoreboard header stay in step with
    the script's scores: once they agree, they agree after every pass of the
    match loop; and they agree, at 0 : 0 with both timers at 0, when
    [OnGameModeStarted] has done its set-up. *)
Theorem score_mirrors_stay_in_step :
  (forall e w, scoresMirrored w -> scoresMirrored (matchTick e w)) /\
  (forall es w, scoresMirrored w -> scoresMirrored (runTicks es w)) /\
  (forall e es w,
      scoresMirrored (OnGameModeStarted e es w) /\
      gameState (startOfMatch e w) = mkGameState 0 0 /\
      team1ScoreTimer (startOfMatch e w) = 0 /\
      team2ScoreTimer (startOfMatch e w) = 0).
Proof.
  assert (Htick : forall e w, scoresMirrored w -> scoresMirrored (matchTick e w)).
  { intros e w H. unfold matchTick.
    apply (scoresMirrored_scoreView (updateTeamScores e w));
      [symmetry; apply onlyWidgets_scoreView, updateAllObjectiveIcons_onlyWidgets|].
    apply updateTeamScores_mirrored. exact H. }
  assert (Hrun : forall es w, scoresMirrored w -> scoresMirrored (runTicks es w)).
  { induction es as [|e es IH]; intros w H; [exact H|].
    change (runTicks (e :: es) w) with (runTicks es (matchTick e w)).
    apply IH, Htick, H. }
  split; [exact Htick|]. split; [exact Hrun|].
  intros e es w.
  assert (Hview : scoreView (startOfMatch e w) =
                  (0, 0, mkGameState 0 0,
                   <[GetTeam 2 := 0]> (<[GetTeam 1 := 0]> (gameModeScore w)),
                   Some (MsgScore 0, MsgScore 0))).
  { unfold startOfMatch. cbv zeta.
    rewrite (initializeAllCurrentPlayers_keeps scoreView e scoreView_uiBlind). reflexivity. }
  injection Hview as H1 H2 Hg Hm Hh.
  split; [|repeat split; assumption].
  apply Hrun. unfold scoresMirrored. rewrite Hg, Hm, Hh. unfold GetTeam. cbn.
  rewrite lookup_insert_ne by lia. rewrite !lookup_insert_eq. repeat split.
Qed.

Lemma score_mirrors_stay_in_step_witness :
  scoresMirrored (startOfMatch joinEnv freshWorld) /\
  scoresMirrored
    (matchTick (snapshot (Some (GetTeam 1)) (Some (GetTeam 1)) (Some (GetTeam 1)) 1 0 false [7])
               (startOfMatch joinEnv freshWorld)).
Proof.
  assert (H0 : scoresMirrored (startOfMatch joinEnv freshWorld))
    by (repeat split; vm_compute; reflexivity).
  split; [exact H0|].
  exact (proj1 score_mirrors_stay_in_step _ _ H0).
Defined.

(** ** Who may change what *)

Lemma uiTree_dom (a b : World) : uiTree a = uiTree b -> dom (widgets a) = dom (widgets b).
Proof.
  unfold uiTree. intros H.
  rewrite <- (dom_fmap_L (fun x => (wKind x, wParent x)) (widgets a)).
  rewrite <- (dom_fmap_L (fun x => (wKind x, wParent x)) (widgets b)).
  rewrite H. reflexivity.
Qed.

Lemma playerHudMap_tolerant : panelTolerant playerHudMap.
Proof. apply panelBlind_tolerant, playerHudMap_panelBlind. Qed.

Lemma scoreView_tolerant : panelTolerant scoreView.
Proof. apply panelBlind_tolerant, scoreView_uiBlind. Qed.

Lemma rosterView_tolerant : panelTolerant rosterView.
Proof. apply panelBlind_tolerant, rosterView_uiBlind. Qed.

(** X4.  Once created, the widget tree is fixed: the match loop's pass, the
    per-player tick, a button event, an interact event, a team-switch
    notification and the second half of a redeploy leave every widget's
    existence, kind and parent as they were, and with them the HUD registry;
    no widget is added or removed at run time. *)
Theorem updates_keep_widget_tree (e : Env) (p : Z) (w : World) :
  let same := fun w' => uiTree w' = uiTree w /\ playerHudMap w' = playerHudMap w in
  same (matchTick e w) /\
  same (OngoingPlayer e p w) /\
  (forall widget ev, same (OnPlayerUIButtonEvent e p widget ev w)) /\
  (forall ip, same (OnPlayerInteract e p ip w)) /\
  same (OnPlayerSwitchTeam p w) /\
  same (resumeForceUndeploy e p w) /\
  keepsWidgetSet (matchTick e) /\
  keepsWidgetSet (OngoingPlayer e p).
Proof.
  cbv zeta. repeat split; intros.
  - apply matchTick_keeps; [apply tolerant_setters, uiTree_tolerant | apply uiTree_scoreBlind].
  - apply matchTick_keeps; [apply tolerant_setters, playerHudMap_tolerant | apply playerHudMap_scoreBlind].
  - apply OngoingPlayer_keeps, uiTree_tolerant.
  - apply OngoingPlayer_keeps, playerHudMap_tolerant.
  - apply OnPlayerUIButtonEvent_keeps; [apply uiTree_tolerant | apply uiTree_rosterBlind].
  - apply OnPlayerUIButtonEvent_keeps;
      [apply playerHudMap_tolerant | apply playerHudMap_rosterBlind].
  - apply OnPlayerInteract_keeps, uiTree_tolerant.
  - apply OnPlayerInteract_keeps, playerHudMap_tolerant.
  - apply updateTeamSwitchButtonState_keeps, tolerant_setters, uiTree_tolerant.
  - apply updateTeamSwitchButtonState_keeps, tolerant_setters, playerHudMap_tolerant.
  - apply resumeForceUndeploy_keeps, uiTree_rosterBlind.
  - apply resumeForceUndeploy_keeps, playerHudMap_rosterBlind.
  - intros w'. apply uiTree_dom.
    apply matchTick_keeps; [apply tolerant_setters, uiTree_tolerant | apply uiTree_scoreBlind].
  - intros w'. apply uiTree_dom. apply OngoingPlayer_keeps, uiTree_tolerant.
Qed.

(** X5.  Only the score clock moves the score: a player joining, the
    per-player tick, button and interact events, a team-switch notification
    and the second half of a redeploy leave both timers, both scores, the
    engine's team scores and the scoreboard header as they were. *)
Theorem player_events_leave_scores_alone (e : Env) (p : Z) (w : World) :
  scoreView (OnPlayerJoinGame e p w) = scoreView w /\
  scoreView (OngoingPlayer e p w) = scoreView w /\
  (forall widget ev, scoreView (OnPlayerUIButtonEvent e p widget ev w) = scoreView w) /\
  (forall ip, scoreView (OnPlayerInteract e p ip w) = scoreView w) /\
  scoreView (OnPlayerSwitchTeam p w) = scoreView w /\
  scoreView (resumeForceUndeploy e p w) = scoreView w.
Proof.
  repeat split; intros.
  - apply OnPlayerJoinGame_keeps_view, scoreView_uiBlind.
  - apply OngoingPlayer_keeps, scoreView_tolerant.
  - apply OnPlayerUIButtonEvent_keeps; [apply scoreView_tolerant | apply scoreView_rosterBlind].
  - apply OnPlayerInteract_keeps, scoreView_tolerant.
  - apply updateTeamSwitchButtonState_keeps, tolerant_setters, scoreView_tolerant.
  - apply resumeForceUndeploy_keeps, scoreView_rosterBlind.
Qed.

(** X6.  The script changes a team or orders a redeploy nowhere but in the
    button handler: match start with any number of loop passes, a join, the
    per-player tick, an interact event and a team-switch notification leave
    every player's team and the list of redeploy commands as they were. *)
Theorem teams_change_only_in_button_handler (e : Env) (es : list Env) (p : Z) (w : World) :
  rosterView (OnGameModeStarted e es w) = rosterView w /\
  rosterView (matchTick e w) = rosterView w /\
  rosterView (OnPlayerJoinGame e p w) = rosterView w /\
  rosterView (OngoingPlayer e p w) = rosterView w /\
  (forall ip, rosterView (OnPlayerInteract e p ip w) = rosterView w) /\
  rosterView (OnPlayerSwitchTeam p w) = rosterView w.
Proof.
  repeat split; intros.
  - unfold OnGameModeStarted.
    rewrite runTicks_keeps
      by (apply tolerant_setters, rosterView_tolerant || apply rosterView_scoreBlind).
    unfold startOfMatch. cbv zeta.
    rewrite initializeAllCurrentPlayers_keeps by apply rosterView_uiBlind.
    reflexivity.
  - apply matchTick_keeps; [apply tolerant_setters, rosterView_tolerant | apply rosterView_scoreBlind].
  - apply OnPlayerJoinGame_keeps_view, rosterView_uiBlind.
  - apply OngoingPlayer_keeps, rosterView_tolerant.
  - apply OnPlayerInteract_keeps, rosterView_tolerant.
  - apply updateTeamSwitchButtonState_keeps, tolerant_setters, rosterView_tolerant.
Qed.

(** ** The team-switch panel and the cursor *)

Lemma fmap_insert_same_flag (m : gmap Z PlayerTeamSwitchUi) p ui ui' :
  m !! p = Some ui -> panelVisible ui' = panelVisible ui ->
  panelVisible <$> <[p := ui']> m = panelVisible <$> m.
Proof.
  intros Hm Hv. apply map_eq. intros i. rewrite !lookup_fmap.
  destruct (decide (p = i)) as [<-|Hne].
  - rewrite lookup_insert_eq, Hm. simpl. rewrite Hv. reflexivity.
  - rewrite lookup_insert_ne by exact Hne. reflexivity.
Qed.

Lemma modePair_cursor a b q :
  modePair a = modePair b -> cursorFollowsPanel b q -> cursorFollowsPanel a q.
Proof.
  unfold modePair, cursorFollowsPanel, panelShownFor. intros H Hb.
  injection H as Hm Hf. rewrite Hm. rewrite <- lookup_fmap, Hf, lookup_fmap. exact Hb.
Qed.

Lemma modePair_setterBlind : setterBlind modePair.
Proof. repeat split. Qed.

Lemma modePair_scoreBlind : scoreBlind modePair.
Proof. repeat split. Qed.

Lemma modePair_rosterBlind : rosterBlind modePair.
Proof. repeat split. Qed.

Lemma setTeamSwitchPanelVisible_cursor e p v w q :
  cursorFollowsPanel w q -> cursorFollowsPanel (setTeamSwitchPanelVisible e p v w) q.
Proof.
  intros H. destruct (playerTeamSwitchUiMap w !! p) as [ui|] eqn:Hui.
  - destruct (setTeamSwitchPanelVisible_fields e p v w ui Hui) as (Hmap & Hmode & _).
    unfold cursorFollowsPanel, panelShownFor. rewrite Hmap, Hmode.
    destruct (decide (p = q)) as [<-|Hne].
    + rewrite !lookup_insert_eq. reflexivity.
    + rewrite !lookup_insert_ne by exact Hne. exact H.
  - unfold setTeamSwitchPanelVisible. rewrite Hui. exact H.
Qed.

Lemma manageInteractPoint_modePair e p w :
  modePair (manageInteractPoint e p w) = modePair w.
Proof.
  unfold manageInteractPoint, ensureTeamSwitchInteractPoint,
    removeTeamSwitchInteractPoint, modePair.
  destruct (isLikelyDeployed e p); cbn [negb].
  - destruct (isPlayerValid e p); cbn [negb]; [|reflexivity].
    destruct (playerTeamSwitchUiMap w !! p) as [ui|] eqn:Hui; [|reflexivity].
    destruct (interactPoint ui); [reflexivity|].
    destruct (hasPose e p); cbn [negb]; [|reflexivity].
    cbn. f_equal. apply (fmap_insert_same_flag _ p ui); [exact Hui | reflexivity].
  - destruct (playerTeamSwitchUiMap w !! p) as [ui|] eqn:Hui; [|reflexivity].
    destruct (interactPoint ui) as [ip|]; [|reflexivity].
    rewrite cleanUpInteractPoint_frame.
    cbn. f_equal. apply (fmap_insert_same_flag _ p ui); [exact Hui | reflexivity].
Qed.

Lemma timeoutCheck_cursor e p x q :
  cursorFollowsPanel x q ->
  cursorFollowsPanel
    (match playerTeamSwitchUiMap x !! p with
     | Some ui =>
       if panelVisible ui
          && (matchTimeElapsed e - panelOpenedAt ui >? 15)%num
       then setTeamSwitchPanelVisible e p false x
       else x
     | None => x
     end) q.
Proof.
  intros H. destruct (playerTeamSwitchUiMap x !! p) as [ui|]; [|exact H].
  destruct (_ && _); [|exact H]. apply setTeamSwitchPanelVisible_cursor, H.
Qed.

Lemma OngoingPlayer_cursor e p w q :
  cursorFollowsPanel w q -> cursorFollowsPanel (OngoingPlayer e p w) q.
Proof.
  intros H. destruct (isPlayerValid e p) eqn:Hv.
  - rewrite (OngoingPlayer_valid e p w Hv). cbv zeta.
    eapply modePair_cursor; [apply manageInteractPoint_modePair|].
    apply timeoutCheck_cursor.
    assert (H1 : cursorFollowsPanel (pollWorld e p w) q)
      by (rewrite checkMultiClick_frame; exact H).
    destruct (pollFires e p w); [|exact H1].
    destruct (playerTeamSwitchUiMap (pollWorld e p w) !! p) as [ui|]; [|exact H1].
    apply setTeamSwitchPanelVisible_cursor, H1.
  - unfold OngoingPlayer. rewrite Hv. exact H.
Qed.

Lemma OnPlayerUIButtonEvent_cursor e p widget ev w q :
  cursorFollowsPanel w q -> cursorFollowsPanel (OnPlayerUIButtonEvent e p widget ev w) q.
Proof.
  intros H.
  assert (Hsw : forall t, cursorFollowsPanel (forceUndeployPlayer e p
                 (setTeamSwitchPanelVisible e p false
                   (updateTeamSwitchButtonState p (SetTeam p t w)))) q).
  { intros t.
    eapply modePair_cursor;
      [apply (forceUndeployPlayer_keeps modePair e p modePair_rosterBlind)|].
    apply setTeamSwitchPanelVisible_cursor.
    eapply modePair_cursor;
      [apply (updateTeamSwitchButtonState_keeps modePair p modePair_setterBlind)|].
    exact H. }
  unfold OnPlayerUIButtonEvent. cbv zeta.
  destruct (_ && _); [exact H|].
  destruct (playerTeamSwitchUiMap w !! p) as [ui|]; [|exact H].
  destruct (negb (panelVisible ui)); [exact H|].
  destruct (isButtonClick _ _ _ _ _).
  { destruct (negb _); [exact H|]. apply setTeamSwitchPanelVisible_cursor, H. }
  destruct (isButtonClick _ _ _ _ _).
  { destruct (negb _); [exact H|]. apply Hsw. }
  destruct (isButtonClick _ _ _ _ _); [|exact H].
  destruct (negb _); [exact H|]. apply Hsw.
Qed.

Lemma processInteractTap_cursor e p w q :
  cursorFollowsPanel w q -> cursorFollowsPanel (processInteractTap e p w) q.
Proof.
  intros H. unfold processInteractTap.
  destruct (playerTeamSwitchUiMap w !! p) as [ui|] eqn:Hui; [|exact H]. cbv zeta.
  assert (Hm : forall ui', panelVisible ui' = panelVisible ui ->
               cursorFollowsPanel
                 (withTeamSwitchUiMap w (<[p := ui']> (playerTeamSwitchUiMap w))) q).
  { intros ui' Hv. apply (modePair_cursor _ w q); [|exact H].
    unfold modePair. cbn. f_equal. apply (fmap_insert_same_flag _ p ui); assumption. }
  destruct (3 <=? _).
  - apply setTeamSwitchPanelVisible_cursor, Hm. reflexivity.
  - apply Hm. reflexivity.
Qed.

Lemma OnPlayerInteract_cursor e p ip w q :
  cursorFollowsPanel w q -> cursorFollowsPanel (OnPlayerInteract e p ip w) q.
Proof.
  intros H. unfold OnPlayerInteract.
  destruct (playerTeamSwitchUiMap w !! p) as [ui|]; [|exact H].
  destruct (interactPoint ui); [|exact H].
  destruct (negb _); [exact H|]. apply processInteractTap_cursor, H.
Qed.

(** What [createTeamSwitchUi] does to the registry: nothing, or one new entry
    under the player's id. *)
Lemma createTeamSwitchUi_registry e p w :
  playerTeamSwitchUiMap (createTeamSwitchUi e p w) = playerTeamSwitchUiMap w \/
  playerTeamSwitchUiMap w !! p = None /\
  playerTeamSwitchUiMap (createTeamSwitchUi e p w) =
    <[p := teamSwitchNames p]> (playerTeamSwitchUiMap w).
Proof.
  unfold createTeamSwitchUi.
  destruct (playerTeamSwitchUiMap w !! p) eqn:Hp; [left; reflexivity|]. cbv zeta.
  set (w2 := AddUIContainer e _ _ _ _ (AddUIText e _ _ _ _ _ w)).
  assert (Hw : forall (x : World) m,
             playerTeamSwitchUiMap (withWidgets x m) = playerTeamSwitchUiMap x)
    by reflexivity.
  assert (H2 : playerTeamSwitchUiMap w2 = playerTeamSwitchUiMap w).
  { unfold w2.
    rewrite (keeps_onlyWidgets _ _ Hw (AddUIContainer_onlyWidgets e _ _ _ _)).
    apply (keeps_onlyWidgets _ _ Hw (AddUIText_onlyWidgets e _ _ _ _ _)). }
  destruct (FindUIWidgetWithName w2 _) as [panel|]; [right; split; [reflexivity|] | left; exact H2].
  rewrite (keeps_onlyWidgets _ _ Hw (updateTeamSwitchButtonState_onlyWidgets p)).
  rewrite !(keeps_onlyWidgets _ _ Hw (whenFound_onlyWidgets _ _ enableBothEvents_onlyWidgets)).
  cbn [playerTeamSwitchUiMap withTeamSwitchUiMap].
  match goal with
  | |- <[_ := _]> (playerTeamSwitchUiMap (fold_left _ ?steps w2)) = _ =>
    rewrite (keeps_onlyWidgets _ _ Hw (onlyWidgets_steps steps
      ltac:(repeat (apply Forall_cons; split;
                    [first [apply AddUIText_onlyWidgets | apply AddUIButton_onlyWidgets]|]);
            apply Forall_nil_2)))
  end.
  rewrite H2. reflexivity.
Qed.

Lemma createTeamSwitchUi_cursor e p w q :
  cursorFollowsPanel w q -> cursorFollowsPanel (createTeamSwitchUi e p w) q.
Proof.
  intros H. unfold cursorFollowsPanel, panelShownFor in *.
  rewrite (createTeamSwitchUi_keeps_of uiInputMode e p) by reflexivity.
  destruct (createTeamSwitchUi_registry e p w) as [-> | [Hnone ->]]; [exact H|].
  destruct (decide (p = q)) as [<-|Hne].
  - rewrite lookup_insert_eq. rewrite Hnone in H. exact H.
  - rewrite lookup_insert_ne by exact Hne. exact H.
Qed.

Lemma OnPlayerJoinGame_cursor e p w q :
  cursorFollowsPanel w q -> cursorFollowsPanel (OnPlayerJoinGame e p w) q.
Proof.
  intros H. unfold OnPlayerJoinGame, initializePlayerState.
  eapply modePair_cursor;
    [apply (updateAllObjectiveIcons_keeps modePair e modePair_setterBlind)|].
  eapply modePair_cursor;
    [apply (updateAllHudScores_keeps modePair e modePair_setterBlind)|].
  assert (He : forall x, cursorFollowsPanel x q ->
               cursorFollowsPanel (ensureTeamSwitchInteractPoint e p x) q).
  { intros x Hx. destruct (isLikelyDeployed e p) eqn:Hd.
    - pose proof (manageInteractPoint_modePair e p x) as Hm.
      unfold manageInteractPoint in Hm. rewrite Hd in Hm.
      exact (modePair_cursor _ _ q Hm Hx).
    - unfold ensureTeamSwitchInteractPoint. rewrite Hd.
      destruct (negb (isPlayerValid e p)); exact Hx. }
  apply He. apply createTeamSwitchUi_cursor.
  eapply modePair_cursor; [|exact H].
  apply (createHUD_keeps_of modePair e p); reflexivity.
Qed.

(** X7.  The cursor follows the panel: a player's UI input mode is on exactly
    when that player's panel is flagged visible, and every entry point that
    runs during a match keeps it so, for the acting player and for every
    other one; showing or hiding the panel of a player with a registry entry
    makes it so for that player. *)
Theorem cursor_mode_follows_panel (e : Env) (p q : Z) (w : World) :
  cursorFollowsPanel w q ->
  cursorFollowsPanel (OngoingPlayer e p w) q /\
  (forall widget ev, cursorFollowsPanel (OnPlayerUIButtonEvent e p widget ev w) q) /\
  (forall ip, cursorFollowsPanel (OnPlayerInteract e p ip w) q) /\
  cursorFollowsPanel (OnPlayerJoinGame e p w) q /\
  cursorFollowsPanel (matchTick e w) q /\
  cursorFollowsPanel (OnPlayerSwitchTeam p w) q /\
  (forall v, cursorFollowsPanel (setTeamSwitchPanelVisible e p v w) q) /\
  (forall v, is_Some (playerTeamSwitchUiMap w !! q) ->
             uiInputMode (setTeamSwitchPanelVisible e q v w) !! q = Some v /\
             panelShownFor (setTeamSwitchPanelVisible e q v w) q = Some v).
Proof.
  intros H. repeat split; intros.
  - apply OngoingPlayer_cursor, H.
  - apply OnPlayerUIButtonEvent_cursor, H.
  - apply OnPlayerInteract_cursor, H.
  - apply OnPlayerJoinGame_cursor, H.
  - eapply modePair_cursor; [|exact H].
    apply (matchTick_keeps modePair e modePair_setterBlind modePair_scoreBlind).
  - eapply modePair_cursor; [|exact H].
    apply (updateTeamSwitchButtonState_keeps modePair p modePair_setterBlind).
  - apply setTeamSwitchPanelVisible_cursor, H.
  - destruct H0 as [ui Hui].
    destruct (setTeamSwitchPanelVisible_fields e q v w ui Hui) as (_ & Hmode & _).
    rewrite Hmode. apply lookup_insert_eq.
  - destruct H0 as [ui Hui].
    destruct (setTeamSwitchPanelVisible_fields e q v w ui Hui) as (Hmap & _).
    unfold panelShownFor. rewrite Hmap, lookup_insert_eq. reflexivity.
Qed.

(** Player 7 has joined and the panel is closed; the tick at 11 s keeps the
    cursor in step with the panel. *)
Lemma cursor_mode_follows_panel_witness :
  cursorFollowsPanel joinedWorld 7 /\
  cursorFollowsPanel (OngoingPlayer (atTime 11) 7 joinedWorld) 7.
Proof.
  assert (H : cursorFollowsPanel joinedWorld 7) by (vm_compute; reflexivity).
  split; [exact H|].
  exact (proj1 (cursor_mode_follows_panel (atTime 11) 7 7 joinedWorld H)).
Defined.

Lemma pollWorld_registry e p w :
  playerTeamSwitchUiMap (pollWorld e p w) = playerTeamSwitchUiMap w.
Proof. rewrite checkMultiClick_frame. reflexivity. Qed.

Lemma timeoutCheck_state e p x :
  panelStateOf
    (match playerTeamSwitchUiMap x !! p with
     | Some ui =>
       if panelVisible ui
          && (matchTimeElapsed e - panelOpenedAt ui >? 15)%num
       then setTeamSwitchPanelVisible e p false x
       else x
     | None => x
     end) p = timeoutStep (matchTimeElapsed e) (panelStateOf x p).
Proof.
  destruct (playerTeamSwitchUiMap x !! p) as [ui|] eqn:Hui.
  - rewrite (panelStateOf_entry x p ui Hui). cbn [timeoutStep].
    unfold overdue.
    destruct (panelVisible ui) eqn:Hvis; cbn [andb].
    + destruct (_ >? _)%num.
      * destruct (setTeamSwitchPanelVisible_fields e p false x ui Hui) as (Hmap & _).
        unfold panelStateOf. rewrite Hmap, lookup_insert_eq. reflexivity.
      * rewrite (panelStateOf_entry x p ui Hui), Hvis. reflexivity.
    + rewrite (panelStateOf_entry x p ui Hui), Hvis. reflexivity.
  - unfold panelStateOf. rewrite Hui. reflexivity.
Qed.

Lemma timeoutStep_toggled now s :
  timeoutStep now (toggleStep now s) = toggleStep now s.
Proof.
  destruct s as [[[] t]|]; cbn [toggleStep timeoutStep negb]; try reflexivity.
  unfold overdue. rewrite overdue_self. reflexivity.
Qed.

(** X8.  What one tick of a valid player does to that player's panel: when
    the detector reports a completed gesture the panel is toggled (opened
    with the present match time as its opening time, or closed), overdue or
    not; otherwise an open panel is closed exactly when the script's test
    finds it overdue, that is when the difference of the match time and the
    opening time, rounded to a double, is above 15, and anything else stays
    as it is.  The tick of a player the engine does not hold valid changes
    nothing. *)
Theorem tick_toggles_or_times_out (e : Env) (p : Z) (w : World) :
  (isPlayerValid e p = true ->
   panelStateOf (OngoingPlayer e p w) p =
     if pollFires e p w
     then toggleStep (matchTimeElapsed e) (panelStateOf w p)
     else timeoutStep (matchTimeElapsed e) (panelStateOf w p)) /\
  (isPlayerValid e p = false -> OngoingPlayer e p w = w) /\
  (forall now openedAt,
      timeoutStep now (Some (true, openedAt)) =
      if (now - openedAt >? 15)%num
      then Some (false, (-1000)%num)
      else Some (true, openedAt)) /\
  (forall now s, fst <$> s <> Some true -> timeoutStep now s = s).
Proof.
  split; [|split; [|split]].
  - intros Hv. rewrite (OngoingPlayer_valid e p w Hv). cbv zeta.
    match goal with
    | |- context [manageInteractPoint e p ?x] =>
      destruct (manageInteractPoint_frame e p x) as (Hps & _)
    end.
    rewrite Hps, timeoutCheck_state. clear Hps.
    assert (Hs1 : panelStateOf (pollWorld e p w) p = panelStateOf w p)
      by (unfold panelStateOf; rewrite pollWorld_registry; reflexivity).
    destruct (pollFires e p w); [|rewrite Hs1; reflexivity].
    rewrite <- Hs1.
    destruct (playerTeamSwitchUiMap (pollWorld e p w) !! p) as [ui|] eqn:Hui.
    + destruct (setTeamSwitchPanelVisible_fields e p (negb (panelVisible ui)) _ ui Hui)
        as (Hmap & _).
      assert (Ht : panelStateOf
                     (setTeamSwitchPanelVisible e p (negb (panelVisible ui)) (pollWorld e p w)) p
                   = toggleStep (matchTimeElapsed e) (panelStateOf (pollWorld e p w) p)).
      { unfold panelStateOf at 1. rewrite Hmap, lookup_insert_eq.
        rewrite (panelStateOf_entry _ p ui Hui). reflexivity. }
      rewrite Ht. apply timeoutStep_toggled.
    + unfold panelStateOf. rewrite Hui. reflexivity.
  - intros Hv. unfold OngoingPlayer. rewrite Hv. reflexivity.
  - intros now openedAt. reflexivity.
  - intros now [[[] t]|] Hs; try reflexivity. exfalso. apply Hs. reflexivity.
Qed.

(** Player 7's panel has been open since 10 s; the tick at 26 s, without a
    gesture, closes it, and the tick at 25 s does not.  A panel opened at
    0.3 s is left open by the tick at 15.3 s: the difference of the two
    doubles rounds to 15.  The tick of a player the engine has dropped does
    nothing. *)
Lemma tick_toggles_or_times_out_witness :
  let w := setTeamSwitchPanelVisible (atTime 0.3) 7 true joinedWorld in
  panelStateOf (OngoingPlayer (atTime 26) 7 panelOpenWorld) 7 = Some (false, (-1000)%num) /\
  panelStateOf (OngoingPlayer (atTime 25) 7 panelOpenWorld) 7 = Some (true, 10%num) /\
  panelStateOf (OngoingPlayer (atTime 15.3) 7 w) 7 = Some (true, 0.3%num) /\
  OngoingPlayer (goneAt 26) 7 panelOpenWorld = panelOpenWorld.
Proof.
  intros w. split; [|split; [|split]].
  - rewrite (proj1 (tick_toggles_or_times_out (atTime 26) 7 panelOpenWorld)
               ltac:(reflexivity)).
    vm_compute. reflexivity.
  - rewrite (proj1 (tick_toggles_or_times_out (atTime 25) 7 panelOpenWorld)
               ltac:(reflexivity)).
    vm_compute. reflexivity.
  - rewrite (proj1 (tick_toggles_or_times_out (atTime 15.3) 7 w) ltac:(reflexivity)).
    vm_compute. reflexivity.
  - apply (proj1 (proj2 (tick_toggles_or_times_out (goneAt 26) 7 panelOpenWorld))).
    reflexivity.
Defined.

(** *** Showing and hiding the panel *)

Lemma isVisible_alter_same f h w name :
  (forall x, wVisible (f x) = wVisible x) ->
  isVisible (withWidgets w (alter f h (widgets w))) name = isVisible w name.
Proof.
  intros Hf. unfold isVisible. cbn [widgets withWidgets]. rewrite lookup_alter.
  destruct (decide (h = name)) as [->|]; [|reflexivity].
  destruct (widgets w !! name); simpl; [apply Hf | reflexivity].
Qed.

Lemma isVisible_whenFound_enable h w name :
  isVisible (whenFound h (fun y => SetUIButtonEnabled y true) w) name = isVisible w name.
Proof. destruct h; [apply isVisible_alter_same|]; reflexivity. Qed.

Lemma isVisible_updateTeamSwitchButtonState p w name :
  isVisible (updateTeamSwitchButtonState p w) name = isVisible w name.
Proof.
  unfold updateTeamSwitchButtonState.
  destruct (playerTeamSwitchUiMap w !! p) as [ui|]; [|reflexivity].
  destruct (FindUIWidgetWithName w (team1ButtonName ui)); [|reflexivity].
  destruct (FindUIWidgetWithName w (team2ButtonName ui)); [|reflexivity].
  unfold SetUIButtonEnabled at 1. rewrite isVisible_alter_same by reflexivity.
  apply isVisible_alter_same. reflexivity.
Qed.

Lemma setTeamSwitchPanelVisible_isVisible e p v w ui name :
  playerTeamSwitchUiMap w !! p = Some ui ->
  isVisible (setTeamSwitchPanelVisible e p v w) name =
  isVisible (setVisibleAll w v (panelWidgetNames ui) w) name.
Proof.
  intros Hui. unfold setTeamSwitchPanelVisible. rewrite Hui. cbv zeta.
  change (whenFound (FindUIWidgetWithName w (closeTextName ui))
            (fun x => SetUIWidgetVisible x v) _)
    with (setVisibleAll w v (panelWidgetNames ui) w).
  destruct v; [|reflexivity].
  rewrite isVisible_updateTeamSwitchButtonState, !isVisible_whenFound_enable.
  reflexivity.
Qed.

Lemma isVisible_set_stays h v w name :
  isVisible w name = v -> isVisible (SetUIWidgetVisible h v w) name = v.
Proof.
  intros H. unfold isVisible, SetUIWidgetVisible in *. cbn [widgets withWidgets].
  rewrite lookup_alter. destruct (decide (h = name)) as [->|Hne]; [|exact H].
  destruct (widgets w !! name); [reflexivity | exact H].
Qed.

Lemma setVisibleAll_stays w0 v names : forall w name,
  isVisible w name = v -> isVisible (setVisibleAll w0 v names w) name = v.
Proof.
  induction names as [|n names IH]; intros w name H; [exact H|].
  apply IH. unfold setVisibleIfFound, whenFound.
  destruct (FindUIWidgetWithName w0 n); [apply isVisible_set_stays|]; exact H.
Qed.

Lemma setVisibleAll_exists w0 v names : forall w x,
  is_Some (widgets (setVisibleAll w0 v names w) !! x) <-> is_Some (widgets w !! x).
Proof.
  induction names as [|n names IH]; intros w x; [reflexivity|].
  etransitivity; [apply IH | apply setVisibleIfFound_exists].
Qed.

Lemma setVisibleAll_in w0 v names : forall w name,
  is_Some (widgets w0 !! name) -> is_Some (widgets w !! name) ->
  In name names ->
  isVisible (setVisibleAll w0 v names w) name = v.
Proof.
  induction names as [|n names IH]; intros w name H0 Hw Hin; [destruct Hin|].
  change (setVisibleAll w0 v (n :: names) w)
    with (setVisibleAll w0 v names (setVisibleIfFound w0 v n w)).
  destruct (decide (n = name)) as [->|Hne].
  - apply setVisibleAll_stays. unfold setVisibleIfFound, whenFound.
    rewrite (FindUIWidgetWithName_found w0 name H0).
    apply isVisible_set_eq, Hw.
  - destruct Hin as [?|Hin]; [contradiction|].
    apply IH; [exact H0 | apply setVisibleIfFound_exists; exact Hw | exact Hin].
Qed.

Lemma setVisibleAll_notin w0 v names : forall w name,
  ~ In name names ->
  isVisible (setVisibleAll w0 v names w) name = isVisible w name.
Proof.
  induction names as [|n names IH]; intros w name Hin; [reflexivity|].
  change (setVisibleAll w0 v (n :: names) w)
    with (setVisibleAll w0 v names (setVisibleIfFound w0 v n w)).
  rewrite IH by (intros H; apply Hin; right; exact H).
  unfold setVisibleIfFound, whenFound.
  destruct (FindUIWidgetWithName w0 n) as [h|] eqn:Hf; [|reflexivity].
  apply FindUIWidgetWithName_Some in Hf as [-> _].
  apply isVisible_set_ne. intros ->. apply Hin. left. reflexivity.
Qed.

Lemma buttonEnabled_enable_mono h w x :
  buttonEnabled w x = true -> buttonEnabled (SetUIButtonEnabled h true w) x = true.
Proof.
  intros H. unfold buttonEnabled, SetUIButtonEnabled in *. cbn [widgets withWidgets].
  rewrite lookup_alter. destruct (decide (h = x)) as [->|]; [|exact H].
  destruct (widgets w !! x); [reflexivity | discriminate].
Qed.

Lemma buttonEnabled_enable_self h w :
  is_Some (widgets w !! h) -> buttonEnabled (SetUIButtonEnabled h true w) h = true.
Proof.
  intros [y Hy]. unfold buttonEnabled, SetUIButtonEnabled. cbn [widgets withWidgets].
  rewrite lookup_alter_eq, Hy. reflexivity.
Qed.

Lemma whenFound_enable_mono h w x :
  buttonEnabled w x = true ->
  buttonEnabled (whenFound h (fun y => SetUIButtonEnabled y true) w) x = true.
Proof. intros H. destruct h; [apply buttonEnabled_enable_mono|]; exact H. Qed.

Lemma whenFound_enable_exists h w x :
  is_Some (widgets (whenFound h (fun y => SetUIButtonEnabled y true) w) !! x) <->
  is_Some (widgets w !! x).
Proof.
  destruct h; [|reflexivity]. unfold whenFound, SetUIButtonEnabled.
  cbn [widgets withWidgets]. rewrite lookup_alter_is_Some. reflexivity.
Qed.

Lemma whenFound_enable_self w0 w x :
  is_Some (widgets w0 !! x) -> is_Some (widgets w !! x) ->
  buttonEnabled (whenFound (FindUIWidgetWithName w0 x) (fun y => SetUIButtonEnabled y true) w) x
  = true.
Proof.
  intros H0 Hw. rewrite (FindUIWidgetWithName_found w0 x H0).
  apply buttonEnabled_enable_self, Hw.
Qed.

Lemma updateTeamSwitchButtonState_mono p w x :
  buttonEnabled w x = true -> buttonEnabled (updateTeamSwitchButtonState p w) x = true.
Proof.
  intros H. unfold updateTeamSwitchButtonState.
  destruct (playerTeamSwitchUiMap w !! p) as [ui|]; [|exact H].
  destruct (FindUIWidgetWithName w (team1ButtonName ui)); [|exact H].
  destruct (FindUIWidgetWithName w (team2ButtonName ui)); [|exact H].
  apply buttonEnabled_enable_mono, buttonEnabled_enable_mono, H.
Qed.

Lemma setTeamSwitchPanelVisible_enables e p w ui name :
  playerTeamSwitchUiMap w !! p = Some ui ->
  In name [team1ButtonName ui; team2ButtonName ui; closeButtonName ui] ->
  is_Some (widgets w !! name) ->
  buttonEnabled (setTeamSwitchPanelVisible e p true w) name = true.
Proof.
  intros Hui Hin Hex. unfold setTeamSwitchPanelVisible. rewrite Hui. cbv zeta.
  change (whenFound (FindUIWidgetWithName w (closeTextName ui))
            (fun x => SetUIWidgetVisible x true) _)
    with (setVisibleAll w true (panelWidgetNames ui) w).
  apply updateTeamSwitchButtonState_mono.
  set (w3 := EnableUIInputMode true p _).
  assert (H3 : is_Some (widgets w3 !! name)).
  { unfold w3. cbn [widgets EnableUIInputMode withUiInputMode withTeamSwitchUiMap].
    apply setVisibleAll_exists. exact Hex. }
  destruct Hin as [<- | [<- | [<- | []]]].
  - apply whenFound_enable_mono, whenFound_enable_mono.
    apply whenFound_enable_self; assumption.
  - apply whenFound_enable_mono. apply whenFound_enable_self; [exact Hex|].
    apply whenFound_enable_exists. exact H3.
  - apply whenFound_enable_self; [exact Hex|].
    apply whenFound_enable_exists, whenFound_enable_exists. exact H3.
Qed.

(** X9.  [setTeamSwitchPanelVisible] for a player with a registry entry sets
    each of the panel's eight widgets that exists to the requested
    visibility and no other widget's (the hint line stays as it is); showing
    also enables the three buttons; the tap counter, the interact point and
    every other player's entry and input mode are left alone.  For a player
    without an entry the call does nothing. *)
Theorem panel_switch_sets_its_widgets (e : Env) (p : Z) (v : bool) (w : World) :
  (forall ui, playerTeamSwitchUiMap w !! p = Some ui ->
     let w' := setTeamSwitchPanelVisible e p v w in
     (forall name, In name (panelWidgetNames ui) -> is_Some (widgets w !! name) ->
                   isVisible w' name = v) /\
     (forall name, ~ In name (panelWidgetNames ui) -> isVisible w' name = isVisible w name) /\
     (v = true ->
      forall name, In name [team1ButtonName ui; team2ButtonName ui; closeButtonName ui] ->
                   is_Some (widgets w !! name) -> buttonEnabled w' name = true) /\
     tapStateOf w' p = tapStateOf w p /\
     interactPointOf w' p = interactPointOf w p /\
     (forall q, q <> p ->
                playerTeamSwitchUiMap w' !! q = playerTeamSwitchUiMap w !! q /\
                uiInputMode w' !! q = uiInputMode w !! q)) /\
  (playerTeamSwitchUiMap w !! p = None -> setTeamSwitchPanelVisible e p v w = w).
Proof.
  split.
  - intros ui Hui w'. subst w'.
    destruct (setTeamSwitchPanelVisible_fields e p v w ui Hui) as (Hmap & Hmode & _).
    split; [|split; [|split; [|split; [|split]]]].
    + intros name Hin Hex. rewrite (setTeamSwitchPanelVisible_isVisible e p v w ui name Hui).
      apply setVisibleAll_in; assumption.
    + intros name Hin. rewrite (setTeamSwitchPanelVisible_isVisible e p v w ui name Hui).
      apply setVisibleAll_notin. exact Hin.
    + intros -> name Hin Hex. apply (setTeamSwitchPanelVisible_enables e p w ui); assumption.
    + unfold tapStateOf. rewrite Hmap, lookup_insert_eq, Hui. reflexivity.
    + unfold interactPointOf. rewrite Hmap, lookup_insert_eq, Hui. reflexivity.
    + intros q Hne. rewrite Hmap, Hmode.
      rewrite !lookup_insert_ne by congruence. split; reflexivity.
  - intros Hnone. unfold setTeamSwitchPanelVisible. rewrite Hnone. reflexivity.
Qed.

(** Player 7 has joined: showing the panel makes the team-2 button visible
    and enabled and leaves the hint line visible; with no entry for player
    8 the call for player 8 changes nothing. *)
Lemma panel_switch_sets_its_widgets_witness :
  isVisible panelOpenWorld (named "HUD_TEAM_SWITCH_T2_" 7) = true /\
  buttonEnabled panelOpenWorld (named "HUD_TEAM_SWITCH_T2_" 7) = true /\
  isVisible panelOpenWorld (named "HUD_TEAM_SWITCH_HINT_" 7) = true /\
  setTeamSwitchPanelVisible (atTime 10) 8 true joinedWorld = joinedWorld.
Proof.
  destruct (panel_switch_sets_its_widgets (atTime 10) 7 true joinedWorld) as [Hshow _].
  destruct (Hshow (setInteractPoint (Some 9007) (teamSwitchNames 7)) ltac:(vm_compute; reflexivity))
    as (Hin & Hout & Hen & _).
  split; [|split; [|split]].
  - apply Hin; [vm_compute; tauto | vm_compute; eauto].
  - apply (Hen eq_refl); [vm_compute; tauto | vm_compute; eauto].
  - unfold panelOpenWorld. rewrite Hout; [vm_compute; reflexivity|].
    vm_compute. intros H. repeat (destruct H as [H|H]; [discriminate H|]). exact H.
  - apply (proj2 (panel_switch_sets_its_widgets (atTime 10) 8 true joinedWorld)).
    vm_compute. reflexivity.
Defined.

(** ** Button events: which ones act, and what they do *)

Lemma OnPlayerUIButtonEvent_not_release e p widget ev w :
  ev <> ButtonUp -> OnPlayerUIButtonEvent e p widget ev w = w.
Proof.
  intros Hev. destruct ev; try reflexivity.
  - apply OnPlayerUIButtonEvent_down.
  - contradiction.
Qed.

Lemma OnPlayerUIButtonEvent_release e p widget w ui :
  playerTeamSwitchUiMap w !! p = Some ui ->
  panelVisible ui = true ->
  OnPlayerUIButtonEvent e p widget ButtonUp w =
  if isCloseClick w ui widget then setTeamSwitchPanelVisible e p false w
  else if isTeam1Click w ui widget then
    forceUndeployPlayer e p
      (setTeamSwitchPanelVisible e p false
         (updateTeamSwitchButtonState p (SetTeam p (GetTeam 1) w)))
  else if isTeam2Click w ui widget then
    forceUndeployPlayer e p
      (setTeamSwitchPanelVisible e p false
         (updateTeamSwitchButtonState p (SetTeam p (GetTeam 2) w)))
  else w.
Proof.
  intros Hui Hvis. unfold OnPlayerUIButtonEvent, isCloseClick, isTeam1Click, isTeam2Click.
  cbn [negb andb]. rewrite Hui, Hvis. reflexivity.
Qed.

(** The four steps a release on a team button runs, for team [t]. *)
Lemma switchTeam_effects e p t w ui :
  playerTeamSwitchUiMap w !! p = Some ui ->
  let w' := forceUndeployPlayer e p
              (setTeamSwitchPanelVisible e p false
                 (updateTeamSwitchButtonState p (SetTeam p t w))) in
  GetPlayerTeam w' p = t /\
  (forall q, q <> p -> GetPlayerTeam w' q = GetPlayerTeam w q) /\
  panelShownFor w' p = Some false /\
  uiInputMode w' !! p = Some false /\
  (forall name, In name (panelWidgetNames ui) -> isVisible w' name = false) /\
  (isPlayerValid e p = true ->
   undeployCalls w' = undeployCalls w ++ [p] /\
   undeployPending w' = undeployPending w ++ [p]) /\
  (isPlayerValid e p = false ->
   undeployCalls w' = undeployCalls w /\ undeployPending w' = undeployPending w).
Proof.
  intros Hui w'. subst w'.
  set (wA := SetTeam p t w).
  set (wB := updateTeamSwitchButtonState p wA).
  assert (HB : wB = withWidgets wA (widgets wB))
    by apply updateTeamSwitchButtonState_onlyWidgets.
  assert (HuiB : playerTeamSwitchUiMap wB !! p = Some ui)
    by (rewrite HB; exact Hui).
  destruct (setTeamSwitchPanelVisible_fields e p false wB ui HuiB)
    as (Hmap & Hmode & Hteams & Hcalls & Hpending & _).
  destruct (setTeamSwitchPanelVisible_hides e p wB ui HuiB) as (Hshown & Hinput & Hhid).
  set (wC := setTeamSwitchPanelVisible e p false wB) in *.
  destruct (forceUndeployPlayer_fields e p wC) as (Fmap & Fteams & Fwid & Fmode).
  assert (HcallsC : undeployCalls wC = undeployCalls w)
    by (rewrite Hcalls, HB; reflexivity).
  assert (HpendC : undeployPending wC = undeployPending w)
    by (rewrite Hpending, HB; reflexivity).
  split; [|split; [|split; [|split; [|split; [|split]]]]].
  - unfold GetPlayerTeam. rewrite Fteams, Hteams, HB. cbn.
    rewrite lookup_insert_eq. reflexivity.
  - intros q Hne. unfold GetPlayerTeam. rewrite Fteams, Hteams, HB. cbn.
    rewrite lookup_insert_ne by congruence. reflexivity.
  - unfold panelShownFor. rewrite Fmap. exact Hshown.
  - rewrite Fmode. exact Hinput.
  - intros name Hin. rewrite (isVisible_ext _ wC _ Fwid). apply Hhid. exact Hin.
  - intros Hvalid. unfold forceUndeployPlayer. rewrite Hvalid, HcallsC, HpendC.
    split; reflexivity.
  - intros Hvalid. unfold forceUndeployPlayer. rewrite Hvalid.
    split; assumption.
Qed.

(** X10.  With the panel visible, a release that the handler takes for the
    close button (the close test comes first, whatever the team tests would
    say) hides the panel and switches the cursor off, and does nothing else:
    no team changes and no redeploy command is issued or left waiting. *)
Theorem close_release_only_hides
        (e : Env) (p : Z) (widget : string) (w : World) (ui : PlayerTeamSwitchUi) :
  playerTeamSwitchUiMap w !! p = Some ui ->
  panelVisible ui = true ->
  isCloseClick w ui widget = true ->
  let w' := OnPlayerUIButtonEvent e p widget ButtonUp w in
  rosterView w' = rosterView w /\
  scoreView w' = scoreView w /\
  panelShownFor w' p = Some false /\
  uiInputMode w' !! p = Some false /\
  (forall name, In name (panelWidgetNames ui) -> isVisible w' name = false) /\
  tapStateOf w' p = tapStateOf w p /\
  interactPointOf w' p = interactPointOf w p.
Proof.
  intros Hui Hvis Hc w'. subst w'.
  rewrite (OnPlayerUIButtonEvent_release e p widget w ui Hui Hvis), Hc.
  destruct (setTeamSwitchPanelVisible_hides e p w ui Hui) as (Hshown & Hinput & Hhid).
  destruct (setTeamSwitchPanelVisible_fields e p false w ui Hui) as (Hmap & _).
  split; [|split; [|split; [|split; [|split; [|split]]]]].
  - apply (setTeamSwitchPanelVisible_keeps rosterView e p false), panelBlind_tolerant,
      rosterView_uiBlind.
  - apply (setTeamSwitchPanelVisible_keeps scoreView e p false), panelBlind_tolerant,
      scoreView_uiBlind.
  - exact Hshown.
  - exact Hinput.
  - exact Hhid.
  - unfold tapStateOf. rewrite Hmap, lookup_insert_eq, Hui. reflexivity.
  - unfold interactPointOf. rewrite Hmap, lookup_insert_eq, Hui. reflexivity.
Qed.

(** Player 7 releases the close button of the open panel. *)
Lemma close_release_only_hides_witness :
  let w' := OnPlayerUIButtonEvent (atTime 12) 7 (named "HUD_TEAM_SWITCH_CLOSE_" 7)
                                  ButtonUp panelOpenWorld in
  rosterView w' = rosterView panelOpenWorld /\ panelShownFor w' 7 = Some false.
Proof.
  intros w'.
  pose (ui := setPanelState true 10 (setInteractPoint (Some 9007) (teamSwitchNames 7))).
  destruct (close_release_only_hides (atTime 12) 7 (named "HUD_TEAM_SWITCH_CLOSE_" 7)
              panelOpenWorld ui ltac:(vm_compute; reflexivity) eq_refl
              ltac:(vm_compute; reflexivity))
    as (Hr & _ & Hs & _).
  split; [exact Hr | exact Hs].
Defined.

(** X11.  With the panel visible, a release that the handler takes for the
    team-1 button puts the player on team 1, leaves every other player's team
    as it is, and hides the panel.  The first redeploy command is issued
    only for a player the engine holds valid; for one it does not, the team
    has changed all the same and nothing is issued or left waiting. *)
Theorem team1_release_switches_team
        (e : Env) (p : Z) (widget : string) (w : World) (ui : PlayerTeamSwitchUi) :
  playerTeamSwitchUiMap w !! p = Some ui ->
  panelVisible ui = true ->
  clickTarget w ui widget = Team1Button ->
  let w' := OnPlayerUIButtonEvent e p widget ButtonUp w in
  GetPlayerTeam w' p = GetTeam 1 /\
  (forall q, q <> p -> GetPlayerTeam w' q = GetPlayerTeam w q) /\
  panelShownFor w' p = Some false /\
  uiInputMode w' !! p = Some false /\
  (forall name, In name (panelWidgetNames ui) -> isVisible w' name = false) /\
  (isPlayerValid e p = true ->
   undeployCalls w' = undeployCalls w ++ [p] /\
   undeployPending w' = undeployPending w ++ [p]) /\
  (isPlayerValid e p = false ->
   undeployCalls w' = undeployCalls w /\ undeployPending w' = undeployPending w).
Proof.
  intros Hui Hvis Ht w'. subst w'.
  rewrite (OnPlayerUIButtonEvent_release e p widget w ui Hui Hvis).
  unfold clickTarget in Ht.
  destruct (isCloseClick w ui widget); [discriminate|].
  destruct (isTeam1Click w ui widget);
    [|destruct (isTeam2Click w ui widget); discriminate].
  apply (switchTeam_effects e p (GetTeam 1) w ui Hui).
Qed.

(** Player 7 has moved to team 2 and opened the panel; a release on the
    team-1 button brings the player back to team 1. *)
Lemma team1_release_switches_team_witness :
  let w := SetTeam 7 (GetTeam 2) panelOpenWorld in
  let w' := OnPlayerUIButtonEvent (atTime 12) 7 (named "HUD_TEAM_SWITCH_T1_TEXT_" 7)
                                  ButtonUp w in
  GetPlayerTeam w 7 = GetTeam 2 /\ GetPlayerTeam w' 7 = GetTeam 1 /\
  undeployCalls w' = [7].
Proof.
  intros w w'.
  pose (ui := setPanelState true 10 (setInteractPoint (Some 9007) (teamSwitchNames 7))).
  destruct (team1_release_switches_team (atTime 12) 7 (named "HUD_TEAM_SWITCH_T1_TEXT_" 7)
              w ui ltac:(vm_compute; reflexivity) eq_refl ltac:(vm_compute; reflexivity))
    as (Ht & _ & _ & _ & _ & Hvalid & _).
  split; [vm_compute; reflexivity|]. split; [exact Ht|].
  destruct (Hvalid eq_refl) as [Hc _].
  transitivity (undeployCalls w ++ [7]); [exact Hc | vm_compute; reflexivity].
Defined.

(** X12.  The button handler acts on releases of the panel's buttons only:
    an event of any other kind (a press, a focus or hover change) leaves the
    world exactly as it was, whatever the widget and the panel state, and so
    does a release on a widget the handler takes for none of the three
    buttons. *)
Theorem button_handler_ignores_other_events
        (e : Env) (p : Z) (widget : string) (ev : UIButtonEvent) (w : World) :
  (ev <> ButtonUp -> OnPlayerUIButtonEvent e p widget ev w = w) /\
  (forall ui, playerTeamSwitchUiMap w !! p = Some ui ->
              clickTarget w ui widget = NoButton ->
              OnPlayerUIButtonEvent e p widget ev w = w).
Proof.
  split.
  - apply OnPlayerUIButtonEvent_not_release.
  - intros ui Hui Ht.
    assert (Hev : ev = ButtonUp \/ ev <> ButtonUp)
      by (destruct ev; first [left; reflexivity | right; discriminate]).
    destruct Hev as [->|Hev]; [|apply OnPlayerUIButtonEvent_not_release, Hev].
    destruct (panelVisible ui) eqn:Hvis.
    + rewrite (OnPlayerUIButtonEvent_release e p widget w ui Hui Hvis).
      unfold clickTarget in Ht.
      destruct (isCloseClick w ui widget); [discriminate|].
      destruct (isTeam1Click w ui widget); [discriminate|].
      destruct (isTeam2Click w ui widget); [discriminate|]. reflexivity.
    + unfold OnPlayerUIButtonEvent. cbn [negb andb]. rewrite Hui, Hvis. reflexivity.
Qed.

(** With player 7's panel open, a hover over the team-2 button and a release
    on the hint line both do nothing. *)
Lemma button_handler_ignores_other_events_witness :
  OnPlayerUIButtonEvent (atTime 12) 7 (named "HUD_TEAM_SWITCH_T2_" 7) HoverIn panelOpenWorld
    = panelOpenWorld /\
  OnPlayerUIButtonEvent (atTime 12) 7 (named "HUD_TEAM_SWITCH_HINT_" 7) ButtonUp panelOpenWorld
    = panelOpenWorld.
Proof.
  split.
  - apply (proj1 (button_handler_ignores_other_events (atTime 12) 7 _ HoverIn panelOpenWorld)).
    discriminate.
  - apply (proj2 (button_handler_ignores_other_events (atTime 12) 7 _ ButtonUp panelOpenWorld)
             (setPanelState true 10 (setInteractPoint (Some 9007) (teamSwitchNames 7)))).
    + vm_compute. reflexivity.
    + vm_compute. reflexivity.
Defined.

(** *** The ancestor walk *)

Lemma nameMatches_iff name expected :
  nameMatches name expected = true <->
  name = expected \/ name = expected +:+ "_BORDER" \/ name = expected +:+ "_LABEL".
Proof.
  unfold nameMatches. rewrite !orb_true_iff, !String.eqb_eq. tauto.
Qed.

Lemma ancestorWalk_none w names fuel : ancestorWalk w names fuel None = false.
Proof. destruct fuel; reflexivity. Qed.

Lemma ancestorWalk_true_inv w names : forall fuel c,
  ancestorWalk w names fuel (Some c) = true ->
  exists k a, (k < fuel)%nat /\ nthAncestor w k c = Some a /\
              existsb (nameMatches a) names = true.
Proof.
  induction fuel as [|fuel IH]; intros c H; [discriminate|].
  simpl in H. unfold GetUIWidgetName in H.
  destruct (existsb (nameMatches c) names) eqn:Hm.
  - exists 0%nat, c. split; [lia|]. split; [reflexivity | exact Hm].
  - destruct (GetUIWidgetParent w c) as [parent|] eqn:Hp.
    + destruct (IH parent H) as (k & a & Hk & Hn & Ha).
      exists (S k), a. split; [lia|]. split; [|exact Ha].
      simpl. rewrite Hp. exact Hn.
    + rewrite ancestorWalk_none in H. discriminate.
Qed.

Lemma isButtonClick_walk w widget bn tn :
  isButtonClick w widget (FindUIWidgetWithName w bn) bn tn =
  widgetOrAncestorMatchesName w widget [bn; tn].
Proof.
  unfold isButtonClick, widgetOrAncestorMatchesName. cbv zeta.
  unfold GetUIWidgetName.
  change (ancestorWalk w [bn; tn] 8 (Some widget))
    with (if existsb (nameMatches widget) [bn; tn] then true
          else ancestorWalk w [bn; tn] 7 (GetUIWidgetParent w widget)).
  cbn [existsb]. unfold nameMatches, FindUIWidgetWithName.
  destruct (widgets w !! bn);
    destruct (String.eqb widget bn), (String.eqb widget tn),
      (String.eqb widget (bn +:+ "_BORDER")), (String.eqb widget (bn +:+ "_LABEL")),
      (String.eqb widget (tn +:+ "_BORDER")), (String.eqb widget (tn +:+ "_LABEL"));
    reflexivity.
Qed.

(** X13.  The ancestor walk answers yes exactly when the event widget or one
    of its first seven ancestors bears one of the expected names, bare or
    with the suffix _BORDER or _LABEL; a match further up is not seen.
    Each of the handler's three click tests comes to this walk alone: its
    direct comparisons of the name and of the handle are the walk's first
    step. *)
Theorem ancestor_walk_sees_eight_levels (w : World) (widget : string) :
  (forall names,
     widgetOrAncestorMatchesName w widget names = true <->
     exists k a expected,
       (k < 8)%nat /\ nthAncestor w k widget = Some a /\ In expected names /\
       (a = expected \/ a = expected +:+ "_BORDER" \/ a = expected +:+ "_LABEL")) /\
  (forall ui,
     isCloseClick w ui widget =
       widgetOrAncestorMatchesName w widget [closeButtonName ui; closeTextName ui] /\
     isTeam1Click w ui widget =
       widgetOrAncestorMatchesName w widget [team1ButtonName ui; team1TextName ui] /\
     isTeam2Click w ui widget =
       widgetOrAncestorMatchesName w widget [team2ButtonName ui; team2TextName ui]).
Proof.
  split.
  - intros names. unfold widgetOrAncestorMatchesName. split.
    + intros H. destruct (ancestorWalk_true_inv w names 8 widget H) as (k & a & Hk & Hn & Ha).
      apply existsb_exists in Ha. destruct Ha as (expected & Hin & Hm).
      exists k, a, expected. repeat split; try assumption.
      apply nameMatches_iff. exact Hm.
    + intros (k & a & expected & Hk & Hn & Hin & Hm).
      apply (ancestorWalk_finds w names k 8 widget a Hn); [|exact Hk].
      apply existsb_exists. exists expected. split; [exact Hin|].
      apply nameMatches_iff. exact Hm.
  - intros ui. unfold isCloseClick, isTeam1Click, isTeam2Click.
    rewrite !isButtonClick_walk. repeat split.
Qed.

(** ** The interact point and the legacy tap counter *)

Lemma fmap_insert_same {B} (g : PlayerTeamSwitchUi -> B)
      (m : gmap Z PlayerTeamSwitchUi) p ui ui' :
  m !! p = Some ui -> g ui' = g ui -> g <$> <[p := ui']> m = g <$> m.
Proof.
  intros Hm Hv. apply map_eq. intros i. rewrite !lookup_fmap.
  destruct (decide (p = i)) as [<-|Hne].
  - rewrite lookup_insert_eq, Hm. simpl. rewrite Hv. reflexivity.
  - rewrite lookup_insert_ne by exact Hne. reflexivity.
Qed.

Lemma setTeamSwitchPanelVisible_pointPair e p v w :
  pointPair (setTeamSwitchPanelVisible e p v w) = pointPair w.
Proof.
  destruct (playerTeamSwitchUiMap w !! p) as [ui|] eqn:Hui.
  - destruct (setTeamSwitchPanelVisible_fields e p v w ui Hui)
      as (Hmap & _ & _ & _ & _ & _ & _ & Hip & _).
    unfold pointPair. rewrite Hmap, Hip. f_equal.
    apply (fmap_insert_same _ _ p ui); [exact Hui | reflexivity].
  - unfold setTeamSwitchPanelVisible. rewrite Hui. reflexivity.
Qed.

Lemma pointPair_interactPointOf a b q :
  pointPair a = pointPair b -> interactPointOf a q = interactPointOf b q.
Proof.
  unfold pointPair, interactPointOf. intros H. injection H as _ Hf.
  rewrite <- !lookup_fmap, Hf. reflexivity.
Qed.

(** The world of a valid player's tick just before the interact-point
    bookkeeping has the interact points of the tick's start. *)
Lemma beforeBookkeeping_pointPair e p w :
  pointPair
    (let w1 := pollWorld e p w in
     let w2 :=
       if pollFires e p w then
         match playerTeamSwitchUiMap w1 !! p with
         | Some ui => setTeamSwitchPanelVisible e p (negb (panelVisible ui)) w1
         | None => w1
         end
       else w1 in
     match playerTeamSwitchUiMap w2 !! p with
     | Some ui =>
       if panelVisible ui
          && (matchTimeElapsed e - panelOpenedAt ui >? 15)%num
       then setTeamSwitchPanelVisible e p false w2
       else w2
     | None => w2
     end) = pointPair w.
Proof.
  cbv zeta.
  assert (H1 : pointPair (pollWorld e p w) = pointPair w)
    by (rewrite checkMultiClick_frame; reflexivity).
  assert (H3 : forall x, pointPair x = pointPair w ->
               pointPair (match playerTeamSwitchUiMap x !! p with
                          | Some ui =>
                            if panelVisible ui
                               && (matchTimeElapsed e - panelOpenedAt ui >? 15)%num
                            then setTeamSwitchPanelVisible e p false x
                            else x
                          | None => x
                          end) = pointPair w).
  { intros x Hx. destruct (playerTeamSwitchUiMap x !! p) as [ui|]; [|exact Hx].
    destruct (_ && _); [|exact Hx].
    rewrite setTeamSwitchPanelVisible_pointPair. exact Hx. }
  apply H3.
  destruct (pollFires e p w); [|exact H1].
  destruct (playerTeamSwitchUiMap (pollWorld e p w) !! p) as [ui|]; [|exact H1].
  rewrite setTeamSwitchPanelVisible_pointPair. exact H1.
Qed.

(** What the [try] block leaves of the engine's interact points. *)
Lemma cleanUpInteractPoint_points e ip w :
  interactPoints (cleanUpInteractPoint e ip w) =
  match cleanupOf e ip with
  | RunsThrough => delete ip (interactPoints w)
  | EnableThrows => interactPoints w
  | UnspawnThrows => <[ip := false]> (interactPoints w)
  end.
Proof.
  unfold cleanUpInteractPoint.
  destruct (cleanupOf e ip); cbn; [apply delete_insert_eq | reflexivity | reflexivity].
Qed.

Lemma manageInteractPoint_cases e p x ui :
  isPlayerValid e p = true ->
  playerTeamSwitchUiMap x !! p = Some ui ->
  let x' := manageInteractPoint e p x in
  (isLikelyDeployed e p = false ->
   interactPointOf x' p = Some None /\
   (interactPoint ui = None -> interactPoints x' = interactPoints x) /\
   forall ip, interactPoint ui = Some ip ->
              interactPoints x' = interactPoints (cleanUpInteractPoint e ip x)) /\
  (isLikelyDeployed e p = true ->
   forall ip, interactPoint ui = Some ip -> pointPair x' = pointPair x) /\
  (isLikelyDeployed e p = true -> interactPoint ui = None -> hasPose e p = true ->
   interactPointOf x' p = Some (Some (spawnedObjId e p)) /\
   interactPoints x' = <[spawnedObjId e p := true]> (interactPoints x)) /\
  (isLikelyDeployed e p = true -> interactPoint ui = None -> hasPose e p = false ->
   x' = x).
Proof.
  intros Hv Hui x'. subst x'.
  unfold manageInteractPoint, ensureTeamSwitchInteractPoint, removeTeamSwitchInteractPoint.
  rewrite Hv, Hui. cbn [negb].
  split; [|split; [|split]].
  - intros ->. destruct (interactPoint ui) as [ip|] eqn:Hip.
    + split; [|split].
      * unfold interactPointOf. cbn. rewrite lookup_insert_eq. reflexivity.
      * discriminate.
      * intros ip' [= <-]. reflexivity.
    + split; [|split].
      * unfold interactPointOf. rewrite Hui. simpl. rewrite Hip. reflexivity.
      * reflexivity.
      * discriminate.
  - intros -> ip Hip. rewrite Hip. reflexivity.
  - intros -> Hip Hpose. rewrite Hip, Hpose. cbn [negb].
    split.
    + unfold interactPointOf. cbn. rewrite lookup_insert_eq. reflexivity.
    + reflexivity.
  - intros -> Hip Hpose. rewrite Hip, Hpose. reflexivity.
Qed.

(** X14.  What one tick of a valid player with a registry entry does about
    the interact point, whatever the gesture and the timeout did before.  A
    player who is not deployed holds none afterwards: the field is cleared
    whatever happens in the [try] block, and of the point held before the
    block leaves what its two calls got to: unspawned when both return,
    untouched when [EnableInteractPoint] throws, disabled but still spawned
    when [UnspawnObject] throws.  A deployed player who holds one keeps it
    and no point is spawned; a deployed player who holds none gets the
    freshly spawned one, enabled, when position and facing are known, and
    none when they are not. *)
Theorem tick_manages_interact_point (e : Env) (p : Z) (w : World) (held : option Z) :
  isPlayerValid e p = true ->
  interactPointOf w p = Some held ->
  let w' := OngoingPlayer e p w in
  (isLikelyDeployed e p = false ->
   interactPointOf w' p = Some None /\
   (held = None -> interactPoints w' = interactPoints w) /\
   forall ip, held = Some ip ->
     interactPoints w' =
     match cleanupOf e ip with
     | RunsThrough => delete ip (interactPoints w)
     | EnableThrows => interactPoints w
     | UnspawnThrows => <[ip := false]> (interactPoints w)
     end) /\
  (isLikelyDeployed e p = true ->
   forall ip, held = Some ip ->
              interactPointOf w' p = Some (Some ip) /\ interactPoints w' = interactPoints w) /\
  (isLikelyDeployed e p = true -> held = None -> hasPose e p = true ->
   interactPointOf w' p = Some (Some (spawnedObjId e p)) /\
   interactPoints w' = <[spawnedObjId e p := true]> (interactPoints w)) /\
  (isLikelyDeployed e p = true -> held = None -> hasPose e p = false ->
   interactPointOf w' p = Some None /\ interactPoints w' = interactPoints w).
Proof.
  intros Hv Hheld w'. subst w'.
  rewrite (OngoingPlayer_valid e p w Hv). cbv zeta.
  pose proof (beforeBookkeeping_pointPair e p w) as Hpp. cbv zeta in Hpp.
  match goal with
  | |- context [manageInteractPoint e p ?x] => set (w3 := x) in *
  end.
  assert (H3 : interactPointOf w3 p = Some held)
    by (rewrite (pointPair_interactPointOf w3 w p Hpp); exact Hheld).
  assert (Hi3 : interactPoints w3 = interactPoints w)
    by (unfold pointPair in Hpp; injection Hpp as Hi _; exact Hi).
  unfold interactPointOf in H3.
  destruct (playerTeamSwitchUiMap w3 !! p) as [ui|] eqn:Hui; [|discriminate].
  simpl in H3. injection H3 as Hip.
  destruct (manageInteractPoint_cases e p w3 ui Hv Hui) as (Hoff & Hkeep & Hnew & Hnone).
  split; [|split; [|split]].
  - intros Hd. destruct (Hoff Hd) as (H1 & H2 & H4). split; [exact H1|]. split.
    + intros ->. rewrite (H2 Hip). exact Hi3.
    + intros ip ->. rewrite (H4 ip Hip), cleanUpInteractPoint_points, Hi3. reflexivity.
  - intros Hd ip ->. specialize (Hkeep Hd ip Hip).
    split.
    + rewrite (pointPair_interactPointOf _ w3 p Hkeep).
      unfold interactPointOf. rewrite Hui. simpl. rewrite Hip. reflexivity.
    + unfold pointPair in Hkeep. injection Hkeep as Hi _. rewrite Hi. exact Hi3.
  - intros Hd -> Hpose. destruct (Hnew Hd Hip Hpose) as [H1 H2].
    split; [exact H1|]. rewrite H2, Hi3. reflexivity.
  - intros Hd -> Hpose. rewrite (Hnone Hd Hip Hpose).
    split; [|exact Hi3].
    unfold interactPointOf. rewrite Hui. simpl. rewrite Hip. reflexivity.
Qed.

(** Player 7 joined deployed and holds interact point 9007.  A tick that
    finds the player no longer deployed clears the field; the point is
    unspawned when the clean-up runs through, and is still spawned and
    enabled when [EnableInteractPoint] throws. *)
Lemma tick_manages_interact_point_witness :
  let away outcome :=
    mkEnv (fun _ => None) 11 0 (fun _ => false) (fun _ => true)
          (fun _ => false) (fun _ => true) (fun player => 9000 + player)
          (fun _ => outcome) [7] (fun _ => true) in
  interactPointOf joinedWorld 7 = Some (Some 9007) /\
  interactPoints joinedWorld !! 9007 = Some true /\
  interactPointOf (OngoingPlayer (away RunsThrough) 7 joinedWorld) 7 = Some None /\
  interactPoints (OngoingPlayer (away RunsThrough) 7 joinedWorld) !! 9007 = None /\
  interactPointOf (OngoingPlayer (away EnableThrows) 7 joinedWorld) 7 = Some None /\
  interactPoints (OngoingPlayer (away EnableThrows) 7 joinedWorld) !! 9007 = Some true.
Proof.
  intros away.
  assert (H0 : interactPointOf joinedWorld 7 = Some (Some 9007)) by (vm_compute; reflexivity).
  assert (Hp : interactPoints joinedWorld !! 9007 = Some true) by (vm_compute; reflexivity).
  destruct (tick_manages_interact_point (away RunsThrough) 7 joinedWorld (Some 9007)
              eq_refl H0) as (Hoff & _).
  destruct (Hoff eq_refl) as (H1 & _ & H2).
  destruct (tick_manages_interact_point (away EnableThrows) 7 joinedWorld (Some 9007)
              eq_refl H0) as (Hoff' & _).
  destruct (Hoff' eq_refl) as (H1' & _ & H2').
  split; [exact H0|]. split; [exact Hp|]. split; [exact H1|].
  split; [rewrite (H2 9007 eq_refl); apply lookup_delete_eq|].
  split; [exact H1'|].
  rewrite (H2' 9007 eq_refl). exact Hp.
Defined.

(** X15.  The legacy tap counter.  The script's test for a new count is
    [now - lastTapTime > 1.25] on doubles: the difference is rounded before
    it is compared.  A tap on the player's own interact point for which the
    test holds starts a new count at 1; a tap for which it fails counts on,
    the window being measured from the previous tap, not from the first; the
    third tap in a row resets the count and toggles the panel; the count
    stays between 0 and 2, and every tap records its time.  An interact
    event on a point that is not the player's own does nothing. *)
Theorem interact_taps_slide_and_toggle
        (e : Env) (p : Z) (w : World) (ui : PlayerTeamSwitchUi) (ip : Z) :
  playerTeamSwitchUiMap w !! p = Some ui ->
  interactPoint ui = Some ip ->
  0 <= tapCount ui <= 2 ->
  let now := matchTimeElapsed e in
  let late := (now - lastTapTime ui >? 1.25)%num in
  let w' := OnPlayerInteract e p ip w in
  (exists c, tapStateOf w' p = Some (c, now) /\ 0 <= c <= 2) /\
  (late = true ->
   tapStateOf w' p = Some (1, now) /\ panelStateOf w' p = panelStateOf w p) /\
  (late = false -> tapCount ui < 2 ->
   tapStateOf w' p = Some (tapCount ui + 1, now) /\ panelStateOf w' p = panelStateOf w p) /\
  (late = false -> tapCount ui = 2 ->
   tapStateOf w' p = Some (0, now) /\
   panelStateOf w' p = toggleStep now (panelStateOf w p)) /\
  (forall other, other <> ip -> OnPlayerInteract e p other w = w).
Proof.
  intros Hui Hip Hc now late w'. subst w'.
  assert (Hrun : OnPlayerInteract e p ip w = processInteractTap e p w).
  { unfold OnPlayerInteract. rewrite Hui, Hip, Z.eqb_refl. reflexivity. }
  rewrite Hrun. clear Hrun.
  change (now - lastTapTime ui >? 1.25)%num
    with (now - lastTapTime ui >? TRIPLE_TAP_WINDOW_SECONDS)%num in late.
  (* the two outcomes of a tap *)
  assert (Hstay : forall c, c + 1 < 3 ->
            (if late then 0 else tapCount ui) = c ->
            tapStateOf (processInteractTap e p w) p = Some (c + 1, now) /\
            panelStateOf (processInteractTap e p w) p = panelStateOf w p).
  { intros c Hlt Hc0. unfold processInteractTap. rewrite Hui. cbv zeta.
    fold now. fold late. rewrite Hc0.
    replace (3 <=? c + 1) with false by (symmetry; apply Z.leb_gt; lia).
    unfold tapStateOf, panelStateOf. cbn. rewrite lookup_insert_eq, Hui. split; reflexivity. }
  assert (Hfire : (if late then 0 else tapCount ui) = 2 ->
            tapStateOf (processInteractTap e p w) p = Some (0, now) /\
            panelStateOf (processInteractTap e p w) p = toggleStep now (panelStateOf w p)).
  { intros Hc0. unfold processInteractTap. rewrite Hui. cbv zeta.
    fold now. fold late. rewrite Hc0. change (3 <=? 2 + 1) with true. cbv iota.
    set (wt := withTeamSwitchUiMap w _).
    assert (Hwt : playerTeamSwitchUiMap wt !! p = Some (setTapState 0 now ui))
      by (unfold wt; cbn; apply lookup_insert_eq).
    destruct (setTeamSwitchPanelVisible_fields e p
                (negb (panelVisible (setTapState 0 now ui))) wt _ Hwt) as (Hmap & _).
    unfold tapStateOf, panelStateOf. rewrite Hmap, lookup_insert_eq, Hui. split; reflexivity. }
  split; [|split; [|split; [|split]]].
  - destruct late eqn:Hq.
    + exists 1. split; [|lia]. apply (Hstay 0); [lia | reflexivity].
    + destruct (Z.eq_dec (tapCount ui) 2) as [E|E].
      * exists 0. split; [|lia]. apply Hfire. exact E.
      * exists (tapCount ui + 1). split; [|lia]. apply (Hstay (tapCount ui)); [lia | reflexivity].
  - intros Hlate. apply (Hstay 0); [lia|]. rewrite Hlate. reflexivity.
  - intros Hin Hlt. apply (Hstay (tapCount ui)); [lia|]. rewrite Hin. reflexivity.
  - intros Hin H2. apply Hfire. rewrite Hin. exact H2.
  - intros other Hne. unfold OnPlayerInteract. rewrite Hui, Hip.
    replace (other =? ip) with false by (symmetry; apply Z.eqb_neq; exact Hne).
    reflexivity.
Qed.

(** Player 7 taps the interact point at 1 s, 2 s and 3 s: each tap passes the
    test against the one before, and the third opens the panel.  After a tap
    at 0.1 s, a tap at 1.35 s counts on, for the difference of the two
    doubles rounds to 1.25, while a tap at 1.36 s starts a new count. *)
Lemma interact_taps_slide_and_toggle_witness :
  let w2 := OnPlayerInteract (atTime 2) 7 9007 (OnPlayerInteract (atTime 1) 7 9007 joinedWorld) in
  let w1 := OnPlayerInteract (atTime 0.1) 7 9007 joinedWorld in
  tapStateOf w2 7 = Some (2, 2%num) /\
  panelStateOf (OnPlayerInteract (atTime 3) 7 9007 w2) 7 = Some (true, 3%num) /\
  tapStateOf w1 7 = Some (1, 0.1%num) /\
  tapStateOf (OnPlayerInteract (atTime 1.35) 7 9007 w1) 7 = Some (2, 1.35%num) /\
  tapStateOf (OnPlayerInteract (atTime 1.36) 7 9007 w1) 7 = Some (1, 1.36%num).
Proof.
  intros w2 w1.
  pose (ui2 := setTapState 2 2 (setInteractPoint (Some 9007) (teamSwitchNames 7))).
  assert (Hui2 : playerTeamSwitchUiMap w2 !! 7 = Some ui2) by (vm_compute; reflexivity).
  assert (Hc2 : 0 <= tapCount ui2 <= 2) by (simpl; lia).
  destruct (interact_taps_slide_and_toggle (atTime 3) 7 w2 ui2 9007 Hui2 eq_refl Hc2)
    as (_ & _ & _ & Hthird & _).
  pose (ui1 := setTapState 1 0.1 (setInteractPoint (Some 9007) (teamSwitchNames 7))).
  assert (Hui1 : playerTeamSwitchUiMap w1 !! 7 = Some ui1) by (vm_compute; reflexivity).
  assert (Hc1 : 0 <= tapCount ui1 <= 2) by (simpl; lia).
  destruct (interact_taps_slide_and_toggle (atTime 1.35) 7 w1 ui1 9007 Hui1 eq_refl Hc1)
    as (_ & _ & Hon & _).
  destruct (interact_taps_slide_and_toggle (atTime 1.36) 7 w1 ui1 9007 Hui1 eq_refl Hc1)
    as (_ & Hnew & _).
  split; [vm_compute; reflexivity|].
  split.
  { destruct Hthird as [_ Hp]; [vm_compute; reflexivity | reflexivity |].
    rewrite Hp. vm_compute. reflexivity. }
  split; [vm_compute; reflexivity|].
  split.
  - destruct Hon as [Ht _]; [vm_compute; reflexivity | simpl; lia |]. exact Ht.
  - destruct Hnew as [Ht _]; [vm_compute; reflexivity |]. exact Ht.
Defined.

(** ** Redeploy *)

Lemma removeFirst_not_in p l : ~ In p l -> removeFirst p l = None.
Proof.
  induction l as [|y l IH]; intros Hin; [reflexivity|]. simpl.
  destruct (p =? y) eqn:E.
  - apply Z.eqb_eq in E. exfalso. apply Hin. left. symmetry. exact E.
  - rewrite IH; [reflexivity|]. intros H. apply Hin. right. exact H.
Qed.

Lemma removeFirst_length p l rest :
  removeFirst p l = Some rest -> length l = S (length rest).
Proof.
  revert rest. induction l as [|y l IH]; intros rest H; [discriminate|].
  simpl in H. destruct (p =? y).
  - injection H as <-. reflexivity.
  - destruct (removeFirst p l) as [r|]; [|discriminate].
    injection H as <-. simpl. rewrite (IH r eq_refl). reflexivity.
Qed.

(** X16.  The guards of the redeploy.  For a player the engine does not hold
    valid, [forceUndeployPlayer] does nothing; for a valid one it issues one
    command and leaves one continuation waiting.  When the wait is over the
    continuation issues the second command only if the player is still
    valid; either way it is no longer waiting.  With no continuation waiting
    for the player nothing runs.  So one redeploy issues at most two commands,
    and nothing but the two redeploy lists is written. *)
Theorem redeploy_is_guarded_twice (e e' : Env) (p : Z) (w : World) :
  (isPlayerValid e p = false -> forceUndeployPlayer e p w = w) /\
  (~ In p (undeployPending w) -> resumeForceUndeploy e' p w = w) /\
  (isPlayerValid e p = true ->
   let w1 := forceUndeployPlayer e p w in
   let w2 := resumeForceUndeploy e' p w1 in
   undeployCalls w1 = undeployCalls w ++ [p] /\
   undeployCalls w2 = undeployCalls w ++ (if isPlayerValid e' p then [p; p] else [p]) /\
   length (undeployPending w2) = length (undeployPending w) /\
   w2 = withUndeploy w (undeployCalls w2) (undeployPending w2)).
Proof.
  split; [|split].
  - intros Hv. unfold forceUndeployPlayer. rewrite Hv. reflexivity.
  - intros Hin. unfold resumeForceUndeploy. rewrite (removeFirst_not_in p _ Hin). reflexivity.
  - intros Hv w1 w2. subst w2 w1. unfold forceUndeployPlayer. rewrite Hv. cbn [negb].
    unfold resumeForceUndeploy. cbn [undeployPending undeployCalls withUndeploy].
    destruct (removeFirst_app_last p (undeployPending w)) as [rest Hrest].
    rewrite Hrest.
    assert (Hlen : length rest = length (undeployPending w)).
    { apply removeFirst_length in Hrest. rewrite length_app in Hrest. simpl in Hrest. lia. }
    destruct (isPlayerValid e' p); cbn [negb undeployPending undeployCalls withUndeploy];
      rewrite <- ?app_assoc; repeat split; assumption.
Qed.

(** Player 7 is valid at the call and has left by the end of the wait: one
    command only. *)
Lemma redeploy_is_guarded_twice_witness :
  let gone := goneAt 13 in
  undeployCalls (resumeForceUndeploy gone 7 (forceUndeployPlayer (atTime 12) 7 joinedWorld))
    = [7] /\
  forceUndeployPlayer gone 7 joinedWorld = joinedWorld /\
  resumeForceUndeploy gone 7 joinedWorld = joinedWorld.
Proof.
  intros gone.
  destruct (redeploy_is_guarded_twice (atTime 12) gone 7 joinedWorld) as (_ & Hnone & Hrun).
  destruct (redeploy_is_guarded_twice gone gone 7 joinedWorld) as (Hinv & _ & _).
  destruct (Hrun eq_refl) as (_ & Hcalls & _).
  split; [|split].
  - transitivity (undeployCalls joinedWorld ++ [7]); [exact Hcalls | vm_compute; reflexivity].
  - apply Hinv. reflexivity.
  - apply Hnone. vm_compute. tauto.
Defined.

(** ** Player statistics *)

Ltac read_stats :=
  unfold statsOf, rowShowsStats, scorePointsOf, killsOf, deathsOf, capturesOf,
    updatePlayerScoreBoard, SetScoreboardPlayerValues, SetVariable, GetVariable,
    playerKills, playerDeaths, playerScore, playerCaptures in *;
  cbn [objectVariables scoreboardRows] in *;
  repeat (rewrite lookup_insert_eq || rewrite lookup_insert_ne by congruence);
  simpl.

Lemma awardKillAndScore_invalid e p b :
  isPlayerValid e p = false -> awardKillAndScore e p b = b.
Proof. intros Hv. unfold awardKillAndScore. rewrite Hv. reflexivity. Qed.

Lemma awardKillAndScore_same e p b :
  isPlayerValid e p = true ->
  statsOf (awardKillAndScore e p b) p =
    (scorePointsOf b p + 100, killsOf b p + 1, deathsOf b p, capturesOf b p) /\
  rowShowsStats (awardKillAndScore e p b) p.
Proof.
  intros Hv. unfold awardKillAndScore. rewrite Hv. cbn [negb]. cbv zeta.
  split; read_stats; reflexivity.
Qed.

Lemma awardKillAndScore_other e p b q :
  q <> p ->
  statsOf (awardKillAndScore e p b) q = statsOf b q /\
  scoreboardRows (awardKillAndScore e p b) !! q = scoreboardRows b !! q.
Proof.
  intros Hne. unfold awardKillAndScore.
  destruct (negb (isPlayerValid e p)); [split; reflexivity|]. cbv zeta.
  split; read_stats; reflexivity.
Qed.

Lemma awardKillAndScore_rows e p b q :
  rowShowsStats b q -> rowShowsStats (awardKillAndScore e p b) q.
Proof.
  intros H. destruct (decide (q = p)) as [->|Hne].
  - destruct (isPlayerValid e p) eqn:Hv.
    + apply awardKillAndScore_same, Hv.
    + rewrite awardKillAndScore_invalid by exact Hv. exact H.
  - destruct (awardKillAndScore_other e p b q Hne) as [Hs Hr].
    unfold rowShowsStats. rewrite Hr.
    fold (statsOf (awardKillAndScore e p b) q). rewrite Hs. exact H.
Qed.

(** X17.  Kill credit.  For a player the engine holds valid,
    [awardKillAndScore], and with it [OnPlayerEarnKill], adds one kill and
    100 points, leaves deaths and captures alone and writes the four values
    to the player's scoreboard row; no other player's values or row change.
    For a player it does not hold valid nothing is written. *)
Theorem kill_credit_is_one_kill_100_points (e : Env) (p : Z) (b : Board) :
  let b' := OnPlayerEarnKill e p b in
  (isPlayerValid e p = true ->
   killsOf b' p = killsOf b p + 1 /\
   scorePointsOf b' p = scorePointsOf b p + 100 /\
   deathsOf b' p = deathsOf b p /\
   capturesOf b' p = capturesOf b p /\
   rowShowsStats b' p) /\
  (forall q, q <> p ->
             statsOf b' q = statsOf b q /\ scoreboardRows b' !! q = scoreboardRows b !! q) /\
  (isPlayerValid e p = false -> b' = b).
Proof.
  intros b'. subst b'. unfold OnPlayerEarnKill. split; [|split].
  - intros Hv. destruct (awardKillAndScore_same e p b Hv) as [Hs Hr].
    unfold statsOf in Hs. injection Hs as H1 H2 H3 H4. repeat split; assumption.
  - intros q Hne. apply awardKillAndScore_other, Hne.
  - apply awardKillAndScore_invalid.
Qed.

(** Player 7 earns a first kill. *)
Lemma kill_credit_is_one_kill_100_points_witness :
  statsOf (OnPlayerEarnKill joinEnv 7 (initializePlayerStats 7 emptyBoard)) 7 = (100, 1, 0, 0).
Proof.
  destruct (kill_credit_is_one_kill_100_points joinEnv 7 (initializePlayerStats 7 emptyBoard))
    as (Hv & _).
  destruct (Hv eq_refl) as (Hk & Hs & Hd & Hc & _).
  unfold statsOf. rewrite Hk, Hs, Hd, Hc. vm_compute. reflexivity.
Defined.

Lemma died_step_same p b :
  let b2 := updatePlayerScoreBoard p
              (SetVariable p playerDeaths (GetVariable b p playerDeaths + 1) b) in
  statsOf b2 p = (scorePointsOf b p, killsOf b p, deathsOf b p + 1, capturesOf b p) /\
  rowShowsStats b2 p.
Proof. cbv zeta. split; read_stats; reflexivity. Qed.

Lemma died_step_other p b q :
  q <> p ->
  let b2 := updatePlayerScoreBoard p
              (SetVariable p playerDeaths (GetVariable b p playerDeaths + 1) b) in
  statsOf b2 q = statsOf b q /\ scoreboardRows b2 !! q = scoreboardRows b !! q.
Proof. intros Hne. cbv zeta. split; read_stats; reflexivity. Qed.

Lemma OnPlayerDied_unfold e p killer b :
  OnPlayerDied e p killer b =
  let b2 := updatePlayerScoreBoard p
              (SetVariable p playerDeaths (GetVariable b p playerDeaths + 1) b) in
  match killer with
  | Some k => if isPlayerValid e k && negb (k =? p) then awardKillAndScore e k b2 else b2
  | None => b2
  end.
Proof. reflexivity. Qed.

(** X18.  Deaths and the fallback kill credit.  [OnPlayerDied] adds one death
    to the victim, whoever the killer, and never a kill or a point to the
    victim: a killer who is the victim gets no credit.  A killer who is
    another, valid player gets one kill and 100 points; with no killer given,
    or one the engine does not hold valid, nobody but the victim changes.
    When the engine delivers the kill event as well, the killer is credited
    by both pathways: two kills and 200 points for the one kill. *)
Theorem death_counts_once_and_credits_killer
        (e : Env) (victim : Z) (killer : option Z) (b : Board) :
  let b' := OnPlayerDied e victim killer b in
  statsOf b' victim =
    (scorePointsOf b victim, killsOf b victim, deathsOf b victim + 1, capturesOf b victim) /\
  rowShowsStats b' victim /\
  (forall k, killer = Some k -> k <> victim -> isPlayerValid e k = true ->
     statsOf b' k = (scorePointsOf b k + 100, killsOf b k + 1, deathsOf b k, capturesOf b k) /\
     statsOf (OnPlayerEarnKill e k b') k =
       (scorePointsOf b k + 200, killsOf b k + 2, deathsOf b k, capturesOf b k)) /\
  (forall q, q <> victim -> killer <> Some q -> statsOf b' q = statsOf b q) /\
  (forall k, killer = Some k -> isPlayerValid e k = false ->
     forall q, q <> victim -> statsOf b' q = statsOf b q).
Proof.
  intros b'. subst b'. rewrite OnPlayerDied_unfold. cbv zeta.
  set (b2 := updatePlayerScoreBoard victim _).
  destruct (died_step_same victim b) as [Hs2 Hr2]. fold b2 in Hs2, Hr2.
  assert (Ho2 : forall q, q <> victim -> statsOf b2 q = statsOf b q)
    by (intros q Hq; apply (died_step_other victim b q Hq)).
  split; [|split; [|split; [|split]]].
  - destruct killer as [k|]; [|exact Hs2].
    destruct (isPlayerValid e k && negb (k =? victim)) eqn:Hc; [|exact Hs2].
    apply andb_true_iff in Hc as [_ Hk]. apply negb_true_iff, Z.eqb_neq in Hk.
    rewrite (proj1 (awardKillAndScore_other e k b2 victim ltac:(congruence))). exact Hs2.
  - destruct killer as [k|]; [|exact Hr2].
    destruct (isPlayerValid e k && negb (k =? victim)); [|exact Hr2].
    apply awardKillAndScore_rows, Hr2.
  - intros k -> Hne Hv. rewrite Hv.
    replace (k =? victim) with false by (symmetry; apply Z.eqb_neq; exact Hne).
    cbn [andb negb].
    destruct (awardKillAndScore_same e k b2 Hv) as [H1 _].
    assert (Hb2 : statsOf b2 k = statsOf b k) by (apply Ho2, Hne).
    unfold statsOf in Hb2. injection Hb2 as E1 E2 E3 E4.
    rewrite E1, E2, E3, E4 in H1.
    split; [exact H1|].
    unfold OnPlayerEarnKill.
    destruct (awardKillAndScore_same e k (awardKillAndScore e k b2) Hv) as [H2 _].
    unfold statsOf in H1. injection H1 as F1 F2 F3 F4.
    rewrite F1, F2, F3, F4 in H2. rewrite H2, <- !Z.add_assoc. reflexivity.
  - intros q Hq Hk.
    destruct killer as [k|]; [|apply Ho2, Hq].
    destruct (isPlayerValid e k && negb (k =? victim)); [|apply Ho2, Hq].
    rewrite (proj1 (awardKillAndScore_other e k b2 q ltac:(congruence))). apply Ho2, Hq.
  - intros k -> Hv q Hq. rewrite Hv. cbn [andb]. apply Ho2, Hq.
Qed.

(** Player 8 kills player 7, and the engine sends both events. *)
Lemma death_counts_once_and_credits_killer_witness :
  let e := snapshot None None None 0%num 0 false [7; 8] in
  let b := initializePlayerStats 8 (initializePlayerStats 7 emptyBoard) in
  statsOf (OnPlayerDied e 7 (Some 8) b) 7 = (0, 0, 1, 0) /\
  statsOf (OnPlayerDied e 7 (Some 8) b) 8 = (100, 1, 0, 0) /\
  statsOf (OnPlayerEarnKill e 8 (OnPlayerDied e 7 (Some 8) b)) 8 = (200, 2, 0, 0).
Proof.
  intros e b.
  destruct (death_counts_once_and_credits_killer e 7 (Some 8) b) as (Hv & _ & Hk & _).
  destruct (Hk 8 eq_refl ltac:(lia) eq_refl) as [H1 H2].
  split; [rewrite Hv; vm_compute; reflexivity|].
  split; [rewrite H1 | rewrite H2]; vm_compute; reflexivity.
Defined.

Lemma died_step_rows p b q :
  rowShowsStats b q ->
  rowShowsStats (updatePlayerScoreBoard p
                   (SetVariable p playerDeaths (GetVariable b p playerDeaths + 1) b)) q.
Proof.
  intros H. destruct (decide (q = p)) as [->|Hne].
  - apply died_step_same.
  - destruct (died_step_other p b q Hne) as [Hs Hr].
    unfold rowShowsStats. rewrite Hr.
    match goal with |- _ = Some ?t => change t with (statsOf (updatePlayerScoreBoard p
      (SetVariable p playerDeaths (GetVariable b p playerDeaths + 1) b)) q) end.
    rewrite Hs. exact H.
Qed.

Lemma OnPlayerDied_rows e p killer b q :
  rowShowsStats b q -> rowShowsStats (OnPlayerDied e p killer b) q.
Proof.
  intros H. rewrite OnPlayerDied_unfold. cbv zeta.
  pose proof (died_step_rows p b q H) as H2.
  destruct killer as [k|]; [|exact H2].
  destruct (_ && _); [|exact H2]. apply awardKillAndScore_rows, H2.
Qed.

Lemma capture_step_same x b :
  let b1 := SetVariable x playerCaptures (GetVariable b x playerCaptures + 1) b in
  let b2 := SetVariable x playerScore (GetVariable b1 x playerScore + 200) b1 in
  let b' := updatePlayerScoreBoard x b2 in
  statsOf b' x = (scorePointsOf b x + 200, killsOf b x, deathsOf b x, capturesOf b x + 1) /\
  rowShowsStats b' x.
Proof. cbv zeta. split; read_stats; reflexivity. Qed.

Lemma capture_step_other x b q :
  q <> x ->
  let b1 := SetVariable x playerCaptures (GetVariable b x playerCaptures + 1) b in
  let b2 := SetVariable x playerScore (GetVariable b1 x playerScore + 200) b1 in
  let b' := updatePlayerScoreBoard x b2 in
  statsOf b' q = statsOf b q /\ scoreboardRows b' !! q = scoreboardRows b !! q.
Proof. intros Hne. cbv zeta. split; read_stats; reflexivity. Qed.

Lemma capture_step_rows x b q :
  rowShowsStats b q ->
  let b1 := SetVariable x playerCaptures (GetVariable b x playerCaptures + 1) b in
  let b2 := SetVariable x playerScore (GetVariable b1 x playerScore + 200) b1 in
  rowShowsStats (updatePlayerScoreBoard x b2) q.
Proof.
  intros H. cbv zeta. destruct (decide (q = x)) as [->|Hne].
  - apply capture_step_same.
  - destruct (capture_step_other x b q Hne) as [Hs Hr]. cbv zeta in Hs, Hr.
    unfold rowShowsStats. rewrite Hr.
    match goal with |- _ = Some (scorePointsOf ?b' _, _, _, _) =>
      change (scoreboardRows b !! q = Some (statsOf b' q)) end.
    rewrite Hs. exact H.
Qed.

Lemma rewardCapture_unfold e owner x w b :
  rewardCapture e owner x (w, b) =
  if ownerEquals owner (GetPlayerTeam w x) then
    (updateAllObjectiveIcons e w,
     updatePlayerScoreBoard x
       (SetVariable x playerScore
          (GetVariable (SetVariable x playerCaptures (GetVariable b x playerCaptures + 1) b)
                       x playerScore + 200)
          (SetVariable x playerCaptures (GetVariable b x playerCaptures + 1) b)))
  else (w, b).
Proof. reflexivity. Qed.

Lemma updateAllObjectiveIcons_teams e w q :
  GetPlayerTeam (updateAllObjectiveIcons e w) q = GetPlayerTeam w q.
Proof.
  unfold GetPlayerTeam.
  rewrite (updateAllObjectiveIcons_keeps playerTeams e); [reflexivity | repeat split].
Qed.

Lemma capture_fold_stats e owner players : forall w b q,
  let r := fold_left (fun acc player => rewardCapture e owner player acc) players (w, b) in
  let n := if ownerEquals owner (GetPlayerTeam w q)
           then Z.of_nat (count_occ Z.eq_dec players q) else 0 in
  scorePointsOf (snd r) q = scorePointsOf b q + 200 * n /\
  killsOf (snd r) q = killsOf b q /\
  deathsOf (snd r) q = deathsOf b q /\
  capturesOf (snd r) q = capturesOf b q + n /\
  (rowShowsStats b q -> rowShowsStats (snd r) q).
Proof.
  induction players as [|x l IH]; intros w b q; cbv zeta.
  - cbn [fold_left snd count_occ]. destruct (ownerEquals _ _); cbn [Z.of_nat];
      rewrite Z.mul_0_r, !Z.add_0_r; repeat split; trivial.
  - cbn [fold_left]. rewrite rewardCapture_unfold.
    destruct (ownerEquals owner (GetPlayerTeam w x)) eqn:Hx.
    + specialize (IH (updateAllObjectiveIcons e w)
                     (updatePlayerScoreBoard x
                        (SetVariable x playerScore
                           (GetVariable (SetVariable x playerCaptures
                                           (GetVariable b x playerCaptures + 1) b)
                                        x playerScore + 200)
                           (SetVariable x playerCaptures
                              (GetVariable b x playerCaptures + 1) b))) q).
      cbv zeta in IH. rewrite updateAllObjectiveIcons_teams in IH.
      destruct IH as (I1 & I2 & I3 & I4 & I5).
      destruct (Z.eq_dec x q) as [->|Hne].
      * rewrite Hx in *. rewrite count_occ_cons_eq by reflexivity.
        destruct (capture_step_same q b) as [Hs Hr]. cbv zeta in Hs, Hr.
        unfold statsOf in Hs. injection Hs as E1 E2 E3 E4.
        rewrite I1, I2, I3, I4, E1, E2, E3, E4.
        repeat split; try lia. intros _. apply I5, Hr.
      * rewrite count_occ_cons_neq by exact Hne.
        destruct (capture_step_other x b q ltac:(congruence)) as [Hs _]. cbv zeta in Hs.
        unfold statsOf in Hs. injection Hs as E1 E2 E3 E4.
        rewrite I1, I2, I3, I4, E1, E2, E3, E4.
        repeat split. intros H. apply I5. apply (capture_step_rows x b q H).
    + specialize (IH w b q). cbv zeta in IH.
      destruct IH as (I1 & I2 & I3 & I4 & I5).
      destruct (Z.eq_dec x q) as [->|Hne].
      * rewrite Hx in *. rewrite I1, I2, I3, I4. repeat split. exact I5.
      * rewrite count_occ_cons_neq by exact Hne.
        rewrite I1, I2, I3, I4. repeat split. exact I5.
Qed.





Lemma initializePlayerStats_same p b :
  statsOf (initializePlayerStats p b) p = (0, 0, 0, 0) /\
  rowShowsStats (initializePlayerStats p b) p.
Proof. unfold initializePlayerStats. split; read_stats; reflexivity. Qed.

Lemma initializePlayerStats_other p b q :
  q <> p ->
  statsOf (initializePlayerStats p b) q = statsOf b q /\
  scoreboardRows (initializePlayerStats p b) !! q = scoreboardRows b !! q.
Proof. intros Hne. unfold initializePlayerStats. split; read_stats; reflexivity. Qed.

(** X20.  Every scoreboard row shows its player's variables.  Player
    initialisation zeroes the player's four statistics, whatever they were,
    and writes the row; after that each handler that changes a variable
    writes the row of the same player in the same call, so a row that shows
    its player's statistics still does after a kill, a death, a capture or
    another player's initialisation. *)
Theorem scoreboard_rows_follow_statistics (e : Env) (p q : Z) (b : Board) :
  statsOf (initializePlayerStats p b) p = (0, 0, 0, 0) /\
  rowShowsStats (initializePlayerStats p b) p /\
  (rowShowsStats b q ->
   rowShowsStats (initializePlayerStats p b) q /\
   rowShowsStats (OnPlayerEarnKill e p b) q /\
   (forall killer, rowShowsStats (OnPlayerDied e p killer b) q) /\
   (forall playersOnPoint capturePoint w,
      rowShowsStats (snd (OnCapturePointCaptured e playersOnPoint capturePoint (w, b))) q)).
Proof.
  destruct (initializePlayerStats_same p b) as [Hz Hr].
  split; [exact Hz|]. split; [exact Hr|].
  intros H. split; [|split; [|split]].
  - destruct (decide (q = p)) as [->|Hne]; [exact Hr|].
    destruct (initializePlayerStats_other p b q Hne) as [Hs Hrow].
    unfold rowShowsStats. rewrite Hrow.
    fold (statsOf (initializePlayerStats p b) q). rewrite Hs. exact H.
  - apply awardKillAndScore_rows, H.
  - intros killer. apply OnPlayerDied_rows, H.
  - intros players cp w. unfold OnCapturePointCaptured. cbv zeta.
    destruct (capture_fold_stats e (ownerOfPoint e cp) players w b q) as (_ & _ & _ & _ & H5).
    apply H5, H.
Qed.

(** Player 7's row shows the zeroes of the initialisation, and still shows
    player 7's statistics after player 8 has killed player 7. *)
Lemma scoreboard_rows_follow_statistics_witness :
  let e := snapshot None None None 0%num 0 false [7; 8] in
  let b := initializePlayerStats 8 (initializePlayerStats 7 emptyBoard) in
  rowShowsStats b 7 /\ rowShowsStats (OnPlayerDied e 7 (Some 8) b) 7.
Proof.
  intros e b.
  assert (H : rowShowsStats b 7) by (vm_compute; reflexivity).
  split; [exact H|].
  destruct (scoreboard_rows_follow_statistics e 7 7 b) as (_ & _ & Hkeep).
  destruct (Hkeep H) as (_ & _ & Hd & _). apply Hd.
Defined.

(** ** The score bars *)





(** ** The detector's budget *)

Lemma detectorStep_budget b now st :
  0 <= clickCount st <= 2 ->
  0 <= clickCount (snd (detectorStep b now st)) <= 2 /\
  lastIsInteracting (snd (detectorStep b now st)) = b /\
  3 * Z.b2z (fst (detectorStep b now st)) + clickCount (snd (detectorStep b now st))
    <= clickCount st + Z.b2z (negb (lastIsInteracting st) && b).
Proof.
  intros Hc.
  destruct (Bool.bool_dec b (lastIsInteracting st)) as [E|E].
  - rewrite (detectorStep_unchanged b now st E). cbn [fst snd Z.b2z].
    rewrite <- E. destruct b; cbn; repeat split; lia || reflexivity.
  - destruct b.
    + assert (Hl : lastIsInteracting st = false)
        by (destruct (lastIsInteracting st); [contradiction|reflexivity]).
      rewrite (detectorStep_rising now st Hl), Hl. cbn [negb andb Z.b2z].
      destruct ((clickCount st =? 0)
                || ((0 <? clickCount st) && (WINDOW_MS <? now - sequenceStartTime st)));
        [cbn; repeat split; lia|].
      destruct (clickCount st =? 2) eqn:E2.
      * apply Z.eqb_eq in E2. cbn. repeat split; lia.
      * apply Z.eqb_neq in E2. cbn. repeat split; lia.
    + assert (Hl : lastIsInteracting st = true)
        by (destruct (lastIsInteracting st); [reflexivity|contradiction]).
      rewrite (detectorStep_falling now st Hl), Hl. cbn. repeat split; lia.
Qed.

Lemma firings_cons fired out : firings (fired :: out) = Z.b2z fired + firings out.
Proof.
  unfold firings. cbn [List.filter]. destruct fired; cbn [length Z.b2z]; lia.
Qed.

Lemma runDetector_budget samples : forall st,
  0 <= clickCount st <= 2 ->
  0 <= clickCount (snd (runDetector samples st)) <= 2 /\
  3 * firings (fst (runDetector samples st)) + clickCount (snd (runDetector samples st))
    <= clickCount st + risingEdges (lastIsInteracting st) samples.
Proof.
  induction samples as [|[b now] rest IH]; intros st Hc.
  - cbn [runDetector fst snd risingEdges]. unfold firings. cbn. lia.
  - rewrite runDetector_cons. cbn [fst snd risingEdges].
    destruct (detectorStep_budget b now st Hc) as (Hc1 & Hl1 & Hb1).
    destruct (IH _ Hc1) as (Hc2 & Hb2). rewrite Hl1 in Hb2.
    rewrite firings_cons. split; [exact Hc2 | lia].
Qed.

(** X22.  The detector's budget.  The click count of a state object stays
    between 0 and 2, and over any run of polls three times the number of
    firings, plus the count left at the end, is at most the count at the
    start plus the number of rising edges among the samples: every firing
    uses up three presses, none is used twice, and holding the key down or
    releasing it earns nothing.  A player's first poll starts from a count of
    0, and polling one player never touches another player's state object. *)
Theorem detector_spends_three_presses_per_firing :
  (forall samples st,
     0 <= clickCount st <= 2 ->
     0 <= clickCount (snd (runDetector samples st)) <= 2 /\
     3 * firings (fst (runDetector samples st)) + clickCount (snd (runDetector samples st))
       <= clickCount st + risingEdges (lastIsInteracting st) samples) /\
  (forall es p w st,
     STATES w !! p = Some st ->
     0 <= clickCount st <= 2 ->
     3 * firings (fst (runPolls es p w))
       <= clickCount st + risingEdges (lastIsInteracting st) (map (sampleOf p) es)) /\
  (forall b, clickCount (newClickState b) = 0) /\
  (forall e p q w, p <> q -> STATES (pollWorld e p w) !! q = STATES w !! q).
Proof.
  split; [|split; [|split]].
  - intros samples st Hc. apply runDetector_budget, Hc.
  - intros es p w st Hst Hc.
    destruct (runPolls_runDetector es p w st Hst) as [Hf _]. rewrite Hf.
    destruct (runDetector_budget (map (sampleOf p) es) st Hc) as [Hc' Hb]. lia.
  - reflexivity.
  - intros e p q w Hne. apply checkMultiClick_others, Hne.
Qed.

(** Seven polls with four presses, from a fresh state: one firing, and one
    press left over. *)
Lemma detector_spends_three_presses_per_firing_witness :
  let samples := [(true, 0); (false, 100); (true, 500); (false, 600);
                  (true, 1200); (false, 1300); (true, 1400)] in
  3 * firings (fst (runDetector samples (newClickState false)))
  + clickCount (snd (runDetector samples (newClickState false))) <= 0 + 4.
Proof.
  intros samples.
  destruct (proj1 detector_spends_three_presses_per_firing samples (newClickState false))
    as [_ H]; [simpl; lia|].
  exact H.
Defined.

(** ** Creating the team-switch panel *)

Ltac read_store :=
  repeat first
    [ rewrite lookup_alter_eq
    | rewrite lookup_alter_ne by (apply named_prefix_ne; reflexivity)
    | rewrite lookup_insert_eq
    | rewrite lookup_insert_ne by (apply named_prefix_ne; reflexivity) ].

Lemma createTeamSwitchUi_existing e p w :
  is_Some (playerTeamSwitchUiMap w !! p) -> createTeamSwitchUi e p w = w.
Proof. intros [ui Hui]. unfold createTeamSwitchUi. rewrite Hui. reflexivity. Qed.

(** The widget store a first call leaves when the engine registers every
    widget: nine fresh widgets, the three buttons with both events enabled. *)
Lemma createTeamSwitchUi_widgets e p w :
  acceptsAll e ->
  playerTeamSwitchUiMap w !! p = None ->
  let n := teamSwitchNames p in
  let panel := panelName n in
  let button := fun size =>
    mkWidget ButtonWidget (Some panel) false size MsgBlank true [ButtonUp; ButtonDown] in
  let text := fun size key =>
    mkWidget TextWidget (Some panel) false size (MsgKey key) false [] in
  widgets (createTeamSwitchUi e p w) =
    <[closeTextName n := text (CreateVector 160 24 0) "TEAM_SWITCH_CLOSE"]>
     (<[closeButtonName n := button (CreateVector 180 34 0)]>
      (<[team2TextName n := text (CreateVector 160 24 0) "TEAM_SWITCH_JOIN_2"]>
       (<[team2ButtonName n := button (CreateVector 180 36 0)]>
        (<[team1TextName n := text (CreateVector 160 24 0) "TEAM_SWITCH_JOIN_1"]>
         (<[team1ButtonName n := button (CreateVector 180 36 0)]>
          (<[panelLabelName n := text (CreateVector 300 24 0) "TEAM_SWITCH_LABEL"]>
           (<[panelName n :=
                mkWidget Container (Some GetUIRoot) false (CreateVector 440 150 0)
                         MsgBlank false []]>
            (<[hintTextName n :=
                 mkWidget TextWidget (Some GetUIRoot) true (CreateVector 440 24 0)
                          (MsgKey "TEAM_SWITCH_HINT") false []]>
             (widgets w))))))))) /\
  playerTeamSwitchUiMap (createTeamSwitchUi e p w) = <[p := n]> (playerTeamSwitchUiMap w).
Proof.
  intros Hacc Hnone n panel button text.
  unfold createTeamSwitchUi. rewrite Hnone. cbv zeta. fold n.
  set (w2 := AddUIContainer e _ _ _ _ (AddUIText e _ _ _ _ _ w)).
  assert (H2 : widgets w2 =
               <[panelName n :=
                   mkWidget Container (Some GetUIRoot) false (CreateVector 440 150 0)
                            MsgBlank false []]>
                 (<[hintTextName n :=
                      mkWidget TextWidget (Some GetUIRoot) true (CreateVector 440 24 0)
                               (MsgKey "TEAM_SWITCH_HINT") false []]> (widgets w))).
  { unfold w2, AddUIContainer, AddUIText, AddUIWidget. rewrite !Hacc. reflexivity. }
  assert (R2 : playerTeamSwitchUiMap w2 = playerTeamSwitchUiMap w).
  { unfold w2, AddUIContainer, AddUIText, AddUIWidget. rewrite !Hacc. reflexivity. }
  rewrite (FindUIWidgetWithName_found w2 (panelName n))
    by (rewrite H2, lookup_insert_eq; eauto).
  set (w3 := fold_left _ _ w2).
  assert (H3 : widgets w3 =
    <[closeTextName n := text (CreateVector 160 24 0) "TEAM_SWITCH_CLOSE"]>
     (<[closeButtonName n :=
          mkWidget ButtonWidget (Some panel) false (CreateVector 180 34 0) MsgBlank true []]>
      (<[team2TextName n := text (CreateVector 160 24 0) "TEAM_SWITCH_JOIN_2"]>
       (<[team2ButtonName n :=
            mkWidget ButtonWidget (Some panel) false (CreateVector 180 36 0) MsgBlank true []]>
        (<[team1TextName n := text (CreateVector 160 24 0) "TEAM_SWITCH_JOIN_1"]>
         (<[team1ButtonName n :=
              mkWidget ButtonWidget (Some panel) false (CreateVector 180 36 0) MsgBlank true []]>
          (<[panelLabelName n := text (CreateVector 300 24 0) "TEAM_SWITCH_LABEL"]>
           (widgets w2)))))))).
  { unfold w3, AddUIText, AddUIButton, AddUIWidget. cbn [fold_left].
    rewrite !Hacc. reflexivity. }
  assert (R3 : playerTeamSwitchUiMap w3 = playerTeamSwitchUiMap w).
  { unfold w3, AddUIText, AddUIButton, AddUIWidget. cbn [fold_left].
    rewrite !Hacc. exact R2. }
  set (w4 := withTeamSwitchUiMap w3 _).
  assert (H4 : widgets w4 = widgets w3) by reflexivity.
  rewrite (FindUIWidgetWithName_found w4 (team1ButtonName n))
    by (rewrite H4, H3; read_store; eauto).
  rewrite (FindUIWidgetWithName_found w4 (team2ButtonName n))
    by (rewrite H4, H3; read_store; eauto).
  rewrite (FindUIWidgetWithName_found w4 (closeButtonName n))
    by (rewrite H4, H3; read_store; eauto).
  cbn [whenFound].
  set (w7 := enableBothEvents (closeButtonName n) _).
  assert (H7 : widgets w7 =
    alter (widgetEnableEvent ButtonUp) (closeButtonName n)
      (alter (widgetEnableEvent ButtonDown) (closeButtonName n)
        (alter (widgetEnableEvent ButtonUp) (team2ButtonName n)
          (alter (widgetEnableEvent ButtonDown) (team2ButtonName n)
            (alter (widgetEnableEvent ButtonUp) (team1ButtonName n)
              (alter (widgetEnableEvent ButtonDown) (team1ButtonName n) (widgets w3)))))))
    by reflexivity.
  assert (R7 : playerTeamSwitchUiMap w7 = <[p := n]> (playerTeamSwitchUiMap w))
    by (rewrite <- R3; reflexivity).
  unfold updateTeamSwitchButtonState. rewrite R7, lookup_insert_eq.
  rewrite (FindUIWidgetWithName_found w7 (team1ButtonName n))
    by (rewrite H7, H3; read_store; simpl; eauto).
  rewrite (FindUIWidgetWithName_found w7 (team2ButtonName n))
    by (rewrite H7, H3; read_store; simpl; eauto).
  split; [|exact R7].
  unfold SetUIButtonEnabled. cbn [widgets withWidgets]. rewrite H7, H3, H2.
  repeat first
    [ rewrite alter_insert_eq
    | rewrite alter_insert_ne by (apply named_prefix_ne; reflexivity) ].
  reflexivity.
Qed.

Lemma team_switch_entry_fresh e p w :
  acceptsAll e -> playerTeamSwitchUiMap w !! p = None ->
  panelStateOf (createTeamSwitchUi e p w) p = Some (false, (-1000)%num) /\
  tapStateOf (createTeamSwitchUi e p w) p = Some (0, (-1000)%num).
Proof.
  intros Hacc Hnone.
  destruct (createTeamSwitchUi_widgets e p w Hacc Hnone) as [_ Hr]. cbv zeta in Hr.
  unfold panelStateOf, tapStateOf. rewrite Hr, lookup_insert_eq. split; reflexivity.
Qed.

(** X23.  The team-switch panel is built once.  A call for a player with a
    registry entry does nothing.  A call for a player without one, in an
    engine that registers every widget, stores the entry with the panel
    closed, no taps counted and no interact point held; it leaves the eight
    panel widgets hidden and the hint line visible, each of the three buttons
    enabled with both its press and its release event switched on, and the
    buttons and texts parented to the panel, where the ancestor walk finds
    them; a second call then does nothing.  No call touches another player's
    entry, and whatever the engine registers, the player ends with no entry
    or with this one. *)
Theorem team_switch_panel_is_built_once (e : Env) (p : Z) (w : World) :
  (is_Some (playerTeamSwitchUiMap w !! p) -> createTeamSwitchUi e p w = w) /\
  (acceptsAll e -> playerTeamSwitchUiMap w !! p = None ->
   let w' := createTeamSwitchUi e p w in
   let n := teamSwitchNames p in
   playerTeamSwitchUiMap w' !! p = Some n /\
   panelStateOf w' p = Some (false, (-1000)%num) /\
   tapStateOf w' p = Some (0, (-1000)%num) /\
   interactPointOf w' p = Some None /\
   (forall name, In name (panelWidgetNames n) -> isVisible w' name = false) /\
   isVisible w' (hintTextName n) = true /\
   (forall b, In b [team1ButtonName n; team2ButtonName n; closeButtonName n] ->
              buttonEnabled w' b = true /\ eventsOf w' b = [ButtonUp; ButtonDown] /\
              GetUIWidgetParent w' b = Some (panelName n)) /\
   (forall t, In t [panelLabelName n; team1TextName n; team2TextName n; closeTextName n] ->
              GetUIWidgetParent w' t = Some (panelName n)) /\
   createTeamSwitchUi e p w' = w') /\
  (forall q, q <> p ->
             playerTeamSwitchUiMap (createTeamSwitchUi e p w) !! q
             = playerTeamSwitchUiMap w !! q) /\
  (playerTeamSwitchUiMap w !! p = None ->
   playerTeamSwitchUiMap (createTeamSwitchUi e p w) !! p = None \/
   playerTeamSwitchUiMap (createTeamSwitchUi e p w) !! p = Some (teamSwitchNames p)).
Proof.
  split; [apply createTeamSwitchUi_existing|]. split; [|split].
  - intros Hacc Hnone w' n. subst w'.
    destruct (createTeamSwitchUi_widgets e p w Hacc Hnone) as [Hw Hr].
    cbv zeta in Hw, Hr. fold n in Hw, Hr.
    assert (He : playerTeamSwitchUiMap (createTeamSwitchUi e p w) !! p = Some n)
      by (rewrite Hr; apply lookup_insert_eq).
    split; [exact He|].
    split; [unfold panelStateOf; rewrite He; reflexivity|].
    split; [unfold tapStateOf; rewrite He; reflexivity|].
    split; [unfold interactPointOf; rewrite He; reflexivity|].
    split; [|split; [|split; [|split]]].
    + intros name Hin. unfold isVisible. rewrite Hw.
      repeat (destruct Hin as [<-|Hin]; [subst n; read_store; reflexivity|]).
      destruct Hin.
    + unfold isVisible. rewrite Hw. subst n. read_store. reflexivity.
    + intros b Hin. unfold buttonEnabled, eventsOf, GetUIWidgetParent. rewrite Hw.
      repeat (destruct Hin as [<-|Hin]; [subst n; read_store; repeat split|]).
      destruct Hin.
    + intros t Hin. unfold GetUIWidgetParent. rewrite Hw.
      repeat (destruct Hin as [<-|Hin]; [subst n; read_store; reflexivity|]).
      destruct Hin.
    + apply createTeamSwitchUi_existing. rewrite He. eauto.
  - intros q Hne.
    destruct (createTeamSwitchUi_registry e p w) as [-> | [_ ->]]; [reflexivity|].
    apply lookup_insert_ne. congruence.
  - intros Hnone.
    destruct (createTeamSwitchUi_registry e p w) as [-> | [_ ->]].
    + left. exact Hnone.
    + right. apply lookup_insert_eq.
Qed.

(** Player 7's panel in an empty match. *)
Lemma team_switch_panel_is_built_once_witness :
  let w' := createTeamSwitchUi joinEnv 7 freshWorld in
  eventsOf w' (named "HUD_TEAM_SWITCH_T2_" 7) = [ButtonUp; ButtonDown] /\
  createTeamSwitchUi joinEnv 7 w' = w'.
Proof.
  intros w'.
  destruct (team_switch_panel_is_built_once joinEnv 7 freshWorld) as (Hagain & Hnew & _).
  destruct Hnew as (He & _ & _ & _ & _ & _ & Hb & _ & _);
    [intros name; reflexivity | reflexivity |].
  split.
  - apply (Hb (named "HUD_TEAM_SWITCH_T2_" 7)). right. left. reflexivity.
  - destruct (team_switch_panel_is_built_once joinEnv 7 w') as (Hsecond & _).
    apply Hsecond. unfold w'. rewrite He. eauto.
Defined.

(** ** Match start and the roster *)

Lemma ensureTeamSwitchInteractPoint_fmap {B} (g : PlayerTeamSwitchUi -> B) e p x :
  (forall ip ui, g (setInteractPoint ip ui) = g ui) ->
  g <$> playerTeamSwitchUiMap (ensureTeamSwitchInteractPoint e p x)
  = g <$> playerTeamSwitchUiMap x.
Proof.
  intros Hg. unfold ensureTeamSwitchInteractPoint.
  destruct (negb (isPlayerValid e p)); [reflexivity|].
  destruct (negb (isLikelyDeployed e p)); [reflexivity|].
  destruct (playerTeamSwitchUiMap x !! p) as [ui|] eqn:Hui; [|reflexivity].
  destruct (interactPoint ui); [reflexivity|].
  destruct (negb (hasPose e p)); [reflexivity|].
  cbn. apply (fmap_insert_same g _ p ui); [exact Hui | apply Hg].
Qed.

Lemma registry_is_Some_fmap {B} (g : PlayerTeamSwitchUi -> B) (a b : World) q :
  g <$> playerTeamSwitchUiMap a = g <$> playerTeamSwitchUiMap b ->
  is_Some (playerTeamSwitchUiMap a !! q) -> is_Some (playerTeamSwitchUiMap b !! q).
Proof.
  intros H Ha. apply (fmap_is_Some g). rewrite <- lookup_fmap, <- H, lookup_fmap.
  apply fmap_is_Some. exact Ha.
Qed.

Lemma registry_view_fmap {B} (g : PlayerTeamSwitchUi -> B) (a b : World) q :
  g <$> playerTeamSwitchUiMap a = g <$> playerTeamSwitchUiMap b ->
  g <$> playerTeamSwitchUiMap a !! q = g <$> playerTeamSwitchUiMap b !! q.
Proof. intros H. rewrite <- !lookup_fmap, H. reflexivity. Qed.

(** What the registry shows of a player's entry apart from the interact
    point. *)
Lemma initializePlayerState_registry e p x q :
  (is_Some (playerTeamSwitchUiMap (initializePlayerState e p x) !! q) ->
   is_Some (playerTeamSwitchUiMap x !! q) \/ q = p) /\
  (is_Some (playerTeamSwitchUiMap x !! q) ->
   panelStateOf (initializePlayerState e p x) q = panelStateOf x q /\
   tapStateOf (initializePlayerState e p x) q = tapStateOf x q) /\
  (q <> p ->
   playerTeamSwitchUiMap x !! q = None ->
   playerTeamSwitchUiMap (initializePlayerState e p x) !! q = None) /\
  (acceptsAll e -> playerTeamSwitchUiMap x !! p = None ->
   panelStateOf (initializePlayerState e p x) p = Some (false, (-1000)%num) /\
   tapStateOf (initializePlayerState e p x) p = Some (0, (-1000)%num)).
Proof.
  unfold initializePlayerState.
  set (x1 := createHUD e p x).
  assert (R1 : playerTeamSwitchUiMap x1 = playerTeamSwitchUiMap x)
    by (apply (createHUD_keeps_of playerTeamSwitchUiMap e p); reflexivity).
  set (x2 := createTeamSwitchUi e p x1).
  pose proof (ensureTeamSwitchInteractPoint_fmap
                (fun ui => (panelVisible ui, panelOpenedAt ui)) e p x2
                (fun _ _ => eq_refl)) as Hps.
  pose proof (ensureTeamSwitchInteractPoint_fmap
                (fun ui => (tapCount ui, lastTapTime ui)) e p x2
                (fun _ _ => eq_refl)) as Hts.
  assert (Hother : forall q', q' <> p ->
            playerTeamSwitchUiMap x2 !! q' = playerTeamSwitchUiMap x !! q').
  { intros q' Hne. unfold x2.
    destruct (createTeamSwitchUi_registry e p x1) as [-> | [_ ->]];
      [|rewrite lookup_insert_ne by congruence]; rewrite R1; reflexivity. }
  split; [|split; [|split]].
  - intros Hs. apply (registry_is_Some_fmap _ _ x2 q Hps) in Hs.
    destruct (decide (q = p)) as [->|Hne]; [right; reflexivity|].
    left. rewrite <- (Hother q Hne). exact Hs.
  - intros Hs.
    assert (E2 : playerTeamSwitchUiMap x2 !! q = playerTeamSwitchUiMap x !! q).
    { destruct (decide (q = p)) as [->|Hne]; [|apply Hother, Hne].
      unfold x2. rewrite createTeamSwitchUi_existing by (rewrite R1; exact Hs).
      rewrite R1. reflexivity. }
    unfold panelStateOf, tapStateOf.
    rewrite (registry_view_fmap _ _ x2 q Hps), (registry_view_fmap _ _ x2 q Hts), E2.
    split; reflexivity.
  - intros Hne Hnone.
    destruct (playerTeamSwitchUiMap (ensureTeamSwitchInteractPoint e p x2) !! q) eqn:E;
      [|reflexivity].
    assert (Hs : is_Some (playerTeamSwitchUiMap x2 !! q))
      by (apply (registry_is_Some_fmap _ _ x2 q Hps); rewrite E; eauto).
    rewrite (Hother q Hne), Hnone in Hs. destruct Hs as [? Hs]. discriminate.
  - intros Hacc Hnone.
    destruct (team_switch_entry_fresh e p x1 Hacc) as [Hp Ht];
      [rewrite R1; exact Hnone|].
    fold x2 in Hp, Ht. unfold panelStateOf, tapStateOf in *.
    rewrite (registry_view_fmap _ _ x2 p Hps), (registry_view_fmap _ _ x2 p Hts).
    split; assumption.
Qed.

Lemma initializePlayerState_hudMap e p x :
  playerHudMap (initializePlayerState e p x) = playerHudMap (createHUD e p x).
Proof.
  unfold initializePlayerState.
  rewrite ensureTeamSwitchInteractPoint_hudMap, createTeamSwitchUi_hudMap. reflexivity.
Qed.

Lemma roster_fold_registry e l : forall x q,
  is_Some (playerTeamSwitchUiMap
             (fold_left (fun acc player => initializePlayerState e player acc) l x) !! q) ->
  is_Some (playerTeamSwitchUiMap x !! q) \/ In q l.
Proof.
  induction l as [|p l IH]; intros x q H; [left; exact H|].
  cbn [fold_left] in H. destruct (IH _ _ H) as [Hs|Hin]; [|right; right; exact Hin].
  destruct (proj1 (initializePlayerState_registry e p x q) Hs) as [H0 | ->];
    [left; exact H0 | right; left; reflexivity].
Qed.

Lemma roster_fold_entry_kept e l : forall x q,
  is_Some (playerTeamSwitchUiMap x !! q) ->
  let x' := fold_left (fun acc player => initializePlayerState e player acc) l x in
  panelStateOf x' q = panelStateOf x q /\ tapStateOf x' q = tapStateOf x q.
Proof.
  induction l as [|p l IH]; intros x q Hs; [split; reflexivity|].
  cbn [fold_left]. cbv zeta.
  destruct (initializePlayerState_registry e p x q) as (_ & Hkeep & _).
  destruct (Hkeep Hs) as [Hp Ht].
  assert (Hs' : is_Some (playerTeamSwitchUiMap (initializePlayerState e p x) !! q)).
  { destruct Hs as [ui Hui]. unfold panelStateOf in Hp. rewrite Hui in Hp.
    destruct (playerTeamSwitchUiMap (initializePlayerState e p x) !! q); [eauto|discriminate]. }
  destruct (IH _ q Hs') as [Hp' Ht']. cbv zeta in Hp', Ht'.
  rewrite Hp', Ht'. split; assumption.
Qed.

Lemma roster_fold_entry_new e l : forall x q,
  acceptsAll e -> In q l -> playerTeamSwitchUiMap x !! q = None ->
  let x' := fold_left (fun acc player => initializePlayerState e player acc) l x in
  panelStateOf x' q = Some (false, (-1000)%num) /\ tapStateOf x' q = Some (0, (-1000)%num).
Proof.
  induction l as [|p l IH]; intros x q Hacc Hin Hnone; [destruct Hin|].
  cbn [fold_left]. cbv zeta.
  destruct (decide (q = p)) as [->|Hne].
  - destruct (initializePlayerState_registry e p x p) as (_ & _ & _ & Hnew).
    destruct (Hnew Hacc Hnone) as [Hp Ht].
    assert (Hs : is_Some (playerTeamSwitchUiMap (initializePlayerState e p x) !! p)).
    { unfold panelStateOf in Hp.
      destruct (playerTeamSwitchUiMap (initializePlayerState e p x) !! p);
        [eauto|discriminate]. }
    destruct (roster_fold_entry_kept e l _ p Hs) as [Hp' Ht']. cbv zeta in Hp', Ht'.
    rewrite Hp', Ht'. split; assumption.
  - destruct Hin as [->|Hin]; [contradiction|].
    apply IH; [exact Hacc | exact Hin |].
    apply (initializePlayerState_registry e p x q); assumption.
Qed.

Lemma roster_fold_hud_kept e l : forall x q h,
  playerHudMap x !! q = Some h ->
  playerHudMap (fold_left (fun acc player => initializePlayerState e player acc) l x) !! q
  = Some h.
Proof.
  induction l as [|p l IH]; intros x q h H; [exact H|].
  cbn [fold_left]. apply IH. rewrite initializePlayerState_hudMap.
  apply createHUD_keeps, H.
Qed.

Lemma roster_fold_hud_new e l : forall x q,
  acceptsAll e -> In q l -> playerHudMap x !! q = None ->
  playerHudMap (fold_left (fun acc player => initializePlayerState e player acc) l x) !! q
  = Some (hudNames q).
Proof.
  induction l as [|p l IH]; intros x q Hacc Hin Hnone; [destruct Hin|].
  cbn [fold_left].
  destruct (decide (q = p)) as [->|Hne].
  - apply roster_fold_hud_kept. rewrite initializePlayerState_hudMap.
    apply createHUD_stores; [exact Hnone | left; apply Hacc].
  - destruct Hin as [->|Hin]; [contradiction|].
    apply IH; [exact Hacc | exact Hin |].
    rewrite initializePlayerState_hudMap, createHUD_others by exact Hne. exact Hnone.
Qed.

(** X24.  Match start and the roster.  [OnGameModeStarted] clears the
    team-switch registry and then initialises every player the engine lists:
    afterwards only listed players have a panel entry and, in an engine that
    registers every widget, each listed player has one, closed and with no
    taps counted, and a HUD entry, the one named after the player if there
    was none.  HUD entries that existed before the start are kept as they
    were: the HUD registry is not cleared.  The loop that follows changes
    neither registry. *)
Theorem match_start_initialises_roster (e : Env) (es : list Env) (w : World) :
  let w' := startOfMatch e w in
  (forall q, is_Some (playerTeamSwitchUiMap w' !! q) -> In q (allPlayers e)) /\
  (acceptsAll e ->
   forall q, In q (allPlayers e) ->
     panelStateOf w' q = Some (false, (-1000)%num) /\
     tapStateOf w' q = Some (0, (-1000)%num) /\
     is_Some (playerHudMap w' !! q) /\
     (playerHudMap w !! q = None -> playerHudMap w' !! q = Some (hudNames q))) /\
  (forall q h, playerHudMap w !! q = Some h -> playerHudMap w' !! q = Some h) /\
  playerTeamSwitchUiMap (OnGameModeStarted e es w) = playerTeamSwitchUiMap w' /\
  playerHudMap (OnGameModeStarted e es w) = playerHudMap w'.
Proof.
  intros w'. subst w'. unfold startOfMatch. cbv zeta.
  set (x0 := updateScoreBoardHeader _).
  assert (R0 : playerTeamSwitchUiMap x0 = ∅) by reflexivity.
  assert (H0 : playerHudMap x0 = playerHudMap w) by reflexivity.
  unfold initializeAllCurrentPlayers. cbv zeta.
  set (x1 := fold_left _ (allPlayers e) x0).
  set (x2 := updateAllObjectiveIcons e (updateAllHudScores e x1)).
  assert (R2 : playerTeamSwitchUiMap x2 = playerTeamSwitchUiMap x1).
  { unfold x2.
    rewrite (updateAllObjectiveIcons_keeps playerTeamSwitchUiMap e) by (repeat split).
    apply (updateAllHudScores_keeps playerTeamSwitchUiMap e). repeat split. }
  assert (H2 : playerHudMap x2 = playerHudMap x1).
  { unfold x2.
    rewrite (updateAllObjectiveIcons_keeps playerHudMap e) by (repeat split).
    apply (updateAllHudScores_keeps playerHudMap e). repeat split. }
  split; [|split; [|split; [|split]]].
  - intros q Hs. rewrite R2 in Hs.
    destruct (roster_fold_registry e _ _ _ Hs) as [Hx|Hin]; [|exact Hin].
    rewrite R0, lookup_empty in Hx. destruct Hx as [? Hx]. discriminate.
  - intros Hacc q Hin.
    destruct (roster_fold_entry_new e (allPlayers e) x0 q Hacc Hin) as [Hp Ht];
      [rewrite R0; apply lookup_empty|].
    cbv zeta in Hp, Ht. fold x1 in Hp, Ht.
    unfold panelStateOf, tapStateOf in *. rewrite R2, H2.
    split; [exact Hp|]. split; [exact Ht|].
    destruct (playerHudMap w !! q) as [h|] eqn:Hh.
    + assert (Hk : playerHudMap x1 !! q = Some h)
        by (apply roster_fold_hud_kept; rewrite H0; exact Hh).
      rewrite Hk. split; [eauto | discriminate].
    + assert (Hk : playerHudMap x1 !! q = Some (hudNames q))
        by (apply roster_fold_hud_new; [exact Hacc | exact Hin | rewrite H0; exact Hh]).
      rewrite Hk. split; [eauto | reflexivity].
  - intros q h Hh. rewrite H2.
    apply roster_fold_hud_kept. rewrite H0. exact Hh.
  - unfold OnGameModeStarted, startOfMatch, initializeAllCurrentPlayers. cbv zeta.
    fold x0. fold x1. fold x2.
    apply (runTicks_keeps playerTeamSwitchUiMap es); repeat split.
  - unfold OnGameModeStarted, startOfMatch, initializeAllCurrentPlayers. cbv zeta.
    fold x0. fold x1. fold x2.
    apply (runTicks_keeps playerHudMap es); repeat split.
Qed.

(** A match starts with players 7 and 8 listed, over a world that still
    holds player 7's panel, open, from before: both start with a closed
    panel. *)
Lemma match_start_initialises_roster_witness :
  let e := snapshot None None None 0%num 0 false [7; 8] in
  panelStateOf panelOpenWorld 7 = Some (true, 10%num) /\
  panelStateOf (startOfMatch e panelOpenWorld) 7 = Some (false, (-1000)%num) /\
  panelStateOf (startOfMatch e panelOpenWorld) 8 = Some (false, (-1000)%num).
Proof.
  intros e.
  destruct (match_start_initialises_roster e [] panelOpenWorld) as (_ & Hlisted & _).
  assert (Hacc : acceptsAll e) by (intros name; reflexivity).
  split; [vm_compute; reflexivity|].
  split.
  - apply (Hlisted Hacc 7). left. reflexivity.
  - apply (Hlisted Hacc 8). right. left. reflexivity.
Defined.

(** ** The HUD refresh reaches every listed player *)

Lemma string_app_inv_head (a s t : string) : a +:+ s = a +:+ t -> s = t.
Proof.
  induction a as [|c a IH]; intros H; [exact H|].
  change (String c (a +:+ s) = String c (a +:+ t)) in H.
  injection H as H. apply IH, H.
Qed.

Lemma named_id_inj a p q : named a p = named a q -> p = q.
Proof.
  unfold named. intros H. apply string_app_inv_head in H.
  apply (inj pretty) in H. exact H.
Qed.

(** The score labels of two different players are four different widgets. *)
Lemma score_labels_apart p q :
  p <> q ->
  blueScoreName (hudNames p) <> blueScoreName (hudNames q) /\
  blueScoreName (hudNames p) <> redScoreName (hudNames q) /\
  redScoreName (hudNames p) <> blueScoreName (hudNames q) /\
  redScoreName (hudNames p) <> redScoreName (hudNames q).
Proof.
  intros Hne. cbn [hudNames blueScoreName redScoreName]. repeat split; intros H.
  - apply named_id_inj in H. contradiction.
  - unfold named in H. discriminate H.
  - unfold named in H. discriminate H.
  - apply named_id_inj in H. contradiction.
Qed.

Lemma hudInputs_setterBlind : setterBlind hudInputs.
Proof. repeat split. Qed.

Lemma hudInputs_scores a b p :
  hudInputs a = hudInputs b ->
  relativeScores (GetPlayerTeam a p) (gameState a)
  = relativeScores (GetPlayerTeam b p) (gameState b).
Proof.
  unfold hudInputs, GetPlayerTeam. intros [= _ Hg Ht]. rewrite Hg, Ht. reflexivity.
Qed.

Lemma hudInputs_registry a b :
  hudInputs a = hudInputs b -> playerHudMap a = playerHudMap b.
Proof. unfold hudInputs. intros [= H _ _]. exact H. Qed.

Lemma uiTree_exists a b x :
  uiTree a = uiTree b -> is_Some (widgets a !! x) -> is_Some (widgets b !! x).
Proof.
  unfold uiTree. intros H Ha.
  apply (fmap_is_Some (fun y => (wKind y, wParent y))).
  rewrite <- lookup_fmap, <- H, lookup_fmap. apply fmap_is_Some. exact Ha.
Qed.

Lemma updateHudScoresOf_exists q w x :
  is_Some (widgets w !! x) -> is_Some (widgets (updateHudScoresOf q w) !! x).
Proof.
  apply uiTree_exists. symmetry.
  apply (updateHudScoresOf_keeps uiTree q), tolerant_setters, uiTree_tolerant.
Qed.

(** A player's pass writes no label but that player's two. *)
Lemma updateHudScoresOf_label_other q w name :
  (forall hud, playerHudMap w !! q = Some hud ->
               blueScoreName hud <> name /\ redScoreName hud <> name) ->
  labelOf (updateHudScoresOf q w) name = labelOf w name.
Proof.
  intros Hne. unfold updateHudScoresOf.
  destruct (playerHudMap w !! q) as [hud|]; [|reflexivity].
  destruct (Hne hud eq_refl) as [Hb Hr].
  destruct (FindUIWidgetWithName w (blueScoreName hud)) as [b|] eqn:Fb; [|reflexivity].
  destruct (FindUIWidgetWithName w (redScoreName hud)) as [r|] eqn:Fr; [|reflexivity].
  apply FindUIWidgetWithName_Some in Fb as [-> _].
  apply FindUIWidgetWithName_Some in Fr as [-> _].
  destruct (relativeScores _ _) as [f en]. cbv zeta.
  repeat match goal with
         | |- context [match ?x with Some _ => _ | None => _ end] => destruct x
         end;
    rewrite ?labelOf_setSize, !labelOf_setLabel_ne by assumption; reflexivity.
Qed.

Lemma updateHudScoresOf_other_player p q w :
  hudRegistryNamed w -> p <> q ->
  labelOf (updateHudScoresOf q w) (blueScoreName (hudNames p))
    = labelOf w (blueScoreName (hudNames p)) /\
  labelOf (updateHudScoresOf q w) (redScoreName (hudNames p))
    = labelOf w (redScoreName (hudNames p)).
Proof.
  intros Hreg Hne.
  destruct (score_labels_apart q p ltac:(congruence)) as (H1 & H2 & H3 & H4).
  split; apply updateHudScoresOf_label_other; intros hud Hhud;
    rewrite (Hreg q hud Hhud); split; assumption.
Qed.

Lemma hudRegistryNamed_inputs a b :
  hudInputs a = hudInputs b -> hudRegistryNamed b -> hudRegistryNamed a.
Proof.
  intros H Hb q hud Hq. apply Hb. rewrite <- (hudInputs_registry a b H). exact Hq.
Qed.

Lemma labelsShowScores_fold l : forall w p,
  hudRegistryNamed w ->
  playerHudMap w !! p = Some (hudNames p) ->
  is_Some (widgets w !! blueScoreName (hudNames p)) ->
  is_Some (widgets w !! redScoreName (hudNames p)) ->
  (In p l \/ labelsShowScores w p) ->
  labelsShowScores (fold_left (fun acc player => updateHudScoresOf player acc) l w) p.
Proof.
  induction l as [|q l IH]; intros w p Hreg Hhud Hb Hr Hcase.
  - destruct Hcase as [[]|H]. exact H.
  - cbn [fold_left].
    pose proof (updateHudScoresOf_keeps hudInputs q hudInputs_setterBlind w) as Hin.
    apply IH.
    + apply (hudRegistryNamed_inputs _ w Hin Hreg).
    + rewrite (hudInputs_registry _ w Hin). exact Hhud.
    + apply updateHudScoresOf_exists, Hb.
    + apply updateHudScoresOf_exists, Hr.
    + destruct (decide (q = p)) as [->|Hne].
      * right. unfold labelsShowScores. rewrite (hudInputs_scores _ w p Hin).
        apply (updateHudScoresOf_labels p w (hudNames p) Hhud Hb Hr).
        cbn [hudNames blueScoreName redScoreName]. unfold named. discriminate.
      * destruct Hcase as [[?|Hl]|Hs]; [contradiction | left; exact Hl |].
        right. unfold labelsShowScores. rewrite (hudInputs_scores _ w p Hin).
        destruct (updateHudScoresOf_other_player p q w Hreg ltac:(congruence)) as [-> ->].
        exact Hs.
Qed.

Lemma labelOf_setVisible h b w name :
  labelOf (SetUIWidgetVisible h b w) name = labelOf w name.
Proof.
  unfold labelOf, SetUIWidgetVisible. cbn [widgets withWidgets].
  rewrite lookup_alter. destruct (decide (h = name)) as [->|Hne]; [|reflexivity].
  destruct (widgets w !! name); reflexivity.
Qed.

Lemma updateSingleObjectiveVisibility_label pt ot n ni f fi en eni w name :
  labelOf (updateSingleObjectiveVisibility pt ot n ni f fi en eni w) name = labelOf w name.
Proof.
  unfold updateSingleObjectiveVisibility.
  repeat match goal with
         | |- context [match FindUIWidgetWithName ?a ?b with Some _ => _ | None => _ end] =>
           destruct (FindUIWidgetWithName a b)
         end; try reflexivity.
  cbv zeta. destruct ot as [o|].
  - destruct (_ && _); [|destruct (Equals pt o)]; rewrite !labelOf_setVisible; reflexivity.
  - rewrite !labelOf_setVisible; reflexivity.
Qed.

Lemma updateAllObjectiveIcons_label e w name :
  labelOf (updateAllObjectiveIcons e w) name = labelOf w name.
Proof.
  unfold updateAllObjectiveIcons. cbv zeta.
  generalize (allPlayers e). intros l. revert w.
  induction l as [|q l IH]; intros w; [reflexivity|].
  cbn [fold_left]. rewrite IH. unfold updateObjectiveIconsOf.
  destruct (playerHudMap w !! q); [|reflexivity]. cbv zeta.
  rewrite !updateSingleObjectiveVisibility_label. reflexivity.
Qed.

Lemma labelsShowScores_icons e w p :
  labelsShowScores w p -> labelsShowScores (updateAllObjectiveIcons e w) p.
Proof.
  unfold labelsShowScores. intros H.
  rewrite (hudInputs_scores _ w p
             (updateAllObjectiveIcons_keeps hudInputs e hudInputs_setterBlind w)).
  rewrite !updateAllObjectiveIcons_label. exact H.
Qed.

Lemma labelsShowScores_updateTeamScores e w p :
  hudRegistryNamed w ->
  playerHudMap w !! p = Some (hudNames p) ->
  is_Some (widgets w !! blueScoreName (hudNames p)) ->
  is_Some (widgets w !! redScoreName (hudNames p)) ->
  In p (allPlayers e) ->
  labelsShowScores w p -> labelsShowScores (updateTeamScores e w) p.
Proof.
  intros Hreg Hhud Hb Hr Hin Hs. unfold updateTeamScores.
  destruct (pointsHeld e) as [h1 h2]. cbv zeta.
  unfold updateAllHudScores.
  destruct (_ && _); cbv beta iota; destruct (_ && _); cbv beta iota;
    try exact Hs;
    (apply labelsShowScores_fold; [exact Hreg | exact Hhud | exact Hb | exact Hr | left; exact Hin]).
Qed.

(** *** Widgets are added, never removed *)

Lemma grows_id : grows (fun w => w).
Proof. intros w x H. exact H. Qed.

Lemma grows_compose f g : grows f -> grows g -> grows (fun w => g (f w)).
Proof. intros Hf Hg w x H. apply Hg, Hf, H. Qed.

Lemma grows_steps (steps : list (World -> World)) :
  Forall grows steps -> grows (fun w => fold_left (fun acc step => step acc) steps w).
Proof.
  induction 1 as [|f l Hf Hl IH]; [apply grows_id|].
  intros w x H. cbn [fold_left]. apply IH, Hf, H.
Qed.

Lemma AddUIWidget_grows e name y : grows (AddUIWidget e name y).
Proof.
  intros w x H. unfold AddUIWidget. destruct (uiAccepts e name); [|exact H].
  cbn [widgets withWidgets]. rewrite lookup_insert_is_Some'. right. exact H.
Qed.

Lemma AddUIText_grows e name size parent visible m : grows (AddUIText e name size parent visible m).
Proof. apply AddUIWidget_grows. Qed.

Lemma AddUIContainer_grows e name size parent visible :
  grows (AddUIContainer e name size parent visible).
Proof. apply AddUIWidget_grows. Qed.

Lemma AddUIButton_grows e name size parent visible enabled :
  grows (AddUIButton e name size parent visible enabled).
Proof. apply AddUIWidget_grows. Qed.

Lemma grows_uiTree f : (forall w, uiTree (f w) = uiTree w) -> grows f.
Proof. intros Hf w x H. apply (uiTree_exists w); [symmetry; apply Hf | exact H]. Qed.

Lemma buildHudWidgets_grows e id root : grows (buildHudWidgets e id root).
Proof.
  intros w x H. unfold buildHudWidgets. cbv zeta.
  match goal with
  | |- is_Some (widgets (fold_left _ ?steps w) !! x) =>
    apply (grows_steps steps
      ltac:(repeat (apply Forall_cons; split;
                    [first [apply AddUIText_grows | apply AddUIContainer_grows]|]);
            apply Forall_nil_2))
  end.
  exact H.
Qed.

Lemma createHUD_grows e p : grows (createHUD e p).
Proof.
  intros w x H. unfold createHUD.
  destruct (playerHudMap w !! p); [exact H|]. cbv zeta.
  destruct (FindUIWidgetWithName _ _) as [root|].
  - cbn [widgets withHudMap]. apply buildHudWidgets_grows, AddUIContainer_grows, H.
  - apply AddUIContainer_grows, H.
Qed.

Lemma createTeamSwitchUi_grows e p : grows (createTeamSwitchUi e p).
Proof.
  intros w x H. unfold createTeamSwitchUi.
  destruct (playerTeamSwitchUiMap w !! p); [exact H|]. cbv zeta.
  set (w2 := AddUIContainer e _ _ _ _ (AddUIText e _ _ _ _ _ w)).
  assert (H2 : is_Some (widgets w2 !! x))
    by (apply AddUIContainer_grows, AddUIText_grows, H).
  destruct (FindUIWidgetWithName w2 _) as [panel|]; [|exact H2].
  apply (grows_uiTree _ (fun y =>
           updateTeamSwitchButtonState_keeps uiTree p (tolerant_setters _ uiTree_tolerant) y)).
  assert (He : forall h, grows (whenFound h enableBothEvents)).
  { intros h. apply grows_uiTree. intros y.
    apply (whenFound_keeps uiTree h enableBothEvents). intros b z.
    unfold enableBothEvents.
    destruct uiTree_tolerant as (_ & _ & _ & _ & Hev & _). rewrite !Hev. reflexivity. }
  apply He, He, He. cbn [widgets withTeamSwitchUiMap].
  match goal with
  | |- is_Some (widgets (fold_left _ ?steps w2) !! x) =>
    apply (grows_steps steps
      ltac:(repeat (apply Forall_cons; split;
                    [first [apply AddUIText_grows | apply AddUIButton_grows]|]);
            apply Forall_nil_2))
  end.
  exact H2.
Qed.

Lemma initializePlayerState_grows e p : grows (initializePlayerState e p).
Proof.
  intros w x H. unfold initializePlayerState.
  apply (grows_uiTree _ (fun y =>
           ensureTeamSwitchInteractPoint_keeps uiTree e p uiTree_tolerant y)).
  apply createTeamSwitchUi_grows, createHUD_grows, H.
Qed.

Lemma createHUD_shape e q w :
  playerHudMap (createHUD e q w) = playerHudMap w \/
  playerHudMap w !! q = None /\
  playerHudMap (createHUD e q w) = <[q := hudNames q]> (playerHudMap w).
Proof.
  unfold createHUD. destruct (playerHudMap w !! q) eqn:Hq; [left; reflexivity|]. cbv zeta.
  destruct (FindUIWidgetWithName _ _) as [root|].
  - right. split; [reflexivity|]. cbn [playerHudMap withHudMap].
    rewrite (onlyWidgets_hudMap _ _ (buildHudWidgets_onlyWidgets e q root)).
    rewrite (onlyWidgets_hudMap _ _ (AddUIContainer_onlyWidgets e _ _ _ _)). reflexivity.
  - left. apply (onlyWidgets_hudMap _ _ (AddUIContainer_onlyWidgets e _ _ _ _)).
Qed.

Lemma createHUD_named e q w : hudRegistryNamed w -> hudRegistryNamed (createHUD e q w).
Proof.
  intros Hreg q' hud. destruct (createHUD_shape e q w) as [-> | [_ ->]]; [apply Hreg|].
  destruct (decide (q = q')) as [<-|Hne].
  - rewrite lookup_insert_eq. intros [= <-]. reflexivity.
  - rewrite lookup_insert_ne by exact Hne. apply Hreg.
Qed.

Lemma initializePlayerState_named e q w :
  hudRegistryNamed w -> hudRegistryNamed (initializePlayerState e q w).
Proof.
  intros Hreg q' hud. rewrite initializePlayerState_hudMap. apply createHUD_named, Hreg.
Qed.

Lemma AddUIText_self e name size parent visible m w :
  uiAccepts e name = true ->
  is_Some (widgets (AddUIText e name size parent visible m w) !! name).
Proof.
  intros Ha. unfold AddUIText, AddUIWidget. rewrite Ha. cbn [widgets withWidgets].
  rewrite lookup_insert_eq. eauto.
Qed.

(** In an engine that registers every widget, a first [createHUD] leaves
    the player's two score labels in the store. *)
Lemma createHUD_labels e p w :
  acceptsAll e -> playerHudMap w !! p = None ->
  is_Some (widgets (createHUD e p w) !! blueScoreName (hudNames p)) /\
  is_Some (widgets (createHUD e p w) !! redScoreName (hudNames p)).
Proof.
  intros Hacc Hnone. unfold createHUD. rewrite Hnone. cbv zeta.
  rewrite FindUIWidgetWithName_found.
  2:{ unfold AddUIContainer, AddUIWidget. rewrite Hacc. cbn [widgets withWidgets].
      rewrite lookup_insert_eq. eauto. }
  cbn [widgets withHudMap]. unfold buildHudWidgets. cbv zeta. cbn [fold_left].
  split;
    repeat first [ apply AddUIText_self; apply Hacc
                 | apply AddUIText_grows
                 | apply AddUIContainer_grows ].
Qed.

Lemma OnPlayerJoinGame_hudMap e q w :
  playerHudMap (OnPlayerJoinGame e q w) = playerHudMap (initializePlayerState e q w).
Proof.
  unfold OnPlayerJoinGame.
  rewrite (updateAllObjectiveIcons_keeps playerHudMap e) by (repeat split).
  apply (updateAllHudScores_keeps playerHudMap e). repeat split.
Qed.

Lemma labelsShowScores_join e q w p :
  hudRegistryNamed w ->
  In p (allPlayers e) ->
  playerHudMap (createHUD e q w) !! p = Some (hudNames p) ->
  is_Some (widgets (createHUD e q w) !! blueScoreName (hudNames p)) ->
  is_Some (widgets (createHUD e q w) !! redScoreName (hudNames p)) ->
  labelsShowScores (OnPlayerJoinGame e q w) p.
Proof.
  intros Hreg Hin Hhud Hb Hr. unfold OnPlayerJoinGame.
  apply labelsShowScores_icons. unfold updateAllHudScores.
  assert (Hg : forall x, is_Some (widgets (createHUD e q w) !! x) ->
                         is_Some (widgets (initializePlayerState e q w) !! x)).
  { intros x Hx. unfold initializePlayerState.
    apply (grows_uiTree _ (fun y =>
             ensureTeamSwitchInteractPoint_keeps uiTree e q uiTree_tolerant y)).
    apply createTeamSwitchUi_grows, Hx. }
  apply labelsShowScores_fold.
  - apply initializePlayerState_named, Hreg.
  - rewrite initializePlayerState_hudMap. exact Hhud.
  - apply Hg, Hb.
  - apply Hg, Hr.
  - left. exact Hin.
Qed.

(** X25.  The score labels follow the scores, for every listed player.  In
    a world whose HUD entries hold the names [createHUD] makes, a pass of
    [updateAllHudScores] leaves the two labels of each listed player whose
    labels exist showing the scores from that player's side, whatever other
    players' passes ran before or after; a pass of the match loop keeps them
    so, refreshing them whenever a score changes; anybody's join refreshes
    them; and a first join, in an engine that registers every widget, gives
    the newcomer labels that show them at once.  Joins and loop passes keep
    the entries so named. *)
Theorem score_labels_follow_scores (e : Env) (w : World) (p : Z) :
  hudRegistryNamed w ->
  In p (allPlayers e) ->
  (playerHudMap w !! p = Some (hudNames p) ->
   is_Some (widgets w !! blueScoreName (hudNames p)) ->
   is_Some (widgets w !! redScoreName (hudNames p)) ->
   labelsShowScores (updateAllHudScores e w) p /\
   (labelsShowScores w p -> labelsShowScores (matchTick e w) p) /\
   (forall q, labelsShowScores (OnPlayerJoinGame e q w) p)) /\
  (acceptsAll e -> playerHudMap w !! p = None ->
   labelsShowScores (OnPlayerJoinGame e p w) p) /\
  (forall q, hudRegistryNamed (OnPlayerJoinGame e q w)) /\
  hudRegistryNamed (matchTick e w).
Proof.
  intros Hreg Hin. split; [|split; [|split]].
  - intros Hhud Hb Hr. split; [|split].
    + unfold updateAllHudScores.
      apply labelsShowScores_fold; [exact Hreg | exact Hhud | exact Hb | exact Hr | left; exact Hin].
    + intros Hs. unfold matchTick. apply labelsShowScores_icons.
      apply labelsShowScores_updateTeamScores; assumption.
    + intros q. apply labelsShowScores_join; [exact Hreg | exact Hin | | |].
      * apply createHUD_keeps, Hhud.
      * apply createHUD_grows, Hb.
      * apply createHUD_grows, Hr.
  - intros Hacc Hnone. destruct (createHUD_labels e p w Hacc Hnone) as [Hb Hr].
    apply labelsShowScores_join; [exact Hreg | exact Hin | | exact Hb | exact Hr].
    apply createHUD_stores; [exact Hnone | left; apply Hacc].
  - intros q q' hud.
    rewrite (OnPlayerJoinGame_hudMap e q w). apply initializePlayerState_named, Hreg.
  - intros q hud.
    rewrite (matchTick_keeps playerHudMap e) by (repeat split). apply Hreg.
Qed.

(** Player 7, on team 2, joins a match that stands at 30 : 12: the left
    label shows team 2's 12, the right one team 1's 30. *)
Lemma score_labels_follow_scores_witness :
  let w := SetTeam 7 (GetTeam 2) (withGameState freshWorld (mkGameState 30 12)) in
  labelOf (OnPlayerJoinGame joinEnv 7 w) (named "HUD_BLUE_SCORE_" 7) = Some (MsgScore 12) /\
  labelOf (OnPlayerJoinGame joinEnv 7 w) (named "HUD_RED_SCORE_" 7) = Some (MsgScore 30).
Proof.
  intros w.
  assert (Hreg : hudRegistryNamed w).
  { intros q hud H. exfalso. exact (lookup_empty_Some (M := gmap Z) q hud H). }
  destruct (score_labels_follow_scores joinEnv w 7 Hreg ltac:(left; reflexivity))
    as (_ & Hnew & _).
  destruct (Hnew ltac:(intros name; reflexivity) eq_refl) as [Hb Hr].
  split; [transitivity (Some (MsgScore (fst (relativeScores
                                            (GetPlayerTeam (OnPlayerJoinGame joinEnv 7 w) 7)
                                            (gameState (OnPlayerJoinGame joinEnv 7 w))))));
          [exact Hb | vm_compute; reflexivity]
         |transitivity (Some (MsgScore (snd (relativeScores
                                            (GetPlayerTeam (OnPlayerJoinGame joinEnv 7 w) 7)
                                            (gameState (OnPlayerJoinGame joinEnv 7 w))))));
          [exact Hr | vm_compute; reflexivity]].
Defined.

(** ** The objective icons of every listed player *)

Lemma pretty_N_go_ne_I x s s' :
  s <> "I" +:+ s' -> pretty_N_go x s <> "I" +:+ s'.
Proof.
  revert s. induction (N.lt_wf_0 x) as [x _ IH]; intros s Hs.
  assert (Hx : (x = 0 \/ 0 < x)%N) by lia. destruct Hx as [->|Hx].
  - rewrite pretty_N_go_0. exact Hs.
  - rewrite pretty_N_go_step by exact Hx. apply IH.
    + apply N.div_lt; [exact Hx | reflexivity].
    + unfold pretty_N_char. repeat case_match; discriminate.
Qed.

(** A printed number does not begin with the letter I. *)
Lemma pretty_Z_not_I (z : Z) s : pretty z <> "I" +:+ s.
Proof.
  destruct z as [|x|x].
  - discriminate.
  - unfold pretty, pretty_Z, pretty, pretty_positive, pretty, pretty_N.
    destruct (decide (N.pos x = 0%N)); [discriminate|].
    apply pretty_N_go_ne_I. discriminate.
  - discriminate.
Qed.

Lemma named_inner_apart a p q : named a p <> named (a +:+ "INNER_") q.
Proof.
  unfold named. intros H.
  assert (E : (a +:+ "INNER_") +:+ pretty q = a +:+ ("INNER_" +:+ pretty q)).
  { clear H. induction a as [|c a IH]; [reflexivity|].
    change (String c ((a +:+ "INNER_") +:+ pretty q)
            = String c (a +:+ ("INNER_" +:+ pretty q))).
    rewrite IH. reflexivity. }
  rewrite E in H. apply string_app_inv_head in H.
  exact (pretty_Z_not_I p _ H).
Qed.

Ltac names_apart H :=
  first
    [ solve [unfold named in H; discriminate H]
    | solve [apply named_id_inj in H; congruence]
    | solve [exfalso; revert H; apply named_inner_apart]
    | solve [exfalso; symmetry in H; revert H; apply named_inner_apart] ].

(** Plates of different stacks, or of different players, are different
    widgets. *)
Lemma plates_apart z z' p q a b :
  z <> z' \/ p <> q ->
  In a (stackOf z (hudNames p)) -> In b (stackOf z' (hudNames q)) -> a <> b.
Proof.
  intros Hd Ha Hb H.
  destruct z, z';
    cbn [stackOf hudNames objA_Neutral objA_NeutralInner objA_Friendly
         objA_FriendlyInner objA_Enemy objA_EnemyInner
         objB_Neutral objB_NeutralInner objB_Friendly
         objB_FriendlyInner objB_Enemy objB_EnemyInner
         objC_Neutral objC_NeutralInner objC_Friendly
         objC_FriendlyInner objC_Enemy objC_EnemyInner] in Ha, Hb;
    first [ assert (Hpq : p <> q) by (destruct Hd as [Hd|Hd]; [congruence | exact Hd])
          | idtac ];
    repeat (destruct Ha as [<-|Ha]; [|]); try (destruct Ha);
    repeat (destruct Hb as [<-|Hb]; [|]); try (destruct Hb);
    names_apart H.
Qed.

Lemma updateSingleObjectiveVisibility_other pt ot n ni f fi en eni w name :
  ~ In name [n; ni; f; fi; en; eni] ->
  isVisible (updateSingleObjectiveVisibility pt ot n ni f fi en eni w) name
  = isVisible w name.
Proof.
  intros Hnot.
  assert (Hne : n <> name /\ ni <> name /\ f <> name /\ fi <> name /\
               en <> name /\ eni <> name).
  { repeat split; intros ->; apply Hnot; cbn; tauto. }
  destruct Hne as (H1 & H2 & H3 & H4 & H5 & H6).
  unfold updateSingleObjectiveVisibility.
  destruct (FindUIWidgetWithName w n) as [x1|] eqn:F1; [|reflexivity].
  destruct (FindUIWidgetWithName w ni) as [x2|] eqn:F2; [|reflexivity].
  destruct (FindUIWidgetWithName w f) as [x3|] eqn:F3; [|reflexivity].
  destruct (FindUIWidgetWithName w fi) as [x4|] eqn:F4; [|reflexivity].
  destruct (FindUIWidgetWithName w en) as [x5|] eqn:F5; [|reflexivity].
  destruct (FindUIWidgetWithName w eni) as [x6|] eqn:F6; [|reflexivity].
  apply FindUIWidgetWithName_Some in F1 as [-> _].
  apply FindUIWidgetWithName_Some in F2 as [-> _].
  apply FindUIWidgetWithName_Some in F3 as [-> _].
  apply FindUIWidgetWithName_Some in F4 as [-> _].
  apply FindUIWidgetWithName_Some in F5 as [-> _].
  apply FindUIWidgetWithName_Some in F6 as [-> _].
  cbv zeta. destruct ot as [o|].
  - destruct (_ && _); [|destruct (Equals pt o)];
      rewrite !isVisible_set_ne by assumption; reflexivity.
  - rewrite !isVisible_set_ne by assumption; reflexivity.
Qed.

Lemma refreshStack_uiTree pt ot z hud w : uiTree (refreshStack pt ot z hud w) = uiTree w.
Proof.
  destruct z; apply updateSingleObjectiveVisibility_keeps, tolerant_setters, uiTree_tolerant.
Qed.

Lemma refreshStack_exists pt ot z hud w x :
  is_Some (widgets w !! x) -> is_Some (widgets (refreshStack pt ot z hud w) !! x).
Proof. apply uiTree_exists. symmetry. apply refreshStack_uiTree. Qed.

Lemma refreshStack_other pt ot z hud w name :
  ~ In name (stackOf z hud) ->
  isVisible (refreshStack pt ot z hud w) name = isVisible w name.
Proof. destruct z; apply updateSingleObjectiveVisibility_other. Qed.

Lemma refreshStack_own pt ot z p w :
  (forall name, In name (stackOf z (hudNames p)) -> is_Some (widgets w !! name)) ->
  map (isVisible (refreshStack pt ot z (hudNames p) w)) (stackOf z (hudNames p))
  = showing (classifyOwner pt ot).
Proof.
  intros Hex.
  assert (Hall : Forall (fun x => is_Some (FindUIWidgetWithName w x))
                        (stackOf z (hudNames p))).
  { apply List.Forall_forall. intros x Hx. apply FindUIWidgetWithName_is_Some, Hex, Hx. }
  pose proof (hudNames_stack_NoDup z p) as Hnd.
  destruct z; cbn [stackOf refreshStack map] in *;
    match goal with
    | |- context [updateSingleObjectiveVisibility ?a ?b ?n ?ni ?f ?fi ?en ?eni ?x] =>
      destruct (updateSingleObjectiveVisibility_plates a b n ni f fi en eni x Hnd Hall)
        as (V1 & V2 & V3 & V4 & V5 & V6)
    end;
    rewrite V1, V2, V3, V4, V5, V6;
    destruct (classifyOwner pt ot); reflexivity.
Qed.

Lemma updateObjectiveIconsOf_unfold a b c p w hud :
  playerHudMap w !! p = Some hud ->
  updateObjectiveIconsOf a b c p w =
  refreshStack (GetPlayerTeam w p) c ZoneC hud
    (refreshStack (GetPlayerTeam w p) b ZoneB hud
       (refreshStack (GetPlayerTeam w p) a ZoneA hud w)).
Proof. intros H. unfold updateObjectiveIconsOf. rewrite H. reflexivity. Qed.

(** A player's own pass sets the player's three stacks. *)
Lemma updateObjectiveIconsOf_own e p w :
  playerHudMap w !! p = Some (hudNames p) ->
  platesExist w p ->
  forall z,
    map (isVisible (updateObjectiveIconsOf (ownerOfPoint e 100) (ownerOfPoint e 101)
                                           (ownerOfPoint e 102) p w))
        (stackOf z (hudNames p))
    = showing (classifyOwner (GetPlayerTeam w p) (ownerOfZone e z)).
Proof.
  intros Hhud Hex z.
  rewrite (updateObjectiveIconsOf_unfold _ _ _ p w _ Hhud).
  set (pt := GetPlayerTeam w p).
  set (wA := refreshStack pt (ownerOfPoint e 100) ZoneA (hudNames p) w).
  set (wB := refreshStack pt (ownerOfPoint e 101) ZoneB (hudNames p) wA).
  assert (Hskip : forall z1 z2 ot x, z1 <> z2 ->
            map (isVisible (refreshStack pt ot z2 (hudNames p) x)) (stackOf z1 (hudNames p))
            = map (isVisible x) (stackOf z1 (hudNames p))).
  { intros z1 z2 ot x Hne. apply map_ext_in. intros name Hin.
    apply refreshStack_other. intros Hin2.
    exact (plates_apart z1 z2 p p name name (or_introl Hne) Hin Hin2 eq_refl). }
  destruct z.
  - rewrite (Hskip ZoneA ZoneC) by discriminate.
    unfold wB. rewrite (Hskip ZoneA ZoneB) by discriminate.
    apply refreshStack_own. intros name Hin. apply (Hex ZoneA), Hin.
  - rewrite (Hskip ZoneB ZoneC) by discriminate.
    apply refreshStack_own. intros name Hin.
    apply refreshStack_exists, (Hex ZoneB), Hin.
  - apply refreshStack_own. intros name Hin.
    apply refreshStack_exists, refreshStack_exists, (Hex ZoneC), Hin.
Qed.

(** Another player's pass leaves them alone. *)
Lemma updateObjectiveIconsOf_other a b c p q w :
  hudRegistryNamed w -> p <> q ->
  forall z name, In name (stackOf z (hudNames p)) ->
    isVisible (updateObjectiveIconsOf a b c q w) name = isVisible w name.
Proof.
  intros Hreg Hne z name Hin.
  destruct (playerHudMap w !! q) as [hud|] eqn:Hq.
  - rewrite (updateObjectiveIconsOf_unfold _ _ _ q w hud Hq).
    rewrite (Hreg q hud Hq).
    rewrite !refreshStack_other; [reflexivity | | |];
      intros Hin2; exact (plates_apart z _ p q name name (or_intror Hne) Hin Hin2 eq_refl).
  - unfold updateObjectiveIconsOf. rewrite Hq. reflexivity.
Qed.

Lemma platesExist_uiTree a b p : uiTree a = uiTree b -> platesExist b p -> platesExist a p.
Proof.
  intros H Hb z name Hin. apply (uiTree_exists b a); [symmetry; exact H | apply (Hb z), Hin].
Qed.

Lemma iconsShowOwners_inputs e a b p :
  hudInputs a = hudInputs b ->
  (forall z name, In name (stackOf z (hudNames p)) -> isVisible a name = isVisible b name) ->
  iconsShowOwners e b p -> iconsShowOwners e a p.
Proof.
  intros Hi Hv Hb z.
  assert (Ht : GetPlayerTeam a p = GetPlayerTeam b p).
  { unfold hudInputs in Hi. injection Hi as _ _ Ht. unfold GetPlayerTeam. rewrite Ht.
    reflexivity. }
  rewrite Ht, <- (Hb z). apply map_ext_in. intros name Hin. apply (Hv z), Hin.
Qed.

Lemma iconsShowOwners_fold e l : forall w p,
  hudRegistryNamed w ->
  playerHudMap w !! p = Some (hudNames p) ->
  platesExist w p ->
  (In p l \/ iconsShowOwners e w p) ->
  iconsShowOwners e
    (fold_left (fun acc player =>
                  updateObjectiveIconsOf (ownerOfPoint e 100) (ownerOfPoint e 101)
                                         (ownerOfPoint e 102) player acc) l w) p.
Proof.
  induction l as [|q l IH]; intros w p Hreg Hhud Hex Hcase.
  - destruct Hcase as [[]|H]. exact H.
  - cbn [fold_left].
    pose proof (updateObjectiveIconsOf_keeps hudInputs (ownerOfPoint e 100)
                  (ownerOfPoint e 101) (ownerOfPoint e 102) q hudInputs_setterBlind w) as Hin.
    pose proof (updateObjectiveIconsOf_keeps uiTree (ownerOfPoint e 100)
                  (ownerOfPoint e 101) (ownerOfPoint e 102) q
                  (tolerant_setters _ uiTree_tolerant) w) as Htree.
    apply IH.
    + apply (hudRegistryNamed_inputs _ w Hin Hreg).
    + rewrite (hudInputs_registry _ w Hin). exact Hhud.
    + apply (platesExist_uiTree _ w p Htree Hex).
    + destruct (decide (q = p)) as [->|Hne].
      * right. intros z.
        assert (Ht : GetPlayerTeam (updateObjectiveIconsOf (ownerOfPoint e 100)
                       (ownerOfPoint e 101) (ownerOfPoint e 102) p w) p = GetPlayerTeam w p).
        { unfold hudInputs in Hin. injection Hin as _ _ Ht. unfold GetPlayerTeam.
          rewrite Ht. reflexivity. }
        rewrite Ht. apply updateObjectiveIconsOf_own; assumption.
      * destruct Hcase as [[?|Hl]|Hs]; [contradiction | left; exact Hl |].
        right. apply (iconsShowOwners_inputs e _ w p Hin); [|exact Hs].
        intros z name Hn.
        apply (updateObjectiveIconsOf_other _ _ _ p q w Hreg ltac:(congruence) z name Hn).
Qed.

Lemma iconsShowOwners_refresh e w p :
  hudRegistryNamed w ->
  In p (allPlayers e) ->
  playerHudMap w !! p = Some (hudNames p) ->
  platesExist w p ->
  iconsShowOwners e (updateAllObjectiveIcons e w) p.
Proof.
  intros Hreg Hin Hhud Hex. unfold updateAllObjectiveIcons. cbv zeta.
  apply iconsShowOwners_fold; [exact Hreg | exact Hhud | exact Hex | left; exact Hin].
Qed.

(** In an engine that registers every widget, a first [createHUD] leaves
    the player's eighteen plates in the store. *)
Lemma createHUD_plates e p w :
  acceptsAll e -> playerHudMap w !! p = None -> platesExist (createHUD e p w) p.
Proof.
  intros Hacc Hnone z name Hin. unfold createHUD. rewrite Hnone. cbv zeta.
  rewrite FindUIWidgetWithName_found.
  2:{ unfold AddUIContainer, AddUIWidget. rewrite Hacc. cbn [widgets withWidgets].
      rewrite lookup_insert_eq. eauto. }
  cbn [widgets withHudMap]. unfold buildHudWidgets. cbv zeta. cbn [fold_left].
  destruct z; cbn [stackOf] in Hin;
    repeat (destruct Hin as [<-|Hin]; [|]); try (destruct Hin);
    repeat first [ apply AddUIText_self; apply Hacc
                 | apply AddUIText_grows
                 | apply AddUIContainer_grows ].
Qed.

Lemma iconsShowOwners_join e q w p :
  hudRegistryNamed w ->
  In p (allPlayers e) ->
  playerHudMap (createHUD e q w) !! p = Some (hudNames p) ->
  platesExist (createHUD e q w) p ->
  iconsShowOwners e (OnPlayerJoinGame e q w) p.
Proof.
  intros Hreg Hin Hhud Hex. unfold OnPlayerJoinGame.
  set (x := initializePlayerState e q w).
  pose proof (updateAllHudScores_keeps hudInputs e hudInputs_setterBlind x) as Hi.
  pose proof (updateAllHudScores_keeps uiTree e (tolerant_setters _ uiTree_tolerant) x) as Ht.
  apply iconsShowOwners_refresh.
  - apply (hudRegistryNamed_inputs _ x Hi). apply initializePlayerState_named, Hreg.
  - exact Hin.
  - rewrite (hudInputs_registry _ x Hi). unfold x.
    rewrite initializePlayerState_hudMap. exact Hhud.
  - apply (platesExist_uiTree _ x p Ht). intros z name Hn.
    unfold x, initializePlayerState.
    apply (grows_uiTree _ (fun y =>
             ensureTeamSwitchInteractPoint_keeps uiTree e q uiTree_tolerant y)).
    apply createTeamSwitchUi_grows, (Hex z), Hn.
Qed.

(** X26.  The objective icons show the owners, for every listed player.  In
    a world whose HUD entries hold the names [createHUD] makes, a pass of
    [updateAllObjectiveIcons] leaves each of the three stacks of each listed
    player whose plates exist showing exactly the pair that goes with the
    zone's owner as seen from that player's team, whatever other players'
    passes ran before or after; so does every pass of the match loop and
    anybody's join; and a first join, in an engine that registers every
    widget, gives the newcomer stacks that show them at once. *)
Theorem objective_icons_show_owners (e : Env) (w : World) (p : Z) :
  hudRegistryNamed w ->
  In p (allPlayers e) ->
  (playerHudMap w !! p = Some (hudNames p) ->
   platesExist w p ->
   iconsShowOwners e (updateAllObjectiveIcons e w) p /\
   iconsShowOwners e (matchTick e w) p /\
   (forall q, iconsShowOwners e (OnPlayerJoinGame e q w) p)) /\
  (acceptsAll e -> playerHudMap w !! p = None ->
   iconsShowOwners e (OnPlayerJoinGame e p w) p).
Proof.
  intros Hreg Hin. split.
  - intros Hhud Hex. split; [|split].
    + apply iconsShowOwners_refresh; assumption.
    + unfold matchTick.
      pose proof (updateTeamScores_keeps playerHudMap e ltac:(repeat split)
                    ltac:(repeat split) w) as Hh.
      pose proof (updateTeamScores_keeps uiTree e (tolerant_setters _ uiTree_tolerant)
                    uiTree_scoreBlind w) as Ht.
      apply iconsShowOwners_refresh.
      * intros q hud. rewrite Hh. apply Hreg.
      * exact Hin.
      * rewrite Hh. exact Hhud.
      * apply (platesExist_uiTree _ w p Ht Hex).
    + intros q. apply iconsShowOwners_join; [exact Hreg | exact Hin | |].
      * apply createHUD_keeps, Hhud.
      * intros z name Hn. apply createHUD_grows, (Hex z), Hn.
  - intros Hacc Hnone.
    apply iconsShowOwners_join; [exact Hreg | exact Hin | |].
    + apply createHUD_stores; [exact Hnone | left; apply Hacc].
    + apply createHUD_plates; assumption.
Qed.

(** Player 7, on team 2, joins while team 1 holds zone A and zone B is
    unowned: stack A shows the enemy pair, stack B the neutral pair. *)
Lemma objective_icons_show_owners_witness :
  let e := snapshot (Some (GetTeam 1)) None (Some (GetTeam 2)) 0%num 0 false [7] in
  let w := SetTeam 7 (GetTeam 2) freshWorld in
  map (isVisible (OnPlayerJoinGame e 7 w)) (stackOf ZoneA (hudNames 7))
    = [false; false; false; false; true; true] /\
  map (isVisible (OnPlayerJoinGame e 7 w)) (stackOf ZoneB (hudNames 7))
    = [true; true; false; false; false; false].
Proof.
  intros e w.
  assert (Hreg : hudRegistryNamed w).
  { intros q hud H. exfalso. exact (lookup_empty_Some (M := gmap Z) q hud H). }
  destruct (objective_icons_show_owners e w 7 Hreg ltac:(left; reflexivity)) as (_ & Hnew).
  pose proof (Hnew ltac:(intros name; reflexivity) eq_refl) as Hs.
  split.
  - transitivity (showing (classifyOwner (GetPlayerTeam (OnPlayerJoinGame e 7 w) 7)
                                         (ownerOfZone e ZoneA)));
      [exact (Hs ZoneA) | vm_compute; reflexivity].
  - transitivity (showing (classifyOwner (GetPlayerTeam (OnPlayerJoinGame e 7 w) 7)
                                         (ownerOfZone e ZoneB)));
      [exact (Hs ZoneB) | vm_compute; reflexivity].
Defined.

(** ** The panel machinery never writes on the HUD *)

Lemma textView_labelOf a b name : textView a = textView b -> labelOf a name = labelOf b name.
Proof.
  unfold textView, labelOf. intros H.
  assert (E : forall w : World,
            wLabel <$> widgets w !! name
            = fst <$> ((fun x => (wLabel x, wSize x)) <$> widgets w) !! name).
  { intros w. rewrite lookup_fmap. destruct (widgets w !! name); reflexivity. }
  rewrite !E, H. reflexivity.
Qed.

Lemma textView_sizeOf a b name : textView a = textView b -> sizeOf a name = sizeOf b name.
Proof.
  unfold textView, sizeOf. intros H.
  assert (E : forall w : World,
            wSize <$> widgets w !! name
            = snd <$> ((fun x => (wLabel x, wSize x)) <$> widgets w) !! name).
  { intros w. rewrite lookup_fmap. destruct (widgets w !! name); reflexivity. }
  rewrite !E, H. reflexivity.
Qed.

Lemma textView_setVisible h b w : textView (SetUIWidgetVisible h b w) = textView w.
Proof. apply map_fmap_alter_same. reflexivity. Qed.

Lemma textView_setEnabled h b w : textView (SetUIButtonEnabled h b w) = textView w.
Proof. apply map_fmap_alter_same. reflexivity. Qed.

Lemma textView_updateTeamSwitchButtonState p w :
  textView (updateTeamSwitchButtonState p w) = textView w.
Proof.
  unfold updateTeamSwitchButtonState.
  destruct (playerTeamSwitchUiMap w !! p) as [ui|]; [|reflexivity].
  destruct (FindUIWidgetWithName w (team1ButtonName ui)); [|reflexivity].
  destruct (FindUIWidgetWithName w (team2ButtonName ui)); [|reflexivity].
  rewrite !textView_setEnabled. reflexivity.
Qed.

Lemma textView_setTeamSwitchPanelVisible e p v w :
  textView (setTeamSwitchPanelVisible e p v w) = textView w.
Proof.
  unfold setTeamSwitchPanelVisible.
  destruct (playerTeamSwitchUiMap w !! p) as [ui|]; [|reflexivity]. cbv zeta.
  change (whenFound (FindUIWidgetWithName w (closeTextName ui))
            (fun x => SetUIWidgetVisible x v) _)
    with (setVisibleAll w v (panelWidgetNames ui) w).
  assert (H1 : textView (setVisibleAll w v (panelWidgetNames ui) w) = textView w).
  { unfold setVisibleAll.
    apply (keeps_fold textView (setVisibleIfFound w v)). intros name x.
    unfold setVisibleIfFound.
    apply (whenFound_keeps textView). intros h y. apply textView_setVisible. }
  destruct v; [|exact H1].
  rewrite textView_updateTeamSwitchButtonState.
  rewrite !(whenFound_keeps textView _ _ (fun h y => textView_setEnabled h true y)).
  exact H1.
Qed.

Lemma textView_OnPlayerUIButtonEvent e p widget ev w :
  textView (OnPlayerUIButtonEvent e p widget ev w) = textView w.
Proof.
  assert (Hsw : forall t, textView (forceUndeployPlayer e p
                 (setTeamSwitchPanelVisible e p false
                   (updateTeamSwitchButtonState p (SetTeam p t w)))) = textView w).
  { intros t.
    rewrite (forceUndeployPlayer_keeps textView e p) by (repeat split).
    rewrite textView_setTeamSwitchPanelVisible, textView_updateTeamSwitchButtonState.
    reflexivity. }
  unfold OnPlayerUIButtonEvent. cbv zeta.
  destruct (_ && _); [reflexivity|].
  destruct (playerTeamSwitchUiMap w !! p) as [ui|]; [|reflexivity].
  destruct (negb (panelVisible ui)); [reflexivity|].
  destruct (isButtonClick _ _ _ _ _).
  { destruct (negb _); [reflexivity|]. apply textView_setTeamSwitchPanelVisible. }
  destruct (isButtonClick _ _ _ _ _).
  { destruct (negb _); [reflexivity|]. apply Hsw. }
  destruct (isButtonClick _ _ _ _ _); [|reflexivity].
  destruct (negb _); [reflexivity|]. apply Hsw.
Qed.

Lemma textView_OngoingPlayer e p w : textView (OngoingPlayer e p w) = textView w.
Proof.
  destruct (isPlayerValid e p) eqn:Hv.
  - rewrite (OngoingPlayer_valid e p w Hv). cbv zeta.
    match goal with
    | |- context [manageInteractPoint e p ?x] =>
      destruct (manageInteractPoint_frame e p x) as (_ & Hw & _)
    end.
    unfold textView at 1. rewrite Hw. fold (textView (pollWorld e p w)).
    assert (H1 : textView (pollWorld e p w) = textView w)
      by (rewrite checkMultiClick_frame; reflexivity).
    assert (H3 : forall x, textView x = textView w ->
               textView (match playerTeamSwitchUiMap x !! p with
                         | Some ui =>
                           if panelVisible ui
                              && (matchTimeElapsed e - panelOpenedAt ui >? 15)%num
                           then setTeamSwitchPanelVisible e p false x
                           else x
                         | None => x
                         end) = textView w).
    { intros x Hx. destruct (playerTeamSwitchUiMap x !! p) as [ui|]; [|exact Hx].
      destruct (_ && _); [|exact Hx].
      rewrite textView_setTeamSwitchPanelVisible. exact Hx. }
    apply H3.
    destruct (pollFires e p w); [|exact H1].
    destruct (playerTeamSwitchUiMap (pollWorld e p w) !! p) as [ui|]; [|exact H1].
    rewrite textView_setTeamSwitchPanelVisible. exact H1.
  - unfold OngoingPlayer. rewrite Hv. reflexivity.
Qed.

(** X27.  The panel machinery never writes on the HUD.  A UI button event
    and the per-player tick leave every widget's label and size as they
    were; so a team switch made through the panel refreshes nothing: when the
    two scores differ, the labels of a player who has just moved from team 2
    to team 1 still show the scores from the side the player left, until the
    next refresh. *)
Theorem panel_events_leave_hud_text_alone
        (e : Env) (p : Z) (widget : string) (w : World) :
  (forall ev name,
     labelOf (OnPlayerUIButtonEvent e p widget ev w) name = labelOf w name /\
     sizeOf (OnPlayerUIButtonEvent e p widget ev w) name = sizeOf w name) /\
  (forall name,
     labelOf (OngoingPlayer e p w) name = labelOf w name /\
     sizeOf (OngoingPlayer e p w) name = sizeOf w name) /\
  (forall ui,
     playerTeamSwitchUiMap w !! p = Some ui ->
     panelVisible ui = true ->
     clickTarget w ui widget = Team1Button ->
     GetPlayerTeam w p = GetTeam 2 ->
     team1Score (gameState w) <> team2Score (gameState w) ->
     labelsShowScores w p ->
     ~ labelsShowScores (OnPlayerUIButtonEvent e p widget ButtonUp w) p).
Proof.
  split; [|split].
  - intros ev name.
    pose proof (textView_OnPlayerUIButtonEvent e p widget ev w) as H.
    split; [apply textView_labelOf | apply textView_sizeOf]; exact H.
  - intros name. pose proof (textView_OngoingPlayer e p w) as H.
    split; [apply textView_labelOf | apply textView_sizeOf]; exact H.
  - intros ui Hui Hvis Ht Hteam Hne [Hb _] [Hb' _].
    assert (Hl : labelOf (OnPlayerUIButtonEvent e p widget ButtonUp w)
                         (blueScoreName (hudNames p))
                 = labelOf w (blueScoreName (hudNames p)))
      by (apply textView_labelOf, textView_OnPlayerUIButtonEvent).
    assert (Hg : gameState (OnPlayerUIButtonEvent e p widget ButtonUp w) = gameState w).
    { apply (OnPlayerUIButtonEvent_keeps gameState e p widget ButtonUp); repeat split. }
    assert (Ht1 : GetPlayerTeam (OnPlayerUIButtonEvent e p widget ButtonUp w) p = GetTeam 1).
    { rewrite (OnPlayerUIButtonEvent_release e p widget w ui Hui Hvis).
      unfold clickTarget in Ht.
      destruct (isCloseClick w ui widget); [discriminate|].
      destruct (isTeam1Click w ui widget);
        [|destruct (isTeam2Click w ui widget); discriminate].
      apply (switchTeam_effects e p (GetTeam 1) w ui Hui). }
    rewrite Hl, Hg, Ht1 in Hb'. rewrite Hteam in Hb. rewrite Hb in Hb'.
    apply Hne. unfold relativeScores, Equals, GetTeam in Hb'. cbn in Hb'.
    injection Hb' as Hb'. symmetry. exact Hb'.
Qed.

(** Player 7 joined on team 2 at 30 : 12 and saw 12 : 30; after the release
    on the team-1 button the labels are the same, and no longer the view of
    the player's team. *)
Lemma panel_events_leave_hud_text_alone_witness :
  let w := setTeamSwitchPanelVisible (atTime 10) 7 true
             (OnPlayerJoinGame joinEnv 7
                (SetTeam 7 (GetTeam 2) (withGameState freshWorld (mkGameState 30 12)))) in
  let w' := OnPlayerUIButtonEvent (atTime 12) 7 (named "HUD_TEAM_SWITCH_T1_" 7) ButtonUp w in
  labelsShowScores w 7 /\ ~ labelsShowScores w' 7.
Proof.
  intros w w'.
  assert (Hs : labelsShowScores w 7) by (split; vm_compute; reflexivity).
  split; [exact Hs|].
  destruct (panel_events_leave_hud_text_alone (atTime 12) 7 (named "HUD_TEAM_SWITCH_T1_" 7) w)
    as (_ & _ & Hstale).
  apply (Hstale (setPanelState true 10 (setInteractPoint (Some 9007) (teamSwitchNames 7)))).
  - vm_compute. reflexivity.
  - reflexivity.
  - vm_compute. reflexivity.
  - vm_compute. reflexivity.
  - vm_compute. discriminate.
  - exact Hs.
Defined.
